(** * A shallow embedding of [utils/download.py]

  The media acquisition engine of the bot: URL classification, the three
  provider strategies (Instagram JSON/HTML, the ssstik resolver for TikTok,
  the generic yt-dlp strategy), streamed file retrieval, the compliance
  transcoder and cleanup.

  Python values are modelled as follows.
  - [str] and [bytes] are [string] (sequences of 8-bit characters); the
    string functions below agree with Python's on ASCII text.
  - [pathlib.Path] is the path string; the file system is a finite map
    from path strings to file contents (regular files only).
  - exceptions are the inductive type [exn]; a computation is a function
    from the state of the world to an outcome and a new state.
  - the outside world (HTTP servers, yt-dlp, ffmpeg, the operating
    system's refusal to delete a file, the [re], [json] and [html]
    modules) is a record of oracles, [Env]. *)

From Stdlib Require Import ZArith QArith Ascii String List Bool Lia Sorted.
From stdpp Require Import gmap strings list pretty.

Open Scope string_scope.
Open Scope Z_scope.

(** ** Python string operations (ASCII) *)

Module PyStr.

Definition chr (n : nat) : ascii := ascii_of_nat n.
Definition ord (c : ascii) : nat := nat_of_ascii c.

Definition is_upper (c : ascii) : bool := (65 <=? ord c)%nat && (ord c <=? 90)%nat.
Definition is_lower (c : ascii) : bool := (97 <=? ord c)%nat && (ord c <=? 122)%nat.
Definition is_digit (c : ascii) : bool := (48 <=? ord c)%nat && (ord c <=? 57)%nat.
Definition is_alpha (c : ascii) : bool := is_upper c || is_lower c.

(** [str.isspace] on ASCII: HT, LF, VT, FF, CR, FS, GS, RS, US and space. *)
Definition is_space (c : ascii) : bool :=
  ((9 <=? ord c)%nat && (ord c <=? 13)%nat)
  || ((28 <=? ord c)%nat && (ord c <=? 32)%nat).

Definition lower_char (c : ascii) : ascii :=
  if is_upper c then chr (ord c + 32) else c.

(** [s.lower()] *)
Fixpoint lower (s : string) : string :=
  match s with
  | EmptyString => EmptyString
  | String c s' => String (lower_char c) (lower s')
  end.

(** [s.startswith(p)] *)
Fixpoint startswith (p s : string) : bool :=
  match p, s with
  | EmptyString, _ => true
  | String a p', String b s' => if ascii_dec a b then startswith p' s' else false
  | String _ _, EmptyString => false
  end.

(** [needle in hay] *)
Fixpoint contains (needle hay : string) : bool :=
  startswith needle hay ||
  match hay with
  | EmptyString => false
  | String _ hay' => contains needle hay'
  end.

(** [bool(s)]: a string is truthy when it is not empty. *)
Definition truthy (s : string) : bool :=
  match s with EmptyString => false | _ => true end.

Definition mem_char (c : ascii) (cs : string) : bool :=
  contains (String c EmptyString) cs.

(** [s.lstrip(chars)] for a predicate on characters. *)
Fixpoint lstrip_by (f : ascii -> bool) (s : string) : string :=
  match s with
  | String c s' => if f c then lstrip_by f s' else s
  | EmptyString => EmptyString
  end.

Definition rstrip_by (f : ascii -> bool) (s : string) : string :=
  String.rev (lstrip_by f (String.rev s)).

(** [s.strip()] *)
Definition strip (s : string) : string := rstrip_by is_space (lstrip_by is_space s).

(** [s.lstrip(cs)] and [s.rstrip(cs)] *)
Definition lstrip (cs s : string) : string := lstrip_by (fun c => mem_char c cs) s.
Definition rstrip (cs s : string) : string := rstrip_by (fun c => mem_char c cs) s.

(** [s.replace(c, "")] for a set of characters. *)
Fixpoint remove_by (f : ascii -> bool) (s : string) : string :=
  match s with
  | EmptyString => EmptyString
  | String c s' => if f c then remove_by f s' else String c (remove_by f s')
  end.

Fixpoint forallb (f : ascii -> bool) (s : string) : bool :=
  match s with
  | EmptyString => true
  | String c s' => f c && forallb f s'
  end.


(** [s.partition(c)] where [c] ranges over a set of characters: the text
    before the first such character, and the rest starting at it
    ([None] when there is none). *)
Fixpoint break_at (f : ascii -> bool) (s : string) : string * option string :=
  match s with
  | EmptyString => (EmptyString, None)
  | String c s' =>
      if f c then (EmptyString, Some s)
      else let '(a, b) := break_at f s' in (String c a, b)
  end.

(** [s.split(c, 1)]: [(before, Some after)] when [c] occurs. *)
Definition split1 (c : ascii) (s : string) : string * option string :=
  match break_at (fun x => if ascii_dec x c then true else false) s with
  | (a, Some (String _ b)) => (a, Some b)
  | (a, _) => (a, None)
  end.

(** [s.split(c)] *)
Fixpoint split_go (c : ascii) (cur : string) (s : string) : list string :=
  match s with
  | EmptyString => [String.rev cur]
  | String x s' =>
      if ascii_dec x c then String.rev cur :: split_go c EmptyString s'
      else split_go c (String x cur) s'
  end.
Definition split (c : ascii) (s : string) : list string := split_go c EmptyString s.

(** [len(s)] *)
Definition len (s : string) : Z := Z.of_nat (String.length s).

(** [any(p(x) for x in xs)] *)
Definition any {A} (p : A -> bool) (xs : list A) : bool := existsb p xs.

End PyStr.

(** ** Exceptions and outcomes *)

(** The exception classes the module raises, catches or lets through. *)
Inductive exn : Type :=
| DownloadError (msg : string)        (* utils.download.DownloadError *)
| YtDlpDownloadError (msg : string)   (* yt_dlp.utils.DownloadError *)
| RequestException                    (* requests.RequestException and subclasses *)
| FfmpegError                         (* ffmpeg.Error *)
| ValueError (msg : string)
| IndexError
| FileNotFoundError
| OSError (msg : string)              (* any other OSError, e.g. PermissionError *)
| OtherException (name : string).     (* any other subclass of Exception *)

(** Two built-in exceptions the module neither raises by name nor
    catches by name. *)
Definition AttributeError : exn := OtherException "AttributeError".
Definition TypeError : exn := OtherException "TypeError".

Definition is_DownloadError (e : exn) : bool :=
  match e with DownloadError _ => true | _ => false end.

(** The outcome of a call: a value or a raised exception. *)
Inductive Res (A : Type) : Type :=
| Ret (a : A)
| Raise (e : exn).
Arguments Ret {A} a.
Arguments Raise {A} e.

Definition res_bind {A B} (r : Res A) (k : A -> Res B) : Res B :=
  match r with
  | Ret a => k a
  | Raise e => Raise e
  end.

Definition is_Ret {A} (r : Res A) : bool :=
  match r with Ret _ => true | Raise _ => false end.

(** ** [urllib.parse.urlparse]

  The splitting algorithm of CPython's [urlsplit] and [urlparse] on ASCII
  text: leading C0 controls and spaces are dropped, tab, CR and LF are
  removed, a scheme is recognised, the network location runs from [//] to
  the first of [/?#].  A network location with an unbalanced square
  bracket raises [ValueError("Invalid IPv6 URL")]; one with both brackets
  is checked as [_check_bracketed_netloc] checks it: nothing may stand
  before the opening bracket or between the closing bracket and the port,
  and the bracketed text must be an IPv6 or IPvFuture literal, as
  [ipaddress.ip_address] reads it.  On text that is not ASCII the library
  does more (NFKC checks, Unicode case mapping); the model is exact on
  ASCII text only, see [PyStr.is_ascii]. *)

Module Url.
Import PyStr.

Record ParseResult : Type := {
  scheme : string;
  netloc : string;
  path : string;
  params : string;
  query : string;
  fragment : string;
}.

Definition is_char (c : ascii) : ascii -> bool :=
  fun x => if ascii_dec x c then true else false.

Definition scheme_char (c : ascii) : bool :=
  is_alpha c || is_digit c || mem_char c "+-.".

Definition c0_control_or_space (c : ascii) : bool := (ord c <=? 32)%nat.

Definition unsafe_byte (c : ascii) : bool :=
  (ord c =? 9)%nat || (ord c =? 10)%nat || (ord c =? 13)%nat.

Definition split_scheme (url : string) : string * string :=
  match break_at (is_char ":") url with
  | (String c0 pre, Some (String _ rest)) =>
    if is_alpha c0 && forallb scheme_char (String c0 pre)
    then (lower (String c0 pre), rest)
    else (EmptyString, url)
  | _ => (EmptyString, url)
  end.

(** The text up to and including the last [c], and the text after it. *)
Definition rbreak (c : ascii) (s : string) : string * string :=
  match break_at (is_char c) (String.rev s) with
  | (last_rev, Some head_rev) => (String.rev head_rev, String.rev last_rev)
  | (last_rev, None) => (EmptyString, String.rev last_rev)
  end.

(** *** [ipaddress.ip_address], as far as validity goes *)

Definition is_hex (c : ascii) : bool :=
  is_digit c || ((97 <=? ord c)%nat && (ord c <=? 102)%nat)
  || ((65 <=? ord c)%nat && (ord c <=? 70)%nat).

Fixpoint decimal (acc : Z) (s : string) : Z :=
  match s with
  | EmptyString => acc
  | String c s' => decimal (10 * acc + Z.of_nat (ord c - 48)) s'
  end.

(** [IPv4Address._parse_octet] does not raise. *)
Definition valid_octet (s : string) : bool :=
  truthy s && forallb is_digit s && (String.length s <=? 3)%nat
  && negb (negb (String.eqb s "0") && startswith "0" s)
  && (decimal 0 s <=? 255).

(** [IPv4Address(s)] does not raise. *)
Definition valid_ipv4 (s : string) : bool :=
  negb (mem_char "/" s) && truthy s
  && match split "." s with
     | [a; b; c; d] => valid_octet a && valid_octet b && valid_octet c && valid_octet d
     | _ => false
     end.

(** [IPv6Address._parse_hextet] does not raise. *)
Definition valid_hextet (s : string) : bool :=
  truthy s && forallb is_hex s && (String.length s <=? 4)%nat.

(** [_split_scope_id]: the address without its [%scope], [None] when the
    scope is empty or contains another [%]. *)
Definition split_scope_id (s : string) : option string :=
  match split1 "%" s with
  | (addr, None) => Some addr
  | (addr, Some scope_id) =>
      if truthy scope_id && negb (mem_char "%" scope_id) then Some addr else None
  end.

(** An IPv4-style last part is replaced by the two hextets it stands for
    (here two zero hextets: only validity is computed). *)
Definition expand_ipv4_suffix (parts : list string) : option (list string) :=
  match List.rev parts with
  | lastp :: init_rev =>
      if mem_char "." lastp
      then if valid_ipv4 lastp then Some (List.rev init_rev ++ ["0"; "0"])%list else None
      else Some parts
  | [] => Some parts
  end.

(** The positions [i] with [1 <= i < len(parts) - 1] and [parts[i]] empty. *)
Definition empty_inner_parts (parts : list string) : list nat :=
  List.filter
    (fun i => (1 <=? i)%nat && (S i <? length parts)%nat
              && negb (truthy (nth i parts "x")))
    (seq 0 (length parts)).

(** [IPv6Address._ip_int_from_string] does not raise. *)
Definition valid_ipv6_parts (parts : list string) : bool :=
  let first_empty := negb (truthy (nth 0 parts "x")) in
  let last_empty := negb (truthy (List.last parts "x")) in
  match empty_inner_parts parts with
  | [] =>
      (length parts =? 8)%nat && negb first_empty && negb last_empty
      && List.forallb valid_hextet parts
  | [skip_index] =>
      let parts_hi := if first_empty then (skip_index - 1)%nat else skip_index in
      let parts_lo := if last_empty then (length parts - skip_index - 2)%nat
                      else (length parts - skip_index - 1)%nat in
      negb (first_empty && negb (parts_hi =? 0)%nat)
      && negb (last_empty && negb (parts_lo =? 0)%nat)
      && (parts_hi + parts_lo <? 8)%nat
      && List.forallb valid_hextet (firstn parts_hi parts)
      && List.forallb valid_hextet (skipn (length parts - parts_lo) parts)
  | _ => false
  end.

(** [IPv6Address(s)] does not raise. *)
Definition valid_ipv6 (s : string) : bool :=
  negb (mem_char "/" s)
  && match split_scope_id s with
     | None => false
     | Some addr =>
         truthy addr
         && let parts := split ":" addr in
            (3 <=? length parts)%nat
            && match expand_ipv4_suffix parts with
               | None => false
               | Some parts => (length parts <=? 9)%nat && valid_ipv6_parts parts
               end
     end.

(** [re.match(r"\Av[a-fA-F0-9]+\..+\Z", hostname)] on text without line
    feeds: [v], hexadecimal digits, a dot, and at least one more character. *)
Definition ipvfuture (hostname : string) : bool :=
  match hostname with
  | String "v" rest =>
      match break_at (fun c => negb (is_hex c)) rest with
      | (String _ _, Some (String "." (String _ _))) => true
      | _ => false
      end
  | _ => false
  end.

(** [repr(s)] on ASCII text. *)
Definition hex_digit (n : nat) : ascii :=
  if (n <? 10)%nat then chr (48 + n) else chr (87 + n).

Definition py_repr (s : string) : string :=
  let quote : ascii :=
    if mem_char "'" s && negb (mem_char (chr 34) s) then chr 34 else "'"%char in
  let fix escape (s : string) : string :=
    match s with
    | EmptyString => EmptyString
    | String c s' =>
        (if is_char "\" c then "\\"
         else if is_char quote c then String "\" (String c EmptyString)
         else if (ord c =? 9)%nat then "\t"
         else if (ord c =? 10)%nat then "\n"
         else if (ord c =? 13)%nat then "\r"
         else if (ord c <? 32)%nat || (ord c =? 127)%nat
         then String "\" (String "x" (String (hex_digit (ord c / 16))
                (String (hex_digit (ord c mod 16)) EmptyString)))
         else String c EmptyString) ++ escape s'
    end in
  String quote (escape s ++ String quote EmptyString).

Definition _check_bracketed_host (hostname : string) : Res unit :=
  if startswith "v" hostname then
    if ipvfuture hostname then Ret tt
    else Raise (ValueError "IPvFuture address is invalid")
  else if valid_ipv4 hostname then
    Raise (ValueError "An IPv4 address cannot be in brackets")
  else if valid_ipv6 hostname then Ret tt
  else Raise (ValueError (py_repr hostname
                          ++ " does not appear to be an IPv4 or IPv6 address")).

Definition _check_bracketed_netloc (netloc : string) : Res unit :=
  let hostname_and_port := snd (rbreak "@" netloc) in
  match split1 "[" hostname_and_port with
  | (before_bracket, Some bracketed) =>
      if truthy before_bracket then Raise (ValueError "Invalid IPv6 URL")
      else
        let '(hostname, port) := split1 "]" bracketed in
        let port := default EmptyString port in
        if truthy port && negb (startswith ":" port)
        then Raise (ValueError "Invalid IPv6 URL")
        else _check_bracketed_host hostname
  | (_, None) =>
      _check_bracketed_host (fst (split1 ":" hostname_and_port))
  end.

Definition split_netloc (url : string) : Res (string * string) :=
  match url with
  | String "/" (String "/" rest) =>
    let '(nl, tail) := break_at (fun c => mem_char c "/?#") rest in
    if xorb (mem_char "[" nl) (mem_char "]" nl)
    then Raise (ValueError "Invalid IPv6 URL")
    else
      res_bind (if mem_char "[" nl && mem_char "]" nl
                then _check_bracketed_netloc nl else Ret tt)
        (fun _ => Ret (nl, default EmptyString tail))
  | _ => Ret (EmptyString, url)
  end.

Definition urlsplit (url : string) : Res ParseResult :=
  let url := lstrip_by c0_control_or_space url in
  let url := remove_by unsafe_byte url in
  let '(sch, url) := split_scheme url in
  res_bind (split_netloc url) (fun '(nl, url) =>
  let '(url, frag) := split1 "#" url in
  let '(url, qry) := split1 "?" url in
  Ret {| scheme := sch; netloc := nl; path := url; params := EmptyString;
       query := default EmptyString qry;
       fragment := default EmptyString frag |}).

Definition uses_params : list string :=
  [""; "ftp"; "hdl"; "prospero"; "http"; "imap"; "https"; "shttp"; "rtsp";
   "rtsps"; "rtspu"; "sip"; "sips"; "mms"; "sftp"; "tel"].

Definition _splitparams (url : string) : string * string :=
  let '(head, last) := rbreak "/" url in
  match split1 ";" last with
  | (before, Some after) => (head ++ before, after)
  | (_, None) => (url, EmptyString)
  end.

Definition urlparse (url : string) : Res ParseResult :=
  res_bind (urlsplit url) (fun r =>
  if bool_decide (scheme r ∈ uses_params) && mem_char ";" (path r)
  then let '(p, ps) := _splitparams (path r) in
     Ret {| scheme := scheme r; netloc := netloc r; path := p; params := ps;
            query := query r; fragment := fragment r |}
  else Ret r).

End Url.

(** ** Module constants *)

Definition DOWNLOAD_DIR : string := "downloads".
Definition INSTAGRAM_DOMAINS : list string := ["instagram.com"; "instagr.am"].
Definition TIKTOK_DOMAINS : list string :=
  ["tiktok.com"; "tiktokcdn.com"; "vm.tiktok.com"; "vt.tiktok.com"].
Definition SNAPCHAT_DOMAINS : list string := ["snapchat.com"; "story.snapchat.com"].
Definition LIKEE_DOMAINS : list string := ["likee.video"; "l.likee.video"; "like.video"].
Definition YOUTUBE_DOMAINS : list string :=
  ["youtube.com"; "youtu.be"; "m.youtube.com"; "music.youtube.com";
   "youtube-nocookie.com"].
Definition SUPPORTED_DOMAINS : list string :=
  INSTAGRAM_DOMAINS ++ TIKTOK_DOMAINS ++ SNAPCHAT_DOMAINS ++ LIKEE_DOMAINS
  ++ YOUTUBE_DOMAINS.
Definition INSTAGRAM_REQUEST_TIMEOUT : Z := 20.

(** ** URL predicates *)

Definition is_supported_url (url : string) : bool :=
  let lowered := PyStr.lower url in
  PyStr.any (fun domain => PyStr.contains domain lowered) SUPPORTED_DOMAINS.

(** [host = urlparse(url).netloc.lower()] and
    [any(domain in host for domain in domains)]: what the code calls the
    host is the whole network location, user information and port
    included. *)
Definition host_in (domains : list string) (url : string) : Res bool :=
  res_bind (Url.urlparse url) (fun r =>
  let host := PyStr.lower (Url.netloc r) in
  Ret (PyStr.any (fun domain => PyStr.contains domain host) domains)).

Definition _is_instagram_url (url : string) : Res bool := host_in INSTAGRAM_DOMAINS url.
Definition _is_tiktok_url (url : string) : Res bool := host_in TIKTOK_DOMAINS url.
Definition _is_snapchat_url (url : string) : Res bool := host_in SNAPCHAT_DOMAINS url.
Definition _is_likee_url (url : string) : Res bool := host_in LIKEE_DOMAINS url.
Definition _is_youtube_url (url : string) : Res bool := host_in YOUTUBE_DOMAINS url.

(** ** ffmpeg streams and arguments *)

Record ProbeStream : Type := {
  codec_type : option string;
  channels : option Z;
}.

Inductive AudioArgs : Type :=
| AudioNone                                                  (* an=None *)
| AudioTrack (acodec : string) (b_a : string) (ac : Z) (ar : Z).

Record OutputArgs : Type := {
  arg_vcodec : string;
  arg_movflags : string;
  arg_preset : string;
  arg_crf : Z;
  arg_pix_fmt : string;
  arg_profile_v : string;
  arg_level : string;
  arg_g : Z;
  arg_vsync : string;
  arg_audio : AudioArgs;
}.

(** ** The world: file system, clock, and ghost counters *)

(** The three provider strategies of [download_video]. *)
Inductive Strategy : Type :=
| InstagramStrategy   (* _download_instagram_media *)
| TikTokStrategy      (* _download_tiktok_media *)
| GenericStrategy.    (* _download_with_ytdlp *)

(** One run of the encoder: input path, target path, arguments. *)
Record FfmpegRun : Type := {
  run_input : string;
  run_target : string;
  run_args : OutputArgs;
}.

Record World : Type := {
  fs : gmap string string;     (* regular files: path to contents *)
  slept : list Z;              (* arguments of time.sleep, oldest first *)
  extract_calls : nat;         (* calls of ydl.extract_info so far *)
  invoked : list Strategy;     (* strategies entered so far, oldest first *)
  encoder_runs : list FfmpegRun;   (* runs of ffmpeg so far, oldest first *)
}.

Definition set_fs (f : gmap string string -> gmap string string) (w : World) : World :=
  {| fs := f (fs w); slept := slept w; extract_calls := extract_calls w;
     invoked := invoked w; encoder_runs := encoder_runs w |}.

Definition add_sleep (seconds : Z) (w : World) : World :=
  {| fs := fs w; slept := slept w ++ [seconds]; extract_calls := extract_calls w;
     invoked := invoked w; encoder_runs := encoder_runs w |}.

Definition add_invoked (s : Strategy) (w : World) : World :=
  {| fs := fs w; slept := slept w; extract_calls := extract_calls w;
     invoked := invoked w ++ [s]; encoder_runs := encoder_runs w |}.

Definition add_run (r : FfmpegRun) (w : World) : World :=
  {| fs := fs w; slept := slept w; extract_calls := extract_calls w;
     invoked := invoked w; encoder_runs := encoder_runs w ++ [r] |}.

Definition count_extract (w : World) : World :=
  {| fs := fs w; slept := slept w; extract_calls := S (extract_calls w);
     invoked := invoked w; encoder_runs := encoder_runs w |}.

(** A computation: state in, outcome and state out. *)
Definition M (A : Type) : Type := World -> Res A * World.

Definition ret {A} (a : A) : M A := fun w => (Ret a, w).
Definition raise {A} (e : exn) : M A := fun w => (Raise e, w).
Definition bind {A B} (c : M A) (k : A -> M B) : M B :=
  fun w => match c w with
           | (Ret a, w') => k a w'
           | (Raise e, w') => (Raise e, w')
           end.
Definition lift {A} (r : Res A) : M A := fun w => (r, w).

Declare Scope py_scope.
Delimit Scope py_scope with py.
Notation "x <- c ;; k" := (bind c (fun x => k))
  (at level 100, c at next level, right associativity) : py_scope.
Notation "c ;;; k" := (bind c (fun _ => k))
  (at level 100, right associativity) : py_scope.
Open Scope py_scope.

(** [try: body except ...: handler].  The handler selects the exceptions
    it catches; a handler runs in the state the body left behind. *)
Definition try_except {A} (body : M A) (handler : exn -> option (M A)) : M A :=
  fun w => match body w with
           | (Raise e, w') =>
               match handler e with
               | Some h => h w'
               | None => (Raise e, w')
               end
           | r => r
           end.

(** ** The environment *)

Record Settings : Type := {
  download_proxy : option string;
  download_socket_timeout : Z;
  download_retries : Z;
  download_user_agent : string;
}.

(** How the body of a streamed response ends: normally, or with a
    [requests.RequestException] raised by [iter_content]. *)
Inductive StreamTail : Type := StreamEnd | StreamBroken.

(** [requests.get(url, stream=True)]. *)
Inductive HttpStream : Type :=
| ConnectFailed                                    (* RequestException *)
| Streaming (status_code : Z) (chunks : list string) (tail : StreamTail).

(** [response.raise_for_status()] raises for 4xx and 5xx. *)
Definition http_error_status (status_code : Z) : bool :=
  (400 <=? status_code) && (status_code <? 600).

Definition Headers : Type := list (string * string).

Record HttpResponse : Type := {
  resp_status : Z;       (* response.status_code *)
  resp_text : string;    (* response.text *)
}.

(** [response.ok] *)
Definition resp_ok (r : HttpResponse) : bool := negb (http_error_status (resp_status r)).

(** *** yt-dlp info dictionaries *)

Record FormatEntry : Type := { fmt_vcodec : option string }.

Record InfoDict : Type := {
  info_vcodec : option string;
  info_ext : option string;
  info_id : option string;
  info_title : option string;
  info_duration : option Q;
  requested_formats : list (option FormatEntry);    (* None: not a dict *)
  requested_downloads : list (option FormatEntry);
  formats : list (option FormatEntry);
}.

(** What [extract_info] returns: the top-level dictionary, its [_type] and
    its [entries]. *)
Record Extracted : Type := {
  ex_info : InfoDict;
  ex_type : option string;
  ex_entries : list InfoDict;
}.

(** One call of [ydl.extract_info(url, download=True)]: what it returns or
    raises, and the files it leaves on disk. *)
Record ExtractOutcome : Type := {
  eo_result : Res (option Extracted);
  eo_written : list (string * string);
}.

Record YdlOpts : Type := {
  opt_outtmpl : string;
  opt_socket_timeout : Z;
  opt_retries : Z;
  opt_fragment_retries : Z;
  opt_user_agent : string;
  opt_referer : string;
  opt_format : string;
  opt_proxy : option string;
}.

(** *** Decoded JSON

    What a JSON decoder gives for a text, as far as the code that reads
    the value can tell: the decoder raises; or the text is valid JSON but
    a value on which the code calls [.get] is not an object, so that the
    call raises [AttributeError]; or the value has the shape the code
    reads. *)
Inductive Decoded (A : Type) : Type :=
| NotJson                 (* ValueError / json.JSONDecodeError *)
| NotObject               (* [.get] on a list, string, number, boolean or null *)
| Object (a : A).
Arguments NotJson {A}.
Arguments NotObject {A}.
Arguments Object {A} a.

(** *** Instagram payloads (decoded JSON)

    The fields the strategy reads, with the JSON types Instagram gives
    them. *)

Record IgNode : Type := {
  is_video : bool;
  video_url : option string;
  video_duration : option Q;
  display_url : option string;
  display_resources : option (list (option string));   (* the [src] of each *)
  thumbnail_src : option string;
}.

Record IgMedia : Type := {
  media_node : IgNode;                                 (* the media's own fields *)
  edge_sidecar_to_children : option (list (option IgNode));   (* edges, each with its node *)
  caption_texts : list (option string);                (* edge_media_to_caption *)
  accessibility_caption : option string;
}.

Record IgGraphql : Type := {
  shortcode_media : option IgMedia;
  reel : bool;
}.

Record IgPayload : Type := {
  graphql : option IgGraphql;
  items : list IgMedia;
}.

(** The [PostPage] value of a legacy script: a value that cannot be
    iterated ([for page in post_pages] raises [TypeError]), or its
    elements in order, each with its [graphql] value ([None] for an
    element, or a [graphql] value, on which [.get] raises
    [AttributeError]). *)
Inductive LegacyPages : Type :=
| PagesNotIterable
| Pages (pages : list (option (option IgGraphql))).

(** *** The ssstik resolver's JSON answer *)

(** The value under a key of the answer: a string, or a value of another
    JSON type with its truth value. *)
Inductive JsonField : Type :=
| FieldText (text : string)
| FieldOther (truth : bool).

Definition field_truthy (f : JsonField) : bool :=
  match f with
  | FieldText text => PyStr.truthy text
  | FieldOther truth => truth
  end.

Inductive SsstikJson : Type :=
| SsInvalid                        (* response.json() raises ValueError *)
| SsNotDict                        (* valid JSON, not an object *)
| SsDict (status : string)         (* str(payload.get("status", "")) *)
         (data : option JsonField) (result : option JsonField).

(** *** ffmpeg runs *)

(** How a run of ffmpeg on an existing input ends: with the encoded
    output at the target, or with [ffmpeg.Error]; a failed run may leave a
    created or truncated target behind ([overwrite_output()]). *)
Inductive FfmpegOutcome : Type :=
| Encoded (output : string)
| EncoderFailed (leftover : option string).

(** *** The record of oracles *)

Record Env : Type := {
  _settings : Settings;
  (* the operating system refuses to delete this existing file *)
  unlink_refused : string -> bool;
  (* requests *)
  http_stream : string -> Headers -> Z -> HttpStream;
  http_get : string -> list (string * string) -> Headers -> Z -> option HttpResponse;
  http_post : string -> list (string * string) -> Headers -> Z -> option HttpResponse;
  (* re, json, html, uuid, urllib.parse.parse_qs, int *)
  re_ssstik_token : string -> option string;
  ssstik_json : string -> SsstikJson;
  re_without_watermark : string -> option string;
  re_http_link : string -> option string;
  re_download_title : string -> option string;
  re_strip_tags : string -> string;
  html_unescape : string -> string;
  uuid4_hex : string;
  parse_qs : string -> list (string * list string);
  py_int : string -> option Z;
  instagram_json : string -> Decoded IgPayload;                    (* response.json() *)
  re_next_data : string -> option string;
  next_data_json : string -> Decoded (option IgGraphql);           (* props.pageProps.graphql *)
  re_legacy_scripts : string -> list string;
  legacy_json : string -> Decoded LegacyPages;                     (* entry_data.PostPage *)
  (* yt-dlp *)
  ydl_extract_info : YdlOpts -> string -> nat -> ExtractOutcome;
  ydl_prepare_filename : InfoDict -> string;
  (* ffmpeg *)
  ffmpeg_probe : string -> option (list ProbeStream);              (* None: ffmpeg.Error *)
  ffmpeg_run : string -> OutputArgs -> FfmpegOutcome;
}.

(** ** pathlib *)

Module Pathlib.
Import PyStr.

(** Paths are taken as written, without [.] components or doubled
    slashes; trailing slashes are dropped as [Path(...)] drops them. *)
Definition normal (p : string) : string := rstrip "/" p.

(** [p.name]: the text after the last slash. *)
Definition name (p : string) : string := snd (Url.rbreak "/" (normal p)).
Definition parent_prefix (p : string) : string := fst (Url.rbreak "/" (normal p)).

(** [p.suffix]: from the last dot of the name, unless that dot is the
    first or the last character of the name. *)
Definition split_ext (nm : string) : string * string :=
  match Url.rbreak "." nm with
  | (EmptyString, _) => (nm, EmptyString)
  | (String _ EmptyString, _) => (nm, EmptyString)
  | (_, EmptyString) => (nm, EmptyString)
  | (head, ext) =>
      (String.rev (match String.rev head with String _ h => h | EmptyString => EmptyString end),
       String "." ext)
  end.
Definition suffix (p : string) : string := snd (split_ext (name p)).
Definition stem (p : string) : string := fst (split_ext (name p)).

(** [p.with_name(n)] and [p.with_suffix(s)]; both raise [ValueError] on a
    path with an empty name. *)
Definition with_name (n : string) (p : string) : Res string :=
  if truthy (name p) then Ret (parent_prefix p ++ n)
  else Raise (ValueError "empty name").
Definition with_suffix (s : string) (p : string) : Res string :=
  if truthy (name p) then Ret (parent_prefix p ++ stem p ++ s)
  else Raise (ValueError "empty name").

(** [d / n] *)
Definition joinpath (d n : string) : string := d ++ "/" ++ n.

End Pathlib.

(** ** The engine *)

Inductive MediaType : Type := Video | Photo.

Record DownloadResult : Type := {
  file_path : string;
  title : string;
  duration : option Q;
  ext : string;
  media_type : MediaType;
}.

Section Engine.

Variable E : Env.

(** *** File system primitives *)

(** [path.exists()] *)
Definition path_exists (p : string) : M bool :=
  fun w => (Ret (bool_decide (is_Some (fs w !! p))), w).

(** [path.unlink()]: [FileNotFoundError] when the file is absent, an
    [OSError] when the operating system refuses. *)
Definition path_unlink (p : string) : M unit :=
  fun w => match fs w !! p with
           | None => (Raise FileNotFoundError, w)
           | Some _ =>
               if unlink_refused E p then (Raise (OSError "PermissionError"), w)
               else (Ret tt, set_fs (delete p) w)
           end.

(** [path.open("wb")]: the file is created or truncated.  The download
    directory is taken to be writable: an [OSError] of [open] or [write]
    is not modelled. *)
Definition open_wb (p : string) : M unit :=
  fun w => (Ret tt, set_fs (<[p := EmptyString]>) w).

(** [file.write(chunk)] *)
Definition file_write (p : string) (chunk : string) : M unit :=
  fun w => (Ret tt, set_fs (<[p := default EmptyString (fs w !! p) ++ chunk]>) w).

(** [path.stat().st_size] *)
Definition stat_size (p : string) : M Z :=
  fun w => match fs w !! p with
           | None => (Raise FileNotFoundError, w)
           | Some c => (Ret (PyStr.len c), w)
           end.

(** [time.sleep(seconds)] *)
Definition sleep (seconds : Z) : M unit :=
  fun w => (Ret tt, add_sleep seconds w).

(** Ghost: a strategy records that it was entered. *)
Definition enter (s : Strategy) : M unit :=
  fun w => (Ret tt, add_invoked s w).

(** *** [_download_file_from_url] *)

(** [for chunk in response.iter_content(...): if chunk: file.write(chunk)] *)
Fixpoint write_chunks (destination : string) (chunks : list string) : M unit :=
  match chunks with
  | [] => ret tt
  | chunk :: rest =>
      (if PyStr.truthy chunk then file_write destination chunk else ret tt) ;;;
      write_chunks destination rest
  end.

(** The body of the [try]: request, status check, streamed copy. *)
Definition stream_to_file (source_url : string) (destination : string)
    (headers : Headers) (timeout : Z) : M unit :=
  match http_stream E source_url headers timeout with
  | ConnectFailed => raise RequestException
  | Streaming status_code chunks tail =>
      if http_error_status status_code then raise RequestException
      else
        open_wb destination ;;;
        write_chunks destination chunks ;;;
        match tail with
        | StreamEnd => ret tt
        | StreamBroken => raise RequestException
        end
  end.

Definition default_headers : Headers :=
  [("User-Agent", download_user_agent (_settings E))].

(** [headers or {"User-Agent": ...}] *)
Definition effective_headers (headers : option Headers) : Headers :=
  match headers with
  | Some (h :: hs) => h :: hs
  | _ => default_headers
  end.

Definition _download_file_from_url (source_url : string) (destination : string)
    (headers : option Headers) (timeout : Z) : M unit :=
  try_except
    (stream_to_file source_url destination (effective_headers headers) timeout)
    (fun error =>
       match error with
       | RequestException =>
           Some (
             present <- path_exists destination ;;
             (if present
              then try_except (path_unlink destination) (fun _ => Some (ret tt))
              else ret tt) ;;;
             raise (DownloadError "Mediat faylini yuklab olishda xato yuz berdi."))
       | _ => None
       end).

(** *** [cleanup_file] *)

Definition cleanup_file (path : string) : M unit :=
  try_except (path_unlink path)
    (fun error =>
       match error with
       | FileNotFoundError => Some (ret tt)
       | _ => Some (ret tt)        (* logged *)
       end).

(** *** Codec inspection and transcoding *)

(** [(d.get(key) or "").strip()], then the test against ["none"]. *)
Definition real_codec (v : option string) : option string :=
  let codec := PyStr.strip (default EmptyString v) in
  if PyStr.truthy codec && negb (String.eqb (PyStr.lower codec) "none")
  then Some codec else None.

Fixpoint first_real_codec (collection : list (option FormatEntry)) : option string :=
  match collection with
  | [] => None
  | None :: rest => first_real_codec rest
  | Some entry :: rest =>
      match real_codec (fmt_vcodec entry) with
      | Some candidate => Some candidate
      | None => first_real_codec rest
      end
  end.

Definition _detect_video_codec (info : InfoDict) : option string :=
  match real_codec (info_vcodec info) with
  | Some codec => Some codec
  | None =>
      match first_real_codec (requested_formats info) with
      | Some c => Some c
      | None =>
          match first_real_codec (requested_downloads info) with
          | Some c => Some c
          | None => first_real_codec (formats info)
          end
      end
  end.

Definition _is_telegram_friendly_codec (codec : string) : bool :=
  let lowered := PyStr.lower codec in
  PyStr.startswith "avc" lowered || PyStr.startswith "h264" lowered.

Fixpoint _find_stream (streams : list ProbeStream) (stream_type : string)
    : option ProbeStream :=
  match streams with
  | [] => None
  | stream :: rest =>
      if bool_decide (codec_type stream = Some stream_type) then Some stream
      else _find_stream rest stream_type
  end.

Definition video_args : AudioArgs -> OutputArgs :=
  fun audio =>
  {| arg_vcodec := "libx264"; arg_movflags := "+faststart";
     arg_preset := "veryfast"; arg_crf := 23; arg_pix_fmt := "yuv420p";
     arg_profile_v := "baseline"; arg_level := "3.1"; arg_g := 48;
     arg_vsync := "vfr"; arg_audio := audio |}.

Definition output_args (has_audio : bool) : OutputArgs :=
  video_args (if has_audio then AudioTrack "aac" "128k" 2 48000 else AudioNone).

(** [ffmpeg.input(path).output(target, **args).overwrite_output().run()]:
    every run is recorded; ffmpeg fails on a missing input before it
    opens the target; on success the target holds the encoder's output; a
    run that fails later may leave what it wrote at the target. *)
Definition run_ffmpeg (path target : string) (args : OutputArgs) : M unit :=
  fun w =>
    let w := add_run {| run_input := path; run_target := target; run_args := args |} w in
    match fs w !! path with
    | None => (Raise FfmpegError, w)
    | Some input =>
        match ffmpeg_run E input args with
        | EncoderFailed None => (Raise FfmpegError, w)
        | EncoderFailed (Some partial) =>
            (Raise FfmpegError, set_fs (<[target := partial]>) w)
        | Encoded encoded => (Ret tt, set_fs (<[target := encoded]>) w)
        end
    end.

(** [target = path.with_suffix(".mp4")], renamed when it is [path] itself. *)
Definition transcode_target (path : string) : Res string :=
  res_bind (Pathlib.with_suffix ".mp4" path) (fun target =>
  if String.eqb target path
  then Pathlib.with_name (Pathlib.stem path ++ "_h264.mp4") path
  else Ret target).

Definition transcode_error : exn :=
  DownloadError "Videoni telegram uchun tayyorlashda xato yuz berdi.".

Definition _transcode_to_mp4 (path : string) (has_audio : bool) : M string :=
  target <- lift (transcode_target path) ;;
  try_except (run_ffmpeg path target (output_args has_audio))
    (fun error =>
       match error with
       | FfmpegError => Some (raise transcode_error)
       | _ => None
       end) ;;;
  present <- path_exists target ;;
  (if present && negb (String.eqb path target)
   then try_except (path_unlink path) (fun _ => Some (ret tt))
   else ret tt) ;;;
  ret target.

(** [ffmpeg.probe(str(path))] *)
Definition probe (path : string) : M (list ProbeStream) :=
  fun w => match fs w !! path with
           | None => (Raise FfmpegError, w)
           | Some content =>
               match ffmpeg_probe E content with
               | None => (Raise FfmpegError, w)
               | Some streams => (Ret streams, w)
               end
           end.

(** [bool(audio_stream and int(audio_stream.get("channels", 0)) > 0)] *)
Definition probed_has_audio (streams : list ProbeStream) : bool :=
  match _find_stream streams "audio" with
  | Some audio_stream => 0 <? default 0 (channels audio_stream)
  | None => false
  end.

Definition _ensure_playable_mp4 (path : string) : M string :=
  fun w => match probe path w with
           | (Raise FfmpegError, w') => _transcode_to_mp4 path true w'
           | (Raise e, w') => (Raise e, w')
           | (Ret streams, w') => _transcode_to_mp4 path (probed_has_audio streams) w'
           end.

(** *** The generic strategy: [_download_with_ytdlp] *)

Definition OUTPUT_TEMPLATE : string := Pathlib.joinpath DOWNLOAD_DIR "%(id)s.%(ext)s".

Definition ydl_format : string :=
  "bestvideo[ext=mp4][vcodec~=avc]+bestaudio[ext=m4a]/"
  ++ "bestvideo[ext=mp4]+bestaudio[ext=m4a]/"
  ++ "bestvideo*+bestaudio/best".

(** [retries = max(1, _settings.download_retries)] *)
Definition effective_retries : Z := Z.max 1 (download_retries (_settings E)).

Definition ydl_opts (is_instagram is_youtube is_snapchat is_likee : bool) : YdlOpts :=
  {| opt_outtmpl := OUTPUT_TEMPLATE;
     opt_socket_timeout := Z.max 10 (download_socket_timeout (_settings E));
     opt_retries := effective_retries;
     opt_fragment_retries := effective_retries;
     opt_user_agent := download_user_agent (_settings E);
     opt_referer :=
       if is_instagram then "https://www.instagram.com/"
       else if is_youtube then "https://www.youtube.com/"
       else if is_snapchat then "https://story.snapchat.com/"
       else if is_likee then "https://www.likee.video/"
       else "https://www.tiktok.com/";
     opt_format := ydl_format;
     opt_proxy :=
       match download_proxy (_settings E) with
       | Some p => if PyStr.truthy p then Some p else None
       | None => None
       end |}.

(** One call of [ydl.extract_info(url, download=True)]. *)
Definition extract_info (opts : YdlOpts) (url : string) : M (option Extracted) :=
  fun w =>
    let o := ydl_extract_info E opts url (extract_calls w) in
    (eo_result o,
     count_extract
       (set_fs (fun m => foldl (fun m kv => <[kv.1 := kv.2]> m) m (eo_written o)) w)).

(** [min(2 ** attempt, 10)] *)
Definition backoff (attempt : Z) : Z := Z.min (2 ^ attempt) 10.

(** [for attempt in range(1, retries + 1)], entered at [attempt] with
    [remaining] iterations to go.  The value is [info] after the loop. *)
Fixpoint extract_attempts (opts : YdlOpts) (url : string) (retries : Z)
    (attempt : Z) (remaining : nat) : M (option Extracted) :=
  match remaining with
  | O => ret None
  | S remaining' =>
      try_except (extract_info opts url)
        (fun exc =>
           match exc with
           | YtDlpDownloadError _ =>
               Some (if retries <=? attempt then raise exc
                     else sleep (backoff attempt) ;;;
                          extract_attempts opts url retries (attempt + 1) remaining')
           | _ => None
           end)
  end.

Definition extract_with_retries (opts : YdlOpts) (url : string) (retries : Z)
    : M (option Extracted) :=
  extract_attempts opts url retries 1 (Z.to_nat retries).

Definition still_image_exts : list string := ["jpg"; "jpeg"; "png"; "webp"; "ico"].

Definition entry_has_video (entry : InfoDict) : bool :=
  let vcodec := PyStr.lower (default EmptyString (info_vcodec entry)) in
  PyStr.truthy vcodec && negb (String.eqb vcodec "none").

Definition entry_not_still (entry : InfoDict) : bool :=
  let ext := PyStr.lower (default EmptyString (info_ext entry)) in
  PyStr.truthy ext && negb (bool_decide (ext ∈ still_image_exts)).

(** The playlist branch: which dictionary the rest of the worker uses. *)
Definition select_info (x : Extracted) : M InfoDict :=
  if bool_decide (ex_type x = Some "playlist") then
    match ex_entries x with
    | [] => raise (DownloadError "Post tarkibidagi media topilmadi.")
    | first :: _ =>
        match List.find entry_has_video (ex_entries x) with
        | Some entry => ret entry
        | None =>
            match List.find entry_not_still (ex_entries x) with
            | Some entry => ret entry
            | None => ret first
            end
        end
    end
  else ret (ex_info x).

(** [for ext in [...]: candidate = output.with_suffix(ext); ...; break] *)
Fixpoint first_existing (output : string) (exts : list string) : M string :=
  match exts with
  | [] => ret output
  | ext :: rest =>
      candidate <- lift (Pathlib.with_suffix ext output) ;;
      present <- path_exists candidate ;;
      if present then ret candidate else first_existing output rest
  end.

Definition resolve_output (output : string) : M string :=
  present <- path_exists output ;;
  output <- (if present then ret output
             else
               candidate <- lift (Pathlib.with_suffix ".mp4" output) ;;
               present <- path_exists candidate ;;
               if present then ret candidate
               else first_existing output
                      [".jpg"; ".jpeg"; ".png"; ".webp"; ".mkv"; ".webm"]) ;;
  present <- path_exists output ;;
  if present then ret output
  else raise (DownloadError "Yuklab olingan fayl topilmadi.").

Definition photo_exts : list string := ["jpg"; "jpeg"; "png"; "webp"].

Definition media_type_of (output : string) : MediaType :=
  if bool_decide (PyStr.lstrip "." (Pathlib.suffix output) ∈ photo_exts)
  then Photo else Video.

(** The codec gate at the end of the worker. *)
Definition repair_codec (info : InfoDict) (output : string) : M string :=
  match _detect_video_codec info with
  | Some video_codec =>
      if negb (_is_telegram_friendly_codec video_codec)
      then _ensure_playable_mp4 output
      else ret output
  | None => ret output
  end.

Definition _worker (url : string) : M DownloadResult :=
  let retries := effective_retries in
  is_instagram <- lift (_is_instagram_url url) ;;
  is_youtube <- lift (_is_youtube_url url) ;;
  is_snapchat <- lift (_is_snapchat_url url) ;;
  is_likee <- lift (_is_likee_url url) ;;
  let opts := ydl_opts is_instagram is_youtube is_snapchat is_likee in
  info <- extract_with_retries opts url retries ;;
  match info with
  | None => raise (DownloadError "Media haqida ma'lumot olinmadi.")
  | Some extracted =>
      info <- select_info extracted ;;
      output <- resolve_output (ydl_prepare_filename E info) ;;
      let media_type := media_type_of output in
      output <- (match media_type with
                 | Video => repair_codec info output
                 | Photo => ret output
                 end) ;;
      ret {| file_path := output;
             title := default "Instagram media" (info_title info);
             duration := info_duration info;
             ext := PyStr.lstrip "." (Pathlib.suffix output);
             media_type := media_type |}
  end.

Definition is_video_type (t : MediaType) : bool :=
  match t with Video => true | Photo => false end.

Definition _download_with_ytdlp (url : string) (ensure_playable : bool)
    : M DownloadResult :=
  enter GenericStrategy ;;;
  try_except
    (result <- _worker url ;;
     if ensure_playable && is_video_type (media_type result) then
       final_path <- _ensure_playable_mp4 (file_path result) ;;
       if negb (String.eqb final_path (file_path result)) then
         ret {| file_path := final_path; title := title result;
                duration := duration result;
                ext := PyStr.lstrip "." (Pathlib.suffix final_path);
                media_type := media_type result |}
       else ret result
     else ret result)
    (fun error =>
       match error with
       | YtDlpDownloadError msg =>
           Some (raise (DownloadError
             (if PyStr.contains "handshake operation timed out" (PyStr.lower msg)
              then "TikTok serveri juda sekin javob bermoqda. Birozdan so'ng qayta urinib ko'ring."
              else "Video yuklab olib bo'lmadi. Havolani tekshiring.")))
       | _ => Some (raise (DownloadError "Kutilmagan xato yuz berdi. Keyinroq urinib ko'ring."))
       end).

(** *** The TikTok strategy: the ssstik resolver *)

Definition _normalize_remote_url (raw_url : string) (base : string) : string :=
  let cleaned := PyStr.strip raw_url in
  if negb (PyStr.truthy cleaned) then cleaned
  else if PyStr.startswith "//" cleaned then "https:" ++ cleaned
  else if PyStr.startswith "/" cleaned then PyStr.rstrip "/" base ++ cleaned
  else cleaned.

Definition ssstik_error : exn := DownloadError "TikTok videosini olishda xato yuz berdi.".

Definition session_headers : Headers :=
  [("User-Agent", download_user_agent (_settings E));
   ("Accept-Language", "en-US,en;q=0.9")].

Definition ssstik_post_headers : Headers :=
  [("Referer", "https://ssstik.io/");
   ("X-Requested-With", "XMLHttpRequest");
   ("Content-Type", "application/x-www-form-urlencoded; charset=UTF-8");
   ("Accept", "application/json, text/javascript, */*; q=0.01")].

(** [session.get(...)] or [session.post(...)] followed by
    [raise_for_status()], inside [try ... except requests.RequestException]. *)
Definition checked (r : option HttpResponse) (on_error : exn) : M HttpResponse :=
  match r with
  | None => raise on_error
  | Some response =>
      if http_error_status (resp_status response) then raise on_error
      else ret response
  end.

(** [a or b] on values that may be missing. *)
Definition field_or (a : option JsonField) (b : JsonField) : JsonField :=
  match a with
  | Some f => if field_truthy f then f else b
  | None => b
  end.

(** [status] and [html_block] after decoding the resolver's answer. *)
Definition ssstik_decode (response : HttpResponse) : option string * JsonField :=
  match ssstik_json E (resp_text response) with
  | SsInvalid => (None, FieldText (resp_text response))
  | SsNotDict => (None, FieldText EmptyString)
  | SsDict status data result =>
      (let s := PyStr.lower status in if PyStr.truthy s then Some s else None,
       field_or data (field_or result (FieldText EmptyString)))
  end.

Definition truthy_opt (o : option string) : option string :=
  match o with
  | Some s => if PyStr.truthy s then Some s else None
  | None => None
  end.

(** The link of the video inside the resolver's HTML fragment. *)
Definition ssstik_video_url (html_block : string) : option string :=
  match truthy_opt (re_without_watermark E html_block) with
  | Some link => Some link
  | None => truthy_opt (re_http_link E html_block)
  end.

Definition ssstik_title (html_block : string) : string :=
  match re_download_title E html_block with
  | Some inner =>
      let raw_title := PyStr.strip (re_strip_tags E inner) in
      if PyStr.truthy raw_title then html_unescape E raw_title else "TikTok video"
  | None => "TikTok video"
  end.

(** The size gate after the transfer. *)
Definition MIN_TIKTOK_BYTES : Z := 120 * 1024.

Definition check_tiktok_size (file_path : string) : M unit :=
  try_except
    (size <- stat_size file_path ;;
     if size <? MIN_TIKTOK_BYTES then raise (DownloadError "SSStik bo'sh video qaytardi.")
     else ret tt)
    (fun error =>
       match error with
       | FileNotFoundError => Some (raise (DownloadError "TikTok video fayli topilmadi."))
       | _ => None
       end).

Definition _download_tiktok_via_ssstik (url : string) : M DownloadResult :=
  landing <- checked (http_get E "https://ssstik.io/" nil session_headers 20) ssstik_error ;;
  let token := default EmptyString (re_ssstik_token E (resp_text landing)) in
  let payload := [("id", url); ("locale", "en"); ("tt", token)] in
  response <- checked (http_post E "https://ssstik.io/abc?url=dl" payload
                         (session_headers ++ ssstik_post_headers)%list 30) ssstik_error ;;
  let '(status, html_block) := ssstik_decode response in
  if match status with
     | Some s => negb (bool_decide (s ∈ ["ok"; "success"]))
     | None => false
     end
  then raise ssstik_error
  else if negb (field_truthy html_block) then raise ssstik_error
  else
    match html_block with
    | FieldOther _ => raise TypeError          (* re.search(pattern, html_block) *)
    | FieldText html_block =>
    match ssstik_video_url html_block with
    | None => raise (DownloadError "SSStik javobidan video havolasi topilmadi.")
    | Some video_url =>
        let video_url := _normalize_remote_url (html_unescape E video_url) "https://ssstik.io" in
        let title := ssstik_title html_block in
        let file_id := uuid4_hex E in
        let file_path := Pathlib.joinpath DOWNLOAD_DIR (file_id ++ ".mp4") in
        _download_file_from_url video_url file_path
          (Some [("User-Agent", download_user_agent (_settings E));
                 ("Referer", "https://ssstik.io/")]) 40 ;;;
        check_tiktok_size file_path ;;;
        ret {| file_path := file_path; title := title; duration := None;
               ext := "mp4"; media_type := Video |}
    end
    end.

Definition _download_tiktok_media (url : string) : M DownloadResult :=
  enter TikTokStrategy ;;;
  try_except (_download_tiktok_via_ssstik url)
    (fun error =>
       match error with
       | DownloadError _ => Some (raise error)     (* logged, re-raised *)
       | _ => None
       end).

(** *** The Instagram strategy *)

Definition INSTAGRAM_HEADERS : Headers :=
  [("User-Agent", download_user_agent (_settings E));
   ("Accept", "application/json");
   ("Accept-Language", "en-US,en;q=0.9");
   ("Referer", "https://www.instagram.com/");
   ("X-Requested-With", "XMLHttpRequest");
   ("X-IG-App-ID", "936619743392459")].

(** [{**INSTAGRAM_HEADERS, "Accept": ...}] *)
Definition INSTAGRAM_HTML_HEADERS : Headers :=
  [("User-Agent", download_user_agent (_settings E));
   ("Accept", "text/html,application/xhtml+xml,application/xml;q=0.9,*/*;q=0.8");
   ("Accept-Language", "en-US,en;q=0.9");
   ("Referer", "https://www.instagram.com/");
   ("X-Requested-With", "XMLHttpRequest");
   ("X-IG-App-ID", "936619743392459")].

(** [query[key][0]] when [key in query]. *)
Fixpoint query_first (key : string) (q : list (string * list string))
    : option (option string) :=
  match q with
  | [] => None
  | (k, vs) :: rest =>
      if String.eqb k key then Some (head vs) else query_first key rest
  end.

Definition _extract_instagram_shortcode (url : string)
    : Res (option string * string * option Z) :=
  res_bind (Url.urlparse url) (fun parsed =>
  let parts := filter (fun segment => PyStr.truthy segment = true)
                 (PyStr.split "/" (Url.path parsed)) in
  match parts with
  | [] => Ret (None, "p", None)
  | part0 :: more =>
      let media_type := PyStr.lower part0 in
      let shortcode := match more with part1 :: _ => part1 | [] => part0 end in
      let shortcode := fst (PyStr.split1 "?" shortcode) in
      let media_type :=
        if bool_decide (media_type ∈ ["p"; "reel"; "tv"]) then media_type else "p" in
      let index :=
        match query_first "img_index" (parse_qs E (Url.query parsed)) with
        | Some (Some text) => py_int E text
        | _ => None
        end in
      Ret (if PyStr.truthy shortcode then Some shortcode else None, media_type, index)
  end).

Definition instagram_html_error : exn :=
  DownloadError "Instagram ma'lumotlarini olishda xato yuz berdi.".

(** The legacy layout: the first [PostPage] entry, over all scripts, whose
    [graphql] has a [shortcode_media]. *)
Definition usable_legacy (g : option IgGraphql) : bool :=
  match g with
  | Some graphql => bool_decide (is_Some (shortcode_media graphql))
  | None => false
  end.

(** [for page in post_pages]: the first page with a usable [graphql],
    unless a page before it makes [.get] raise. *)
Fixpoint first_usable_page (post_pages : list (option (option IgGraphql)))
    : Res (option IgGraphql) :=
  match post_pages with
  | [] => Ret None
  | None :: _ => Raise AttributeError
  | Some graphql :: rest =>
      if usable_legacy graphql then Ret graphql else first_usable_page rest
  end.

Fixpoint legacy_graphql (scripts : list string) : Res (option IgGraphql) :=
  match scripts with
  | [] => Ret None
  | script :: rest =>
      match legacy_json E script with
      | NotJson => legacy_graphql rest                           (* continue *)
      | NotObject => Raise AttributeError
      | Object PagesNotIterable => Raise TypeError
      | Object (Pages post_pages) =>
          res_bind (first_usable_page post_pages) (fun found =>
          match found with
          | Some graphql => Ret (Some graphql)
          | None => legacy_graphql rest
          end)
      end
  end.

Definition _fetch_instagram_payload_from_html (page_url : string) : M IgPayload :=
  match http_get E page_url [] INSTAGRAM_HTML_HEADERS INSTAGRAM_REQUEST_TIMEOUT with
  | None => raise instagram_html_error
  | Some response =>
      if resp_status response =? 404
      then raise (DownloadError "Instagram havolasi topilmadi yoki o'chirilgan.")
      else if negb (resp_ok response) then raise instagram_html_error
      else
        let html := resp_text response in
        from_next_data <-
          lift (match re_next_data E html with
                | Some json_text =>
                    match next_data_json E json_text with
                    | NotJson => Ret None                      (* logged *)
                    | NotObject => Raise AttributeError
                    | Object (Some graphql) =>
                        if bool_decide (is_Some (shortcode_media graphql)) || reel graphql
                        then Ret (Some graphql) else Ret None
                    | Object None => Ret None
                    end
                | None => Ret None
                end) ;;
        match from_next_data with
        | Some graphql => ret {| graphql := Some graphql; items := [] |}
        | None =>
            from_legacy <- lift (legacy_graphql (re_legacy_scripts E html)) ;;
            match from_legacy with
            | Some graphql => ret {| graphql := Some graphql; items := [] |}
            | None => raise instagram_html_error
            end
        end
  end.

Definition _fetch_instagram_payload (shortcode media_type : string) : M IgPayload :=
  let endpoint := "https://www.instagram.com/" ++ media_type ++ "/" ++ shortcode ++ "/" in
  let params := [("__a", "1"); ("__d", "dis")] in
  match http_get E endpoint params INSTAGRAM_HEADERS INSTAGRAM_REQUEST_TIMEOUT with
  | None => raise (DownloadError "Instagram bilan bog'lanib bo'lmadi.")
  | Some response =>
      match (if resp_ok response then instagram_json E (resp_text response)
             else NotJson) with
      | Object data =>
          if bool_decide (is_Some (graphql data))
             || match items data with [] => false | _ => true end
          then ret data
          else _fetch_instagram_payload_from_html endpoint
      | NotObject => raise AttributeError       (* data.get("graphql") *)
      | NotJson => _fetch_instagram_payload_from_html endpoint
      end
  end.

Definition _extract_instagram_caption (media : IgMedia) : string :=
  match List.find (fun t => PyStr.truthy t)
          (map (fun t => PyStr.strip (default EmptyString t)) (caption_texts media)) with
  | Some text => text
  | None => PyStr.strip (default EmptyString (accessibility_caption media))
  end.

(** The media of a payload: [graphql.shortcode_media], else the first item. *)
Definition payload_media (payload : IgPayload) : option IgMedia :=
  match match graphql payload with
        | Some g => shortcode_media g
        | None => None
        end with
  | Some media => Some media
  | None => head (items payload)
  end.

(** The nodes of a media: the children of a carousel, or the media itself. *)
Definition media_nodes (media : IgMedia) : list IgNode :=
  match edge_sidecar_to_children media with
  | Some edges => omap id edges
  | None => [media_node media]
  end.

(** The 0-based position chosen for a requested 1-based index. *)
Definition select_index (requested_index : option Z) (count : nat) : nat :=
  match requested_index with
  | Some i => if (1 <=? i) && (i <=? Z.of_nat count) then Z.to_nat (i - 1) else 0%nat
  | None => 0%nat
  end.

Definition duration_of (node : IgNode) (media : IgMedia) : option Q :=
  let truthy_q (d : option Q) :=
    match d with
    | Some q => if Qeq_bool q 0 then None else Some q
    | None => None
    end in
  match truthy_q (video_duration node) with
  | Some q => Some q
  | None => truthy_q (video_duration (media_node media))
  end.

(** [Path(urlparse(u).path).suffix.lstrip(".") or fallback] *)
Definition url_ext (u : string) (fallback : string) : Res string :=
  res_bind (Url.urlparse u) (fun parsed =>
  let e := PyStr.lstrip "." (Pathlib.suffix (Url.path parsed)) in
  Ret (if PyStr.truthy e then e else fallback)).

Definition nat_to_string (n : nat) : string := pretty n.

Definition instagram_file_path (shortcode : string) (index count : nat) (ext : string)
    : string :=
  let suffix := if (1 <? count)%nat then "_" ++ nat_to_string (index + 1) else "" in
  Pathlib.joinpath DOWNLOAD_DIR (shortcode ++ suffix ++ "." ++ ext).

(** [display_url or display_resources[-1].src or thumbnail_src] *)
Definition image_url_of (node : IgNode) : Res (option string) :=
  match truthy_opt (display_url node) with
  | Some u => Ret (Some u)
  | None =>
      res_bind
        (match display_resources node with
         | None => Ret None                       (* [{}][-1].get("src") *)
         | Some [] => Raise IndexError            (* [][-1] *)
         | Some (r :: rs) => Ret (truthy_opt (List.last rs r))
         end)
        (fun src =>
           match src with
           | Some u => Ret (Some u)
           | None => Ret (truthy_opt (thumbnail_src node))
           end)
  end.

(** The rest of [_download_instagram_media] once [node = nodes[index]] is
    chosen: the video or the image of the node is streamed to disk. *)
Definition download_node (shortcode : string) (media : IgMedia) (count index : nat)
    (node : IgNode) : M DownloadResult :=
  let caption := _extract_instagram_caption media in
  let title := if PyStr.truthy caption then caption else "Instagram " ++ shortcode in
  match (if is_video node then truthy_opt (video_url node) else None) with
  | Some video_url =>
      ext <- lift (url_ext video_url "mp4") ;;
      let file_path := instagram_file_path shortcode index count ext in
      _download_file_from_url video_url file_path
        (Some INSTAGRAM_HEADERS) INSTAGRAM_REQUEST_TIMEOUT ;;;
      ret {| file_path := file_path; title := title;
             duration := duration_of node media;
             ext := ext; media_type := Video |}
  | None =>
      image_url <- lift (image_url_of node) ;;
      match image_url with
      | None => raise (DownloadError "Postda rasm topilmadi.")
      | Some image_url =>
          ext <- lift (url_ext image_url "jpg") ;;
          let file_path := instagram_file_path shortcode index count ext in
          _download_file_from_url image_url file_path
            (Some INSTAGRAM_HEADERS) INSTAGRAM_REQUEST_TIMEOUT ;;;
          ret {| file_path := file_path; title := title; duration := None;
                 ext := ext; media_type := Photo |}
      end
  end.

Definition _download_instagram_media (url : string) : M DownloadResult :=
  enter InstagramStrategy ;;;
  parsed <- lift (_extract_instagram_shortcode url) ;;
  let '(shortcode, media_type, requested_index) := parsed in
  match shortcode with
  | None => raise (DownloadError "Instagram havolasini tushunib bo'lmadi.")
  | Some shortcode =>
      payload <- _fetch_instagram_payload shortcode media_type ;;
      match payload_media payload with
      | None => raise (DownloadError "Post ma'lumotlari topilmadi.")
      | Some media =>
          let nodes := media_nodes media in
          if bool_decide (nodes = []) then
            raise (DownloadError "Post tarkibida media topilmadi.")
          else
            let index := select_index requested_index (length nodes) in
            match nodes !! index with
            | None => raise IndexError                 (* nodes[index] *)
            | Some node => download_node shortcode media (length nodes) index node
            end
      end
  end.

(** *** [download_video] *)

Definition download_video (url : string) : M DownloadResult :=
  is_instagram <- lift (_is_instagram_url url) ;;
  if is_instagram then
    try_except (_download_instagram_media url)
      (fun error =>
         match error with
         | DownloadError _ => Some (_download_with_ytdlp url false)
         | _ => None
         end)
  else
    is_tiktok <- lift (_is_tiktok_url url) ;;
    if is_tiktok then _download_tiktok_media url
    else
      is_snapchat <- lift (_is_snapchat_url url) ;;
      if is_snapchat then _download_with_ytdlp url false
      else
        is_likee <- lift (_is_likee_url url) ;;
        if is_likee then _download_with_ytdlp url false
        else
          is_youtube <- lift (_is_youtube_url url) ;;
          if is_youtube then _download_with_ytdlp url false
          else _download_with_ytdlp url false.

End Engine.

(** ** Provider identity

    [download_video] tests the five URL predicates in a fixed order; the
    first that holds decides the branch.  [classify] is that chain of
    tests, with its verdict as a value. *)

Inductive ProviderIdentity : Type :=
| Instagram | TikTok | Snapchat | Likee | YouTube | Generic.

Definition classify (url : string) : Res ProviderIdentity :=
  res_bind (_is_instagram_url url) (fun is_instagram =>
  if is_instagram then Ret Instagram else
  res_bind (_is_tiktok_url url) (fun is_tiktok =>
  if is_tiktok then Ret TikTok else
  res_bind (_is_snapchat_url url) (fun is_snapchat =>
  if is_snapchat then Ret Snapchat else
  res_bind (_is_likee_url url) (fun is_likee =>
  if is_likee then Ret Likee else
  res_bind (_is_youtube_url url) (fun is_youtube =>
  if is_youtube then Ret YouTube else Ret Generic))))).

(** ** The complete body of a streamed response *)

Definition body_of (chunks : list string) : string :=
  foldr String.append EmptyString chunks.

(** The state the [except] clause of [_download_file_from_url] leaves
    behind: [destination] is deleted when it exists and the operating
    system allows it. *)
Definition after_discard (E : Env) (destination : string) (w : World) : World :=
  match fs w !! destination with
  | Some _ => if unlink_refused E destination then w else set_fs (delete destination) w
  | None => w
  end.

Definition transfer_error : exn :=
  DownloadError "Mediat faylini yuklab olishda xato yuz berdi.".

(** A transfer that completed with [chunks]: the request was streamed in
    full and the file holds exactly the body. *)
Definition streamed_in_full (E : Env) (content : string) : Prop :=
  exists source_url headers timeout status_code chunks,
    http_stream E source_url headers timeout = Streaming status_code chunks StreamEnd
    /\ content = body_of chunks.

(** The pauses of a retry loop that starts at [attempt] and pauses [k]
    times: [backoff attempt], [backoff (attempt + 1)], ... *)
Definition backoffs_from (attempt : Z) (k : nat) : list Z :=
  map (fun i => backoff (attempt + Z.of_nat i)) (seq 0 k).

Definition backoffs (k : nat) : list Z := backoffs_from 1 k.

(** The state [_transcode_to_mp4] leaves after a successful run: the
    original is deleted when it is not the target and the operating system
    allows it. *)
Definition drop_original (E : Env) (path target : string) (w : World) : World :=
  if String.eqb path target then w
  else match fs w !! path with
       | Some _ => if unlink_refused E path then w else set_fs (delete path) w
       | None => w
       end.

(** What the transcoder assumes about the audio of a file: present when
    the probe fails, otherwise what the probe says of the first audio
    stream. *)
Definition assumed_audio (E : Env) (path : string) (w : World) : bool :=
  match fs w !! path with
  | None => true
  | Some content =>
      match ffmpeg_probe E content with
      | None => true
      | Some streams => probed_has_audio streams
      end
  end.

(** What [_download_instagram_media] fetches for a node, and the kind of
    the result: the [video_url] of a video node that has one, otherwise
    the image ([display_url], the last [display_resources] entry,
    [thumbnail_src]). *)
Definition node_source (node : IgNode) : Res (option (string * MediaType)) :=
  match (if is_video node then truthy_opt (video_url node) else None) with
  | Some video_url => Ret (Some (video_url, Video))
  | None =>
      res_bind (image_url_of node) (fun image_url =>
      Ret (match image_url with
           | Some image_url => Some (image_url, Photo)
           | None => None
           end))
  end.

(** The extension used when the media URL has none. *)
Definition fallback_ext (kind : MediaType) : string :=
  match kind with Video => "mp4" | Photo => "jpg" end.

(** A computation that enters no strategy: the list of strategies
    entered is the same before and after. *)
Definition keeps_trace {A} (c : M A) : Prop :=
  forall w, invoked (c w).2 = invoked w.

(** [c not in s] *)
Definition no_char (c : ascii) (s : string) : Prop :=
  PyStr.forallb (fun x => negb (Url.is_char c x)) s = true.

(** ** The caller: [_process_download] of [handlers/user.py]

    The Telegram and database calls of the handler are oracles: each call
    site has its outcome, a value or a raised exception.  None of them
    touches the download directory. *)

(** [isinstance(e, TelegramBadRequest)] and
    [isinstance(e, TelegramEntityTooLarge)]. *)
Definition is_bad_request (e : exn) : bool :=
  match e with
  | OtherException name => String.eqb name "TelegramBadRequest"
  | _ => false
  end.

Definition is_entity_too_large (e : exn) : bool :=
  match e with
  | OtherException name => String.eqb name "TelegramEntityTooLarge"
  | _ => false
  end.

(** Which [message.answer_*] call sends the file. *)
Inductive SendKind : Type := SendPhoto | SendVideo | SendDocument.

Record Chat : Type := {
  from_user : bool;                          (* message.from_user is set *)
  add_or_update_user : Res unit;
  ensure_user_subscription : Res bool;       (* allowed *)
  subscription_prompt : Res unit;            (* get_setting, keyboard, message.answer *)
  url_candidates : string -> list string;    (* SUPPORTED_URL_RE.finditer(text) *)
  answer_status : Res unit;                  (* message.answer of the status line *)
  get_me : Res unit;                         (* bot.get_me() *)
  report_oversize : Res unit;                (* status.edit_text(...); add_log(...) *)
  report_too_large : Res unit;               (* the same, after TelegramEntityTooLarge *)
  send_media : SendKind -> DownloadResult -> Res unit;
  build_share_keyboard : Res bool;           (* share_markup and sent_message *)
  edit_reply_markup : Res unit;
  record_download : Res unit;                (* increment_downloads ... add_log *)
  edit_text : string -> Res unit;            (* status.edit_text in the except clauses *)
  status_delete : Res unit;
}.

Definition _extract_supported_url (C : Chat) (text : option string) : option string :=
  match text with
  | None => None
  | Some t =>
      if PyStr.truthy t then List.find is_supported_url (url_candidates C t) else None
  end.

(** [max_size_bytes = 50 * 1024 * 1024] *)
Definition MAX_SIZE_BYTES : Z := 50 * 1024 * 1024.

Definition send_kind (result : DownloadResult) : SendKind :=
  match media_type result with
  | Photo => SendPhoto
  | Video => if String.eqb (PyStr.lower (ext result)) "mp4" then SendVideo else SendDocument
  end.

(** How the body of the [try] ends when no exception leaves it: by a
    [return], or by reaching its end (and so the [else] clause). *)
Inductive Flow : Type := Returned | Completed.

(** The body of the [try] after [result = await download_video(url)]. *)
Definition deliver (C : Chat) (result : DownloadResult) : M Flow :=
  lift (get_me C) ;;;
  file_size <- stat_size (file_path result) ;;
  if MAX_SIZE_BYTES <? file_size then
    lift (report_oversize C) ;;; ret Returned
  else
    sent <- try_except (lift (send_media C (send_kind result) result) ;;; ret true)
              (fun error =>
                 if is_entity_too_large error
                 then Some (lift (report_too_large C) ;;; ret false)
                 else None) ;;
    if negb sent then ret Returned
    else
      share <- lift (build_share_keyboard C) ;;
      (if share
       then try_except (lift (edit_reply_markup C))
              (fun error => if is_bad_request error then Some (ret tt) else None)
       else ret tt) ;;;
      lift (record_download C) ;;;
      ret Completed.

(** The three [except] clauses. *)
Definition except_clauses (C : Chat) (error : exn) : M unit :=
  match error with
  | DownloadError msg => lift (edit_text C msg)
  | _ =>
      if is_bad_request error
      then lift (edit_text C "Media yuborishda xatolik yuz berdi. Keyinroq urinib ko'ring.")
      else lift (edit_text C "Kutilmagan xato yuz berdi. Keyinroq urinib ko'ring.")
  end.

(** The [else] clause. *)
Definition else_clause (C : Chat) : M unit :=
  try_except (lift (status_delete C))
    (fun error => if is_bad_request error then Some (ret tt) else None).

(** The [try ... except ... else ... finally] statement of the handler.
    [result] is bound, and so released in the [finally] clause, exactly
    when [download_video] returned. *)
Definition handle_download (C : Chat) (E : Env) (url : string) : M unit :=
  fun w =>
    match download_video E url w with
    | (Raise error, w1) => except_clauses C error w1
    | (Ret result, w1) =>
        let '(outcome, w2) :=
          match deliver C result w1 with
          | (Ret Completed, w2) => else_clause C w2
          | (Ret Returned, w2) => (Ret tt, w2)
          | (Raise error, w2) => except_clauses C error w2
          end in
        match cleanup_file E (file_path result) w2 with
        | (Ret _, w3) => (outcome, w3)
        | (Raise error, w3) => (Raise error, w3)
        end
    end.

Definition _process_download (C : Chat) (E : Env) (text : option string) : M unit :=
  if negb (from_user C) then ret tt
  else
    lift (add_or_update_user C) ;;;
    allowed <- lift (ensure_user_subscription C) ;;
    if negb allowed then lift (subscription_prompt C)
    else
      match _extract_supported_url C text with
      | None => ret tt
      | Some url => lift (answer_status C) ;;; handle_download C E url
      end.

(** ** Concrete environments

    Small instances of the oracles, used to run the engine on examples. *)

Module Examples.

Definition settings_with (retries : Z) : Settings :=
  {| download_proxy := None; download_socket_timeout := 25;
     download_retries := retries; download_user_agent := "Mozilla/5.0" |}.

(** Decimal integers, as [int] reads them from plain digit strings. *)
Fixpoint digits_value (acc : Z) (s : string) : option Z :=
  match s with
  | EmptyString => Some acc
  | String c s' =>
      if PyStr.is_digit c
      then digits_value (10 * acc + Z.of_nat (PyStr.ord c - 48)) s'
      else None
  end.

Definition int_of_string (s : string) : option Z :=
  match s with
  | EmptyString => None
  | String "-" (String c s') => Z.opp <$> digits_value 0 (String c s')
  | _ => digits_value 0 s
  end.

(** [parse_qs] on queries without escapes: [k=v] pairs separated by [&],
    blank values dropped, values of a repeated key collected in order. *)
Fixpoint qs_add (k v : string) (q : list (string * list string))
    : list (string * list string) :=
  match q with
  | [] => [(k, [v])]
  | (k', vs) :: rest =>
      if String.eqb k k' then (k', (vs ++ [v])%list) :: rest else (k', vs) :: qs_add k v rest
  end.

Definition simple_parse_qs (query : string) : list (string * list string) :=
  foldl (fun q field =>
           match PyStr.split1 "=" field with
           | (k, Some v) => if PyStr.truthy v then qs_add k v q else q
           | (_, None) => q
           end) [] (PyStr.split "&" query).

Definition no_extract : nat -> ExtractOutcome :=
  fun _ => {| eo_result := Ret None; eo_written := [] |}.

(** An environment from the oracles the examples vary; the text-scraping
    oracles of the resolver see [link] and nothing else. *)
Definition env_of (retries : Z) (refused : string -> bool)
    (stream : string -> HttpStream)
    (get : string -> option HttpResponse)
    (link : option string)
    (ig : option IgPayload)
    (extract : nat -> ExtractOutcome) (filename : string)
    (probed : option (list ProbeStream)) (encode : OutputArgs -> option string) : Env :=
  {| _settings := settings_with retries;
     unlink_refused := refused;
     http_stream := fun url _ _ => stream url;
     http_get := fun url _ _ _ => get url;
     http_post := fun url _ _ _ => get url;
     re_ssstik_token := fun _ => Some "token";
     ssstik_json := fun _ => SsInvalid;
     re_without_watermark := fun _ => link;
     re_http_link := fun _ => None;
     re_download_title := fun _ => None;
     re_strip_tags := fun s => s;
     html_unescape := fun s => s;
     uuid4_hex := "0123456789abcdef0123456789abcdef";
     parse_qs := simple_parse_qs;
     py_int := int_of_string;
     instagram_json := fun _ => match ig with Some data => Object data | None => NotJson end;
     re_next_data := fun _ => None;
     next_data_json := fun _ => NotJson;
     re_legacy_scripts := fun _ => [];
     legacy_json := fun _ => NotJson;
     ydl_extract_info := fun _ _ n => extract n;
     ydl_prepare_filename := fun _ => filename;
     ffmpeg_probe := fun _ => probed;
     ffmpeg_run := fun _ args =>
       match encode args with
       | Some output => Encoded output
       | None => EncoderFailed None
       end |}.

Definition empty_world : World :=
  {| fs := ∅; slept := []; extract_calls := 0; invoked := []; encoder_runs := [] |}.

(** A server whose transfer of [/v.mp4] breaks after one chunk, on a
    system that refuses to delete files. *)
Definition broken_stream (url : string) : HttpStream :=
  Streaming 200 ["partial"] StreamBroken.

Definition stubborn_env : Env :=
  env_of 3 (fun _ => true) broken_stream (fun _ => None) None None
    no_extract "downloads/x.mp4" None (fun _ => None).

Definition obliging_env : Env :=
  env_of 3 (fun _ => false) broken_stream (fun _ => None) None None
    no_extract "downloads/x.mp4" None (fun _ => None).

(** A resolver that answers with a protocol-relative link, and a CDN
    that serves [chunks] for it. *)
Definition block_64 : string :=
  "0123456789abcdef0123456789abcdef0123456789abcdef0123456789abcdef".

Definition block_1k : string := body_of (repeat block_64 16).

Definition cdn_stream (chunks : list string) (url : string) : HttpStream :=
  if String.eqb url "https://cdn.example/v.mp4"
  then Streaming 200 chunks StreamEnd
  else ConnectFailed.

Definition page (text : string) (url : string) : option HttpResponse :=
  Some {| resp_status := 200; resp_text := text |}.

Definition tiktok_env (chunks : list string) : Env :=
  env_of 3 (fun _ => false) (cdn_stream chunks) (page "<a href=...>")
    (Some "//cdn.example/v.mp4") None no_extract "" None (fun _ => None).

Definition video_120k : list string := repeat block_1k 120.
Definition video_119k : list string := repeat block_1k 119.

Definition tiktok_file : string := "downloads/0123456789abcdef0123456789abcdef.mp4".

Definition world_with (path content : string) : World :=
  set_fs (<[path := content]>) empty_world.


(** yt-dlp failing on the first [failures] calls and then delivering an
    H.264 file. *)
Definition avc_info : InfoDict :=
  {| info_vcodec := Some "avc1.64001F"; info_ext := Some "mp4";
     info_id := Some "abc"; info_title := Some "A clip"; info_duration := None;
     requested_formats := []; requested_downloads := []; formats := [] |}.

Definition flaky_extract (failures : nat) (info : InfoDict) (file : string)
    : nat -> ExtractOutcome :=
  fun n =>
    if (n <? failures)%nat
    then {| eo_result := Raise (YtDlpDownloadError "HTTP Error 503");
            eo_written := [] |}
    else {| eo_result := Ret (Some {| ex_info := info; ex_type := None;
                                      ex_entries := [] |});
            eo_written := [(file, "video-bytes")] |}.

Definition flaky_env (retries : Z) (failures : nat) : Env :=
  env_of retries (fun _ => false) (fun _ => ConnectFailed) (fun _ => None) None None
    (flaky_extract failures avc_info "downloads/abc.mp4") "downloads/abc.mp4"
    None (fun _ => None).

Definition some_opts : YdlOpts := ydl_opts (flaky_env 3 2) false false false false.

(** An HEVC download whose probe fails, with an encoder that succeeds. *)
Definition hevc_info : InfoDict :=
  {| info_vcodec := Some "hev1.1.6.L93.B0"; info_ext := Some "mkv";
     info_id := Some "clip"; info_title := Some "A clip"; info_duration := None;
     requested_formats := []; requested_downloads := []; formats := [] |}.

Definition unprobeable_env : Env :=
  env_of 3 (fun _ => false) (fun _ => ConnectFailed) (fun _ => None) None None
    (flaky_extract 0 hevc_info "downloads/clip.mkv") "downloads/clip.mkv"
    None (fun _ => Some "h264-bytes").

(** The same download, probed as a silent video. *)
Definition silent_env : Env :=
  env_of 3 (fun _ => false) (fun _ => ConnectFailed) (fun _ => None) None None
    (flaky_extract 0 hevc_info "downloads/clip.mkv") "downloads/clip.mkv"
    (Some [{| codec_type := Some "video"; channels := None |}])
    (fun _ => Some "h264-bytes").

(** An Instagram carousel of three photos. *)
Definition photo_node (url : string) : IgNode :=
  {| is_video := false; video_url := None; video_duration := None;
     display_url := Some url; display_resources := None; thumbnail_src := None |}.

Definition carousel : IgMedia :=
  {| media_node := photo_node "https://cdn.example/cover.jpg";
     edge_sidecar_to_children :=
       Some [Some (photo_node "https://cdn.example/1.jpg");
             Some (photo_node "https://cdn.example/2.jpg");
             Some (photo_node "https://cdn.example/3.jpg")];
     caption_texts := [Some "Three photos"];
     accessibility_caption := None |}.

Definition carousel_payload : IgPayload :=
  {| graphql := Some {| shortcode_media := Some carousel; reel := false |};
     items := [] |}.

(** The CDN answers every request with the requested URL as the body. *)
Definition echo_stream (url : string) : HttpStream := Streaming 200 [url] StreamEnd.

Definition carousel_env : Env :=
  env_of 3 (fun _ => false) echo_stream (page "{...}") None (Some carousel_payload)
    no_extract "" None (fun _ => None).

(** An Instagram post whose only node has no [display_url] and an empty
    [display_resources] list. *)
Definition bare_node : IgNode :=
  {| is_video := false; video_url := None; video_duration := None;
     display_url := None; display_resources := Some []; thumbnail_src := None |}.

Definition bare_payload : IgPayload :=
  {| graphql := Some {| shortcode_media :=
                          Some {| media_node := bare_node;
                                  edge_sidecar_to_children := None;
                                  caption_texts := [];
                                  accessibility_caption := None |};
                        reel := false |};
     items := [] |}.

Definition bare_env : Env :=
  env_of 3 (fun _ => false) echo_stream (page "{...}") None (Some bare_payload)
    (flaky_extract 0 avc_info "downloads/abc.mp4") "downloads/abc.mp4"
    None (fun _ => None).

(** Instagram unreachable, yt-dlp working: the fallback case. *)
Definition instagram_down_env : Env :=
  env_of 3 (fun _ => false) echo_stream (fun _ => None) None None
    (flaky_extract 0 avc_info "downloads/abc.mp4") "downloads/abc.mp4"
    None (fun _ => None).

(** An Instagram photo served with an empty body. *)
Definition single_photo_payload : IgPayload :=
  {| graphql := Some {| shortcode_media :=
                          Some {| media_node := photo_node "https://cdn.example/1.jpg";
                                  edge_sidecar_to_children := None;
                                  caption_texts := [];
                                  accessibility_caption := None |};
                        reel := false |};
     items := [] |}.

Definition empty_body_env : Env :=
  env_of 3 (fun _ => false) (fun _ => Streaming 200 [] StreamEnd) (page "{...}") None
    (Some single_photo_payload) no_extract "" None (fun _ => None).

(** A download without any codec information. *)
Definition no_codec_info : InfoDict :=
  {| info_vcodec := Some "none"; info_ext := Some "mp4";
     info_id := Some "abc"; info_title := None; info_duration := None;
     requested_formats := [None; Some {| fmt_vcodec := Some " " |}];
     requested_downloads := []; formats := [Some {| fmt_vcodec := None |}] |}.

(** yt-dlp delivering a photo. *)
Definition photo_info : InfoDict :=
  {| info_vcodec := None; info_ext := Some "jpg";
     info_id := Some "pic"; info_title := Some "A photo"; info_duration := None;
     requested_formats := []; requested_downloads := []; formats := [] |}.

Definition photo_env : Env :=
  env_of 3 (fun _ => false) (fun _ => ConnectFailed) (fun _ => None) None None
    (flaky_extract 0 photo_info "downloads/pic.jpg") "downloads/pic.jpg"
    None (fun _ => None).

(** The resolver answering [{"status": "ok", "data": 1}]. *)
Definition with_ssstik_json (answer : SsstikJson) (E : Env) : Env :=
  {| _settings := _settings E;
     unlink_refused := unlink_refused E;
     http_stream := http_stream E;
     http_get := http_get E;
     http_post := http_post E;
     re_ssstik_token := re_ssstik_token E;
     ssstik_json := fun _ => answer;
     re_without_watermark := re_without_watermark E;
     re_http_link := re_http_link E;
     re_download_title := re_download_title E;
     re_strip_tags := re_strip_tags E;
     html_unescape := html_unescape E;
     uuid4_hex := uuid4_hex E;
     parse_qs := parse_qs E;
     py_int := py_int E;
     instagram_json := instagram_json E;
     re_next_data := re_next_data E;
     next_data_json := next_data_json E;
     re_legacy_scripts := re_legacy_scripts E;
     legacy_json := legacy_json E;
     ydl_extract_info := ydl_extract_info E;
     ydl_prepare_filename := ydl_prepare_filename E;
     ffmpeg_probe := ffmpeg_probe E;
     ffmpeg_run := ffmpeg_run E |}.

Definition numeric_answer_env : Env :=
  with_ssstik_json (SsDict "ok" (Some (FieldOther true)) None) (tiktok_env video_120k).

(** Instagram answering [[]] where an object is expected, with yt-dlp
    working. *)
Definition with_instagram_json (answer : Decoded IgPayload) (E : Env) : Env :=
  {| _settings := _settings E;
     unlink_refused := unlink_refused E;
     http_stream := http_stream E;
     http_get := http_get E;
     http_post := http_post E;
     re_ssstik_token := re_ssstik_token E;
     ssstik_json := ssstik_json E;
     re_without_watermark := re_without_watermark E;
     re_http_link := re_http_link E;
     re_download_title := re_download_title E;
     re_strip_tags := re_strip_tags E;
     html_unescape := html_unescape E;
     uuid4_hex := uuid4_hex E;
     parse_qs := parse_qs E;
     py_int := py_int E;
     instagram_json := fun _ => answer;
     re_next_data := re_next_data E;
     next_data_json := next_data_json E;
     re_legacy_scripts := re_legacy_scripts E;
     legacy_json := legacy_json E;
     ydl_extract_info := ydl_extract_info E;
     ydl_prepare_filename := ydl_prepare_filename E;
     ffmpeg_probe := ffmpeg_probe E;
     ffmpeg_run := ffmpeg_run E |}.

Definition list_answer_env : Env := with_instagram_json NotObject bare_env.

(** An encoder that fails after it has started to write its target. *)
Definition with_ffmpeg_run (run : string -> OutputArgs -> FfmpegOutcome) (E : Env) : Env :=
  {| _settings := _settings E;
     unlink_refused := unlink_refused E;
     http_stream := http_stream E;
     http_get := http_get E;
     http_post := http_post E;
     re_ssstik_token := re_ssstik_token E;
     ssstik_json := ssstik_json E;
     re_without_watermark := re_without_watermark E;
     re_http_link := re_http_link E;
     re_download_title := re_download_title E;
     re_strip_tags := re_strip_tags E;
     html_unescape := html_unescape E;
     uuid4_hex := uuid4_hex E;
     parse_qs := parse_qs E;
     py_int := py_int E;
     instagram_json := instagram_json E;
     re_next_data := re_next_data E;
     next_data_json := next_data_json E;
     re_legacy_scripts := re_legacy_scripts E;
     legacy_json := legacy_json E;
     ydl_extract_info := ydl_extract_info E;
     ydl_prepare_filename := ydl_prepare_filename E;
     ffmpeg_probe := ffmpeg_probe E;
     ffmpeg_run := run |}.

Definition crashing_encoder_env : Env :=
  with_ffmpeg_run (fun _ _ => EncoderFailed (Some "ftyp")) silent_env.

(** A chat where every Telegram and database call succeeds. *)
Definition smooth_chat : Chat :=
  {| from_user := true;
     add_or_update_user := Ret tt;
     ensure_user_subscription := Ret true;
     subscription_prompt := Ret tt;
     url_candidates := fun text => [text];
     answer_status := Ret tt;
     get_me := Ret tt;
     report_oversize := Ret tt;
     report_too_large := Ret tt;
     send_media := fun _ _ => Ret tt;
     build_share_keyboard := Ret false;
     edit_reply_markup := Ret tt;
     record_download := Ret tt;
     edit_text := fun _ => Ret tt;
     status_delete := Ret tt |}.

(** A chat whose message carries three links.  The first is matched by
    the handler's case-insensitive pattern (a long s matches [s]) and
    refused by [is_supported_url]; the other two are supported. *)
Definition two_links_chat : Chat :=
  {| from_user := true;
     add_or_update_user := Ret tt;
     ensure_user_subscription := Ret true;
     subscription_prompt := Ret tt;
     url_candidates := fun _ =>
       ["https://inſtagram.com/p/x"; "https://youtu.be/a"; "https://youtu.be/b"];
     answer_status := Ret tt;
     get_me := Ret tt;
     report_oversize := Ret tt;
     report_too_large := Ret tt;
     send_media := fun _ _ => Ret tt;
     build_share_keyboard := Ret false;
     edit_reply_markup := Ret tt;
     record_download := Ret tt;
     edit_text := fun _ => Ret tt;
     status_delete := Ret tt |}.

(** The same chat, with Telegram refusing the file as too large. *)
Definition refusing_chat : Chat :=
  {| from_user := true;
     add_or_update_user := Ret tt;
     ensure_user_subscription := Ret true;
     subscription_prompt := Ret tt;
     url_candidates := fun text => [text];
     answer_status := Ret tt;
     get_me := Ret tt;
     report_oversize := Ret tt;
     report_too_large := Ret tt;
     send_media := fun _ _ => Raise (OtherException "TelegramEntityTooLarge");
     build_share_keyboard := Ret false;
     edit_reply_markup := Ret tt;
     record_download := Ret tt;
     edit_text := fun _ => Raise (OtherException "TelegramBadRequest");
     status_delete := Ret tt |}.
End Examples.

(** * Properties *)

(** ** The monad *)

Lemma bind_ret_l {A B} (a : A) (k : A -> M B) w : bind (ret a) k w = k a w.
Proof. reflexivity. Qed.

Lemma bind_inv {A B} (c : M A) (k : A -> M B) w r w' :
  bind c k w = (r, w') ->
  (exists a w1, c w = (Ret a, w1) /\ k a w1 = (r, w'))
  \/ (exists e, c w = (Raise e, w') /\ r = Raise e).
Proof.
  unfold bind. destruct (c w) as [[a|e] w1]; intros H.
  - left. eauto.
  - right. inversion H; subst. eauto.
Qed.

Lemma bind_Ret_inv {A B} (c : M A) (k : A -> M B) w b w' :
  bind c k w = (Ret b, w') ->
  exists a w1, c w = (Ret a, w1) /\ k a w1 = (Ret b, w').
Proof.
  intros H. apply bind_inv in H as [H|[e [_ H]]]; [done|discriminate].
Qed.

(** ** World bookkeeping *)

Lemma set_fs_id (w : World) : set_fs (fun m => m) w = w.
Proof. by destruct w. Qed.

Lemma set_fs_set_fs f g (w : World) : set_fs f (set_fs g w) = set_fs (fun m => f (g m)) w.
Proof. by destruct w. Qed.

Lemma append_cons (c : ascii) (s t : string) : String c s ++ t = String c (s ++ t).
Proof. reflexivity. Qed.

Lemma append_nil_l (t : string) : "" ++ t = t.
Proof. reflexivity. Qed.

Lemma append_nil_r (s : string) : s ++ "" = s.
Proof. induction s as [|c s IH]; [done|by rewrite append_cons, IH]. Qed.

Lemma append_assoc (a b c : string) : (a ++ b) ++ c = a ++ (b ++ c).
Proof. induction a as [|x a IH]; [done|by rewrite !append_cons, IH]. Qed.

(** ** File retrieval *)

Section Retrieval.

Variable E : Env.

Lemma write_chunks_spec destination chunks : forall w content,
  fs w !! destination = Some content ->
  write_chunks destination chunks w
  = (Ret tt, set_fs (<[destination := content ++ body_of chunks]>) w).
Proof.
  induction chunks as [|chunk rest IH]; intros w content Hc; simpl.
  - rewrite append_nil_r. unfold ret. f_equal.
    destruct w as [m s n i r]; unfold set_fs; simpl in *.
    by rewrite insert_id.
  - unfold bind. destruct chunk as [|c chunk]; simpl.
    + unfold ret. by apply IH.
    + unfold file_write. rewrite Hc. simpl.
      erewrite IH; last by (simpl; apply lookup_insert_eq).
      rewrite set_fs_set_fs. f_equal. destruct w; unfold set_fs; simpl.
      by rewrite insert_insert_eq, append_assoc.
Qed.

(** The body of the [try] in [_download_file_from_url]. *)
Lemma stream_to_file_spec source_url destination headers timeout w :
  stream_to_file E source_url destination headers timeout w =
  match http_stream E source_url headers timeout with
  | ConnectFailed => (Raise RequestException, w)
  | Streaming status_code chunks tail =>
      if http_error_status status_code then (Raise RequestException, w)
      else (match tail with
            | StreamEnd => Ret tt
            | StreamBroken => Raise RequestException
            end, set_fs (<[destination := body_of chunks]>) w)
  end.
Proof.
  unfold stream_to_file.
  destruct (http_stream E source_url headers timeout) as [|st chunks tail]; [done|].
  destruct (http_error_status st); [done|].
  unfold bind at 1. unfold open_wb.
  unfold bind at 1.
  rewrite (write_chunks_spec destination chunks _ EmptyString);
    last by (simpl; apply lookup_insert_eq).
  rewrite set_fs_set_fs, append_nil_l.
  assert (set_fs (fun m => <[destination:=body_of chunks]> (<[destination:=""]> m)) w
          = set_fs (<[destination:=body_of chunks]>) w) as ->.
  { destruct w; unfold set_fs; simpl. by rewrite insert_insert_eq. }
  by destruct tail.
Qed.

End Retrieval.

Section RetrievalOutcome.

Variable E : Env.

Lemma discard_spec destination w :
  (present <- path_exists destination ;;
   (if present
    then try_except (path_unlink E destination) (fun _ => Some (ret tt))
    else ret tt) ;;;
   (raise transfer_error : M unit)) w
  = (Raise transfer_error, after_discard E destination w).
Proof.
  unfold bind, path_exists, after_discard, try_except, path_unlink, ret, raise.
  destruct (fs w !! destination) as [c|] eqn:Hc; simpl.
  - rewrite Hc. by destruct (unlink_refused E destination).
  - done.
Qed.

(** What [_download_file_from_url] does, by the outcome of the request. *)
Lemma download_file_spec source_url destination headers timeout w :
  _download_file_from_url E source_url destination headers timeout w =
  match http_stream E source_url (effective_headers E headers) timeout with
  | ConnectFailed => (Raise transfer_error, after_discard E destination w)
  | Streaming status_code chunks tail =>
      if http_error_status status_code
      then (Raise transfer_error, after_discard E destination w)
      else
        let written := set_fs (<[destination := body_of chunks]>) w in
        match tail with
        | StreamEnd => (Ret tt, written)
        | StreamBroken => (Raise transfer_error, after_discard E destination written)
        end
  end.
Proof.
  unfold _download_file_from_url, try_except.
  rewrite stream_to_file_spec.
  destruct (http_stream E source_url (effective_headers E headers) timeout)
    as [|st chunks tail].
  - apply discard_spec.
  - destruct (http_error_status st); [apply discard_spec|].
    destruct tail; [done|apply discard_spec].
Qed.

Lemma after_discard_other destination w p :
  p <> destination -> fs (after_discard E destination w) !! p = fs w !! p.
Proof.
  intros Hp. unfold after_discard.
  destruct (fs w !! destination); [|done].
  destruct (unlink_refused E destination); [done|].
  destruct w; simpl. by rewrite lookup_delete_ne.
Qed.

Lemma after_discard_self destination w :
  fs (after_discard E destination w) !! destination
  = if unlink_refused E destination then fs w !! destination else None.
Proof.
  unfold after_discard.
  destruct (fs w !! destination) eqn:Hc.
  - destruct (unlink_refused E destination); [done|].
    destruct w; simpl. by rewrite lookup_delete_eq.
  - rewrite Hc. by destruct (unlink_refused E destination).
Qed.

(** A failed request or a broken stream leaves [_download_file_from_url]
    as [DownloadError]. *)
Lemma download_file_raises source_url destination headers timeout w e w' :
  _download_file_from_url E source_url destination headers timeout w = (Raise e, w') ->
  e = transfer_error.
Proof.
  rewrite download_file_spec.
  destruct (http_stream E _ _ _) as [|st chunks tail]; [congruence|].
  destruct (http_error_status st); [congruence|].
  destruct tail; simpl; congruence.
Qed.

(** A transfer that returns has written the whole body. *)
Lemma download_file_complete source_url destination headers timeout w w' :
  _download_file_from_url E source_url destination headers timeout w = (Ret tt, w') ->
  exists status_code chunks,
    http_stream E source_url (effective_headers E headers) timeout
    = Streaming status_code chunks StreamEnd
    /\ w' = set_fs (<[destination := body_of chunks]>) w.
Proof.
  rewrite download_file_spec.
  destruct (http_stream E _ _ _) as [|st chunks tail]; [congruence|].
  destruct (http_error_status st); [congruence|].
  destruct tail; simpl; [|congruence].
  intros [= <-]. eauto.
Qed.

End RetrievalOutcome.

(** C4, as the code has it.  When a transfer breaks with a transport error
    after part of the body was written, [_download_file_from_url] raises
    [DownloadError]; before that it deletes the partial file, unless the
    operating system refuses the deletion, in which case the refusal is
    swallowed and the partial file stays.  No other file is touched. *)
Theorem failed_transfer_discards_partial_file
    (E : Env) source_url destination headers timeout w status_code chunks :
  http_stream E source_url (effective_headers E headers) timeout
    = Streaming status_code chunks StreamBroken ->
  http_error_status status_code = false ->
  exists w',
    _download_file_from_url E source_url destination headers timeout w
      = (Raise (DownloadError "Mediat faylini yuklab olishda xato yuz berdi."), w')
    /\ fs w' !! destination
       = (if unlink_refused E destination then Some (body_of chunks) else None)
    /\ forall p, p <> destination -> fs w' !! p = fs w !! p.
Proof.
  intros Hs Hok. rewrite download_file_spec, Hs, Hok. simpl.
  eexists; split; [reflexivity|]. split.
  - rewrite after_discard_self. destruct (unlink_refused E destination); [|done].
    destruct w; simpl. by rewrite lookup_insert_eq.
  - intros p Hp. rewrite after_discard_other by done.
    destruct w; simpl. by rewrite lookup_insert_ne.
Qed.

Lemma failed_transfer_discards_partial_file_witness :
  exists w',
    _download_file_from_url Examples.obliging_env "https://cdn.example/v.mp4"
      "downloads/v.mp4" None 20 Examples.empty_world
      = (Raise (DownloadError "Mediat faylini yuklab olishda xato yuz berdi."), w')
    /\ fs w' !! "downloads/v.mp4" = None.
Proof.
  destruct (failed_transfer_discards_partial_file Examples.obliging_env
              "https://cdn.example/v.mp4" "downloads/v.mp4" None 20
              Examples.empty_world 200 ["partial"] eq_refl eq_refl)
    as [w' [H1 [H2 _]]].
  exists w'. split; [exact H1|exact H2].
Defined.

(** C4 as stated fails where the deletion is refused: the call raises
    [DownloadError] and the partial file is still there. *)
Lemma partial_file_left_when_unlink_refused :
  exists w',
    _download_file_from_url Examples.stubborn_env "https://cdn.example/v.mp4"
      "downloads/v.mp4" None 20 Examples.empty_world
      = (Raise (DownloadError "Mediat faylini yuklab olishda xato yuz berdi."), w')
    /\ fs w' !! "downloads/v.mp4" = Some "partial".
Proof.
  eexists. split; [vm_compute; reflexivity|]. vm_compute. reflexivity.
Qed.

(** ** Cleanup *)

Lemma path_unlink_absent (E : Env) path w :
  fs w !! path = None -> path_unlink E path w = (Raise FileNotFoundError, w).
Proof. intros H. unfold path_unlink. by rewrite H. Qed.

Lemma cleanup_file_spec (E : Env) path w :
  cleanup_file E path w = (Ret tt, (path_unlink E path w).2).
Proof.
  unfold cleanup_file, try_except.
  destruct (path_unlink E path w) as [[[]|e] w1]; [done|].
  by destruct e.
Qed.

(** C10.  [cleanup_file] never raises: whatever [unlink] does (succeeds,
    raises [FileNotFoundError], raises anything else), the call returns;
    on a path that does not exist it changes nothing; and a second call on
    the same path returns as well. *)
Theorem cleanup_file_never_raises (E : Env) path w :
  (cleanup_file E path w).1 = Ret tt
  /\ (forall e w1, path_unlink E path w = (Raise e, w1) ->
        cleanup_file E path w = (Ret tt, w1))
  /\ (fs w !! path = None -> cleanup_file E path w = (Ret tt, w))
  /\ (cleanup_file E path (cleanup_file E path w).2).1 = Ret tt
  /\ (unlink_refused E path = false ->
        fs (cleanup_file E path w).2 !! path = None
        /\ cleanup_file E path (cleanup_file E path w).2
           = (Ret tt, (cleanup_file E path w).2)).
Proof.
  repeat split.
  - by rewrite cleanup_file_spec.
  - intros e w1 H. by rewrite cleanup_file_spec, H.
  - intros H. by rewrite cleanup_file_spec, path_unlink_absent.
  - by rewrite !cleanup_file_spec.
  - rewrite cleanup_file_spec. unfold path_unlink.
    destruct (fs w !! path) eqn:Hp; [|done].
    rewrite H. destruct w; simpl. apply lookup_delete_eq.
  - assert (fs (cleanup_file E path w).2 !! path = None) as Hgone.
    { rewrite cleanup_file_spec. unfold path_unlink.
      destruct (fs w !! path) eqn:Hp; [|done].
      rewrite H. destruct w; simpl. apply lookup_delete_eq. }
    rewrite (cleanup_file_spec E path (cleanup_file E path w).2).
    by rewrite path_unlink_absent.
Qed.

Lemma cleanup_file_never_raises_witness :
  cleanup_file Examples.obliging_env "downloads/gone.mp4" Examples.empty_world
    = (Ret tt, Examples.empty_world)
  /\ (cleanup_file Examples.obliging_env "downloads/gone.mp4"
        (cleanup_file Examples.obliging_env "downloads/gone.mp4"
           Examples.empty_world).2).1 = Ret tt.
Proof.
  destruct (cleanup_file_never_raises Examples.obliging_env "downloads/gone.mp4"
              Examples.empty_world) as (_ & _ & Habsent & Htwice & _).
  split; [apply Habsent; reflexivity|exact Htwice].
Defined.

(** ** The TikTok strategy *)

Lemma check_tiktok_size_spec path c w0 :
  fs w0 !! path = Some c ->
  check_tiktok_size path w0
  = (if PyStr.len c <? 120 * 1024
     then Raise (DownloadError "SSStik bo'sh video qaytardi.") else Ret tt, w0).
Proof.
  intros H. unfold check_tiktok_size, try_except, bind, stat_size. rewrite H.
  unfold MIN_TIKTOK_BYTES. by destruct (PyStr.len c <? 120 * 1024).
Qed.

Lemma check_tiktok_size_missing path w0 :
  fs w0 !! path = None ->
  check_tiktok_size path w0 = (Raise (DownloadError "TikTok video fayli topilmadi."), w0).
Proof.
  intros H. unfold check_tiktok_size, try_except, bind, stat_size. by rewrite H.
Qed.

Lemma tiktok_via_ssstik_outcome (E : Env) url w :
  match _download_tiktok_via_ssstik E url w with
  | (Ret r, w') =>
      exists c, fs w' !! file_path r = Some c /\ 120 * 1024 <= PyStr.len c
                /\ streamed_in_full E c /\ invoked w' = invoked w
  | (Raise e, w') => True
  end.
Proof.
  unfold _download_tiktok_via_ssstik.
  unfold bind at 1. unfold checked at 1.
  destruct (http_get E _ _ _ _) as [landing|]; [|done].
  destruct (http_error_status (resp_status landing)); [done|]. unfold ret at 1.
  unfold bind at 1. unfold checked at 1.
  destruct (http_post E _ _ _ _) as [response|]; [|done].
  destruct (http_error_status (resp_status response)); [done|]. unfold ret at 1.
  destruct (ssstik_decode E response) as [status html_block].
  match goal with |- context [if ?b then raise ssstik_error else _] => destruct b end; [done|].
  destruct (negb (field_truthy html_block)); [done|].
  destruct html_block as [html_block|truth]; [|done].
  destruct (ssstik_video_url E html_block) as [video_url|]; [|done].
  unfold bind at 1.
  destruct (_download_file_from_url E _ _ _ _ w) as [[[]|e] w1] eqn:Hd; [|done].
  apply download_file_complete in Hd as (st & chunks & Hs & ->).
  unfold bind at 1.
  rewrite (check_tiktok_size_spec _ (body_of chunks)).
  2:{ destruct w; simpl. apply lookup_insert_eq. }
  destruct (PyStr.len (body_of chunks) <? 120 * 1024) eqn:Hlt; [done|].
  simpl. eexists. split; [destruct w; simpl; apply lookup_insert_eq|].
  split; [by apply Z.ltb_ge|]. split; [|by destruct w].
  unfold streamed_in_full. eauto 10.
Qed.

Lemma tiktok_media_spec (E : Env) url w :
  _download_tiktok_media E url w
  = _download_tiktok_via_ssstik E url (add_invoked TikTokStrategy w).
Proof.
  unfold _download_tiktok_media, bind, enter, try_except.
  destruct (_download_tiktok_via_ssstik E url _) as [[r|e] w1]; [done|].
  by destruct e.
Qed.

(** C9.  The size gate of the resolver path raises [DownloadError] on a
    file smaller than 120 * 1024 bytes and lets any other file pass.  A
    call of [_download_tiktok_via_ssstik] (and so of
    [_download_tiktok_media]) that returns a result returns a file of at
    least 120 * 1024 bytes.  And when the resolver answers with a link and
    the transfer of that link returns, the call returns the downloaded
    file if it has at least 120 * 1024 bytes and raises [DownloadError]
    if it has fewer. *)
Theorem tiktok_minimum_size (E : Env) url w :
  (forall path content w0, fs w0 !! path = Some content ->
     check_tiktok_size path w0
     = (if PyStr.len content <? 120 * 1024
        then Raise (DownloadError "SSStik bo'sh video qaytardi.")
        else Ret tt, w0))
  /\ (forall r w', _download_tiktok_via_ssstik E url w = (Ret r, w') ->
        exists content, fs w' !! file_path r = Some content
                        /\ 120 * 1024 <= PyStr.len content)
  /\ (forall r w', _download_tiktok_media E url w = (Ret r, w') ->
        exists content, fs w' !! file_path r = Some content
                        /\ 120 * 1024 <= PyStr.len content)
  /\ (forall landing response status html_block link w1 content,
        let file := "downloads/" ++ uuid4_hex E ++ ".mp4" in
        http_get E "https://ssstik.io/" [] (session_headers E) 20 = Some landing ->
        http_error_status (resp_status landing) = false ->
        http_post E "https://ssstik.io/abc?url=dl"
          [("id", url); ("locale", "en");
           ("tt", default "" (re_ssstik_token E (resp_text landing)))]
          (session_headers E ++ ssstik_post_headers)%list 30 = Some response ->
        http_error_status (resp_status response) = false ->
        ssstik_decode E response = (status, FieldText html_block) ->
        (forall s, status = Some s -> s = "ok" \/ s = "success") ->
        PyStr.truthy html_block = true ->
        ssstik_video_url E html_block = Some link ->
        _download_file_from_url E
          (_normalize_remote_url (html_unescape E link) "https://ssstik.io") file
          (Some [("User-Agent", download_user_agent (_settings E));
                 ("Referer", "https://ssstik.io/")]) 40 w = (Ret tt, w1) ->
        fs w1 !! file = Some content ->
        _download_tiktok_via_ssstik E url w
        = (if PyStr.len content <? 120 * 1024
           then Raise (DownloadError "SSStik bo'sh video qaytardi.")
           else Ret {| file_path := file; title := ssstik_title E html_block;
                       duration := None; ext := "mp4"; media_type := Video |},
           w1)).
Proof.
  split; [apply check_tiktok_size_spec|]. split; [|split].
  - intros r w' H.
    pose proof (tiktok_via_ssstik_outcome E url w) as Ho. rewrite H in Ho.
    destruct Ho as (c & ? & ? & _). eauto.
  - intros r w'. rewrite tiktok_media_spec. intros H.
    pose proof (tiktok_via_ssstik_outcome E url (add_invoked TikTokStrategy w)) as Ho.
    rewrite H in Ho. destruct Ho as (c & ? & ? & _). eauto.
  - intros landing response status html_block link w1 content file
      Hget Hlok Hpost Hrok Hdec Hstatus Hhtml Hlink Hfile Hcontent.
    unfold _download_tiktok_via_ssstik.
    unfold bind at 1. unfold checked at 1. rewrite Hget, Hlok. unfold ret at 1.
    unfold bind at 1. unfold checked at 1. rewrite Hpost, Hrok. unfold ret at 1.
    rewrite Hdec.
    assert (match status with
            | Some s => negb (bool_decide (s ∈ ["ok"; "success"]))
            | None => false
            end = false) as ->.
    { destruct status as [s|]; [|done].
      destruct (Hstatus s eq_refl) as [-> | ->]; reflexivity. }
    cbn [field_truthy]. rewrite Hhtml. cbn [negb]. rewrite Hlink.
    unfold bind at 1.
    change (Pathlib.joinpath DOWNLOAD_DIR (uuid4_hex E ++ ".mp4")) with file.
    rewrite Hfile. unfold bind at 1.
    rewrite (check_tiktok_size_spec _ content) by exact Hcontent.
    by destruct (PyStr.len content <? 120 * 1024).
Qed.

(** The gate on a file of exactly 120 KiB and on one of 119 KiB, and a
    resolved download of four bytes. *)
Lemma tiktok_minimum_size_witness :
  check_tiktok_size Examples.tiktok_file
    (Examples.world_with Examples.tiktok_file (body_of Examples.video_120k))
  = (if PyStr.len (body_of Examples.video_120k) <? 120 * 1024
     then Raise (DownloadError "SSStik bo'sh video qaytardi.")
     else Ret tt,
     Examples.world_with Examples.tiktok_file (body_of Examples.video_120k))
  /\ PyStr.len (body_of Examples.video_120k) = 120 * 1024
  /\ check_tiktok_size Examples.tiktok_file
       (Examples.world_with Examples.tiktok_file (body_of Examples.video_119k))
     = (if PyStr.len (body_of Examples.video_119k) <? 120 * 1024
        then Raise (DownloadError "SSStik bo'sh video qaytardi.")
        else Ret tt,
        Examples.world_with Examples.tiktok_file (body_of Examples.video_119k))
  /\ PyStr.len (body_of Examples.video_119k) = 119 * 1024
  /\ _download_tiktok_via_ssstik (Examples.tiktok_env ["tiny"])
       "https://vt.tiktok.com/ZSabc/" Examples.empty_world
     = (Raise (DownloadError "SSStik bo'sh video qaytardi."),
        Examples.world_with Examples.tiktok_file "tiny").
Proof.
  split; [|split; [vm_compute; reflexivity
                  |split; [|split; [vm_compute; reflexivity|]]]].
  - apply (proj1 (tiktok_minimum_size (Examples.tiktok_env []) "" Examples.empty_world)).
    apply lookup_insert_eq.
  - apply (proj1 (tiktok_minimum_size (Examples.tiktok_env []) "" Examples.empty_world)).
    apply lookup_insert_eq.
  - apply (proj2 (proj2 (proj2 (tiktok_minimum_size (Examples.tiktok_env ["tiny"])
                                  "https://vt.tiktok.com/ZSabc/" Examples.empty_world)))
             {| resp_status := 200; resp_text := "<a href=...>" |}
             {| resp_status := 200; resp_text := "<a href=...>" |}
             None "<a href=...>" "//cdn.example/v.mp4"
             (Examples.world_with Examples.tiktok_file "tiny") "tiny");
      try reflexivity.
    intros s Hs. discriminate Hs.
Defined.

(** The end-to-end example of the specification: a resolver answering
    with the protocol-relative link [//cdn.example/v.mp4]. *)
Example tiktok_resolves_protocol_relative_link :
  match _download_tiktok_media (Examples.tiktok_env Examples.video_120k)
          "https://vt.tiktok.com/ZSabc/" Examples.empty_world with
  | (Ret r, w') =>
      file_path r = Examples.tiktok_file /\ ext r = "mp4" /\ media_type r = Video
      /\ (PyStr.len <$> fs w' !! file_path r) = Some (120 * 1024)
  | (Raise _, _) => False
  end.
Proof. vm_compute. repeat split; reflexivity. Qed.

Example tiktok_rejects_short_video :
  (_download_tiktok_media (Examples.tiktok_env Examples.video_119k)
     "https://vt.tiktok.com/ZSabc/" Examples.empty_world).1
  = Raise (DownloadError "SSStik bo'sh video qaytardi.").
Proof. vm_compute. reflexivity. Qed.

(** ** The retry loop of the generic strategy *)

Lemma extract_info_spec E opts url w :
  extract_info E opts url w
  = (eo_result (ydl_extract_info E opts url (extract_calls w)),
     count_extract
       (set_fs (fun m => foldl (fun m kv => <[kv.1 := kv.2]> m) m
                           (eo_written (ydl_extract_info E opts url (extract_calls w)))) w)).
Proof. reflexivity. Qed.

Lemma backoffs_from_S attempt k :
  backoffs_from attempt (S k) = backoff attempt :: backoffs_from (attempt + 1) k.
Proof.
  unfold backoffs_from. simpl. rewrite Z.add_0_r. f_equal.
  rewrite <- seq_shift, map_map. apply map_ext. intros i. f_equal. lia.
Qed.

(** The loop, whatever the oracle answers. *)
Lemma extract_attempts_bound E opts url retries : forall remaining attempt w,
  attempt + Z.of_nat remaining = retries + 1 ->
  (0 < remaining)%nat ->
  let out := extract_attempts E opts url retries attempt remaining w in
  exists k : nat,
    extract_calls out.2 = (extract_calls w + S k)%nat
    /\ (S k <= remaining)%nat
    /\ slept out.2 = (slept w ++ backoffs_from attempt k)%list
    /\ invoked out.2 = invoked w
    /\ encoder_runs out.2 = encoder_runs w.
Proof.
  induction remaining as [|remaining IH]; intros attempt w Hsum Hpos; [lia|].
  simpl. unfold try_except. rewrite extract_info_spec.
  set (o := ydl_extract_info E opts url (extract_calls w)).
  destruct (eo_result o) as [info|e] eqn:Ho.
  - exists 0%nat. simpl. rewrite app_nil_r. repeat split; try lia. 
  - destruct e; try (exists 0%nat; simpl; rewrite app_nil_r; repeat split; lia).
    destruct (retries <=? attempt) eqn:Hle.
    + exists 0%nat. simpl. rewrite app_nil_r. repeat split; lia.
    + apply Z.leb_gt in Hle. unfold bind, sleep.
      destruct remaining as [|remaining']; [lia|].
      edestruct (IH (attempt + 1) (add_sleep (backoff attempt)
                   (count_extract (set_fs (fun m => foldl (fun m kv => <[kv.1 := kv.2]> m) m (eo_written o)) w))))
        as (k & Hc & Hk & Hs & Hi & Hr); [lia|lia|].
      exists (S k). rewrite Hc, Hs, Hi, Hr. simpl.
      rewrite backoffs_from_S. rewrite <- app_assoc. simpl.
      repeat split; lia.
Qed.

Lemma extract_attempts_S E opts url retries attempt remaining w :
  extract_attempts E opts url retries attempt (S remaining) w
  = match eo_result (ydl_extract_info E opts url (extract_calls w)) with
    | Raise (YtDlpDownloadError msg) =>
        if retries <=? attempt
        then (Raise (YtDlpDownloadError msg), (extract_info E opts url w).2)
        else extract_attempts E opts url retries (attempt + 1) remaining
               (add_sleep (backoff attempt) (extract_info E opts url w).2)
    | r => (r, (extract_info E opts url w).2)
    end.
Proof.
  cbn [extract_attempts]. unfold try_except. rewrite extract_info_spec. cbn [snd].
  destruct (eo_result _) as [info|e]; [done|].
  destruct e; try done. by destruct (retries <=? attempt).
Qed.

Lemma extract_attempts_last E opts url retries : forall remaining attempt w,
  attempt + Z.of_nat remaining = retries ->
  (forall n, (n < remaining)%nat -> exists msg,
      eo_result (ydl_extract_info E opts url (extract_calls w + n))
      = Raise (YtDlpDownloadError msg)) ->
  let out := extract_attempts E opts url retries attempt (S remaining) w in
  out.1 = eo_result (ydl_extract_info E opts url (extract_calls w + remaining))
  /\ extract_calls out.2 = (extract_calls w + S remaining)%nat
  /\ slept out.2 = (slept w ++ backoffs_from attempt remaining)%list.
Proof.
  induction remaining as [|remaining IH]; intros attempt w Hsum Hfail;
    cbv zeta; rewrite extract_attempts_S.
  - rewrite Nat.add_0_r.
    assert ((retries <=? attempt) = true) as Hle by (apply Z.leb_le; lia).
    destruct (eo_result (ydl_extract_info E opts url (extract_calls w))) as [info|e] eqn:Ho.
    + simpl. rewrite app_nil_r. repeat split; lia.
    + destruct e; rewrite ?Hle; simpl; rewrite app_nil_r; repeat split; try done; lia.
  - destruct (Hfail 0%nat) as [msg Hmsg]; [lia|]. rewrite Nat.add_0_r in Hmsg.
    rewrite Hmsg.
    assert ((retries <=? attempt) = false) as -> by (apply Z.leb_gt; lia).
    set (w1 := add_sleep _ _).
    destruct (IH (attempt + 1) w1) as (Hr & Hc & Hs); [lia| |].
    { intros n Hn. destruct (Hfail (S n)) as [m Hm]; [lia|]. exists m.
      subst w1. simpl. rewrite <- Hm. f_equal. f_equal. lia. }
    rewrite Hr, Hc, Hs. subst w1. simpl.
    rewrite backoffs_from_S, <- app_assoc. simpl.
    repeat split; try lia. f_equal. f_equal. lia.
Qed.

Lemma backoff_doubles n :
  1 <= n -> backoff (n + 1) = Z.min (2 * backoff n) 10 /\ backoff n <= 10 /\ 2 <= backoff n.
Proof.
  intros Hn. unfold backoff. rewrite Z.pow_add_r by lia.
  assert (2 <= 2 ^ n) by (change 2 with (2 ^ 1) at 1; apply Z.pow_le_mono_r; lia).
  lia.
Qed.

(** C7.  The retry loop of the generic strategy.  The retry count is the
    configured one, raised to 1 when smaller.  The loop calls
    [extract_info] at least once and at most [retries] times, and pauses
    once after every failed call that is followed by another call, for
    [backoff 1], [backoff 2], ... seconds, where [backoff n] is
    [min (2 ^ n) 10]: it doubles from one attempt to the next and never
    exceeds 10.  When the first [retries - 1] calls raise yt-dlp's
    [DownloadError], the loop makes exactly [retries] calls and its
    outcome is the outcome of the last call: the value it returned, or the
    error it raised. *)
Theorem generic_retry_loop (E : Env) opts url w :
  let retries := effective_retries E in
  let out := extract_with_retries E opts url retries w in
  (1 <= retries /\ retries = Z.max 1 (download_retries (_settings E)))
  /\ (exists k : nat,
        extract_calls out.2 = (extract_calls w + S k)%nat
        /\ (S k <= Z.to_nat retries)%nat
        /\ slept out.2 = (slept w ++ backoffs k)%list)
  /\ (forall n, 1 <= n ->
        backoff n = Z.min (2 ^ n) 10
        /\ backoff (n + 1) = Z.min (2 * backoff n) 10
        /\ backoff n <= 10)
  /\ ((forall n, (n < Z.to_nat retries - 1)%nat -> exists msg,
         eo_result (ydl_extract_info E opts url (extract_calls w + n))
         = Raise (YtDlpDownloadError msg)) ->
      out.1 = eo_result (ydl_extract_info E opts url
                           (extract_calls w + (Z.to_nat retries - 1)))
      /\ extract_calls out.2 = (extract_calls w + Z.to_nat retries)%nat
      /\ slept out.2 = (slept w ++ backoffs (Z.to_nat retries - 1))%list).
Proof.
  intros retries out.
  assert (1 <= retries) as Hpos by (unfold retries, effective_retries; lia).
  split; [done|]. split.
  - destruct (extract_attempts_bound E opts url retries (Z.to_nat retries) 1 w)
      as (k & Hc & Hk & Hs & _); [lia|lia|].
    exists k. auto.
  - split.
    + intros n Hn. destruct (backoff_doubles n Hn) as (? & ? & ?). auto.
    + intros Hfail. subst out. unfold extract_with_retries.
      destruct (Z.to_nat retries) as [|r] eqn:Hr; [lia|].
      replace (S r - 1)%nat with r in * by lia.
      destruct (extract_attempts_last E opts url retries r 1 w) as (H1 & H2 & H3);
        [lia|done|]. auto.
Qed.

(** Three attempts allowed, two transient failures, success on the third:
    the loop returns the extracted information after pauses of 2 and 4
    seconds. *)
Lemma generic_retry_loop_witness :
  let out := extract_with_retries (Examples.flaky_env 3 2) Examples.some_opts
               "https://example.org/v" 3 Examples.empty_world in
  out.1 = Ret (Some {| ex_info := Examples.avc_info; ex_type := None; ex_entries := [] |})
  /\ extract_calls out.2 = 3%nat
  /\ slept out.2 = [2; 4].
Proof.
  destruct (generic_retry_loop (Examples.flaky_env 3 2) Examples.some_opts
              "https://example.org/v" Examples.empty_world) as (_ & _ & _ & H).
  apply H. intros n Hn.
  destruct n as [|[|n]]; [eexists; reflexivity|eexists; reflexivity|].
  vm_compute in Hn. lia.
Defined.

(** Every attempt fails: the error of the last attempt leaves the loop. *)
Example retry_loop_surfaces_last_error :
  let out := extract_with_retries (Examples.flaky_env 3 5) Examples.some_opts
               "https://example.org/v" 3 Examples.empty_world in
  out.1 = Raise (YtDlpDownloadError "HTTP Error 503")
  /\ extract_calls out.2 = 3%nat /\ slept out.2 = [2; 4].
Proof. vm_compute. repeat split; reflexivity. Qed.

(** With seven attempts the pauses are 2, 4, 8, 10, 10, 10. *)
Example retry_loop_backoff_is_capped :
  slept (extract_with_retries (Examples.flaky_env 7 9) Examples.some_opts
           "https://example.org/v" 7 Examples.empty_world).2
  = [2; 4; 8; 10; 10; 10].
Proof. vm_compute. reflexivity. Qed.

(** ** The compliance transcoder *)

Section Transcoder.
Variable E : Env.

Lemma transcode_spec path has_audio w :
  _transcode_to_mp4 E path has_audio w =
  match transcode_target path with
  | Raise e => (Raise e, w)
  | Ret target =>
      let w1 := add_run {| run_input := path; run_target := target;
                           run_args := output_args has_audio |} w in
      match fs w !! path with
      | None => (Raise transcode_error, w1)
      | Some input =>
          match ffmpeg_run E input (output_args has_audio) with
          | EncoderFailed None => (Raise transcode_error, w1)
          | EncoderFailed (Some partial) =>
              (Raise transcode_error, set_fs (<[target := partial]>) w1)
          | Encoded encoded =>
              (Ret target,
               drop_original E path target (set_fs (<[target := encoded]>) w1))
          end
      end
  end.
Proof.
  unfold _transcode_to_mp4. unfold bind at 1. unfold lift at 1.
  destruct (transcode_target path) as [target|e]; [|done].
  unfold bind at 1, try_except at 1, run_ffmpeg.
  cbn [fs add_run].
  destruct (fs w !! path) as [input|] eqn:Hin; [|done].
  destruct (ffmpeg_run E input (output_args has_audio)) as [encoded|[partial|]];
    [|done|done].
  unfold bind at 1, path_exists at 1. cbn [fs set_fs add_run].
  rewrite lookup_insert_eq. rewrite bool_decide_eq_true_2 by eauto.
  unfold drop_original. cbn [andb].
  destruct (String.eqb path target) eqn:Heq; cbn [negb].
  - done.
  - apply String.eqb_neq in Heq.
    unfold bind, try_except, path_unlink. cbn [fs set_fs add_run].
    rewrite lookup_insert_ne by done. rewrite Hin.
    by destruct (unlink_refused E path).
Qed.

Lemma ensure_playable_spec path w :
  _ensure_playable_mp4 E path w = _transcode_to_mp4 E path (assumed_audio E path w) w.
Proof.
  unfold _ensure_playable_mp4, probe, assumed_audio.
  destruct (fs w !! path) as [content|]; [|done].
  by destruct (ffmpeg_probe E content).
Qed.

End Transcoder.

Lemma probed_has_audio_iff streams :
  probed_has_audio streams = true
  <-> exists stream n, _find_stream streams "audio" = Some stream
                       /\ channels stream = Some n /\ 1 <= n.
Proof.
  unfold probed_has_audio. destruct (_find_stream streams "audio") as [stream|].
  - rewrite Z.ltb_lt. split.
    + intros H. destruct (channels stream) as [n|] eqn:Hn; simpl in H; [|lia].
      exists stream, n. repeat split; [done|lia].
    + intros (s' & n & [= <-] & Hn & Hle). rewrite Hn. simpl. lia.
  - split; [done|]. by intros (? & ? & ? & _).
Qed.

Lemma assumed_audio_iff (E : Env) path w :
  assumed_audio E path w = true
  <-> fs w !! path = None
      \/ (exists content, fs w !! path = Some content /\ ffmpeg_probe E content = None)
      \/ (exists content streams stream n,
            fs w !! path = Some content /\ ffmpeg_probe E content = Some streams
            /\ _find_stream streams "audio" = Some stream
            /\ channels stream = Some n /\ 1 <= n).
Proof.
  unfold assumed_audio. destruct (fs w !! path) as [content|]; [|by intuition].
  destruct (ffmpeg_probe E content) as [streams|] eqn:Hp.
  - rewrite probed_has_audio_iff. split.
    + intros (stream & n & ? & ? & ?). right. right.
      exists content, streams, stream, n. done.
    + intros [?|[(c & [= <-] & ?)|(c & ? & stream & n & [= <-] & Hs & ?)]].
      * done.
      * congruence.
      * rewrite Hp in Hs. injection Hs as <-. eauto.
  - split; [|done]. intros _. right. left. eauto.
Qed.

(** C1, as the code has it.  For a download whose detected codec begins,
    in lower case, with [avc] or [h264], the codec gate returns the path it
    was given and changes nothing: no encoder run, the file as downloaded.
    For any other detected codec the gate transcodes: ffmpeg is run once,
    to H.264 (libx264, profile [baseline], which x264 emits as constrained
    baseline), with an AAC stereo 48 kHz track exactly when the
    probe of the file failed or the first audio stream of the probe has at
    least one channel, and with no audio otherwise. *)
Theorem codec_gate (E : Env) info output w codec :
  _detect_video_codec info = Some codec ->
  if PyStr.startswith "avc" (PyStr.lower codec)
     || PyStr.startswith "h264" (PyStr.lower codec)
  then repair_codec E info output w = (Ret output, w)
  else
    exists has_audio : bool,
      repair_codec E info output w = _transcode_to_mp4 E output has_audio w
      /\ (has_audio = true
          <-> fs w !! output = None
              \/ (exists content, fs w !! output = Some content
                                  /\ ffmpeg_probe E content = None)
              \/ (exists content streams stream n,
                    fs w !! output = Some content
                    /\ ffmpeg_probe E content = Some streams
                    /\ _find_stream streams "audio" = Some stream
                    /\ channels stream = Some n /\ 1 <= n))
      /\ (forall target, transcode_target output = Ret target ->
            encoder_runs (repair_codec E info output w).2
            = (encoder_runs w ++
               [{| run_input := output; run_target := target;
                   run_args :=
                     {| arg_vcodec := "libx264"; arg_movflags := "+faststart";
                        arg_preset := "veryfast"; arg_crf := 23;
                        arg_pix_fmt := "yuv420p"; arg_profile_v := "baseline";
                        arg_level := "3.1"; arg_g := 48; arg_vsync := "vfr";
                        arg_audio := if has_audio
                                     then AudioTrack "aac" "128k" 2 48000
                                     else AudioNone |} |}])%list).
Proof.
  intros Hcodec. unfold repair_codec. rewrite Hcodec.
  unfold _is_telegram_friendly_codec.
  destruct (PyStr.startswith "avc" (PyStr.lower codec)
            || PyStr.startswith "h264" (PyStr.lower codec)); [done|].
  cbn [negb]. exists (assumed_audio E output w).
  split; [apply ensure_playable_spec|]. split; [apply assumed_audio_iff|].
  intros target Ht. rewrite ensure_playable_spec, transcode_spec, Ht.
  cbv zeta.
  destruct (fs w !! output) as [input|]; [|by destruct w].
  destruct (ffmpeg_run E input _) as [encoded|[partial|]];
    [|by destruct w|by destruct w].
  cbn [snd]. unfold drop_original.
  destruct (String.eqb output target); [by destruct w|].
  destruct (fs _ !! output); [|by destruct w].
  destruct (unlink_refused E output); by destruct w.
Qed.

(** An [avc1] download is returned as it is. *)
Lemma codec_gate_witness :
  repair_codec (Examples.flaky_env 3 0) Examples.avc_info "downloads/abc.mp4"
    (Examples.world_with "downloads/abc.mp4" "video-bytes")
  = (Ret "downloads/abc.mp4", Examples.world_with "downloads/abc.mp4" "video-bytes").
Proof.
  exact (codec_gate (Examples.flaky_env 3 0) Examples.avc_info "downloads/abc.mp4"
           (Examples.world_with "downloads/abc.mp4" "video-bytes")
           "avc1.64001F" eq_refl).
Defined.

(** C1 as stated fails where the probe fails: no audio stream was
    detected, and the encoder is still asked for an AAC track. *)
Lemma audio_track_without_detected_audio :
  _detect_video_codec Examples.hevc_info = Some "hev1.1.6.L93.B0"
  /\ ffmpeg_probe Examples.unprobeable_env "hevc-bytes" = None
  /\ map (fun r => arg_audio (run_args r))
        (encoder_runs
           (repair_codec Examples.unprobeable_env Examples.hevc_info
              "downloads/clip.mkv"
              (Examples.world_with "downloads/clip.mkv" "hevc-bytes")).2)
     = [AudioTrack "aac" "128k" 2 48000].
Proof. vm_compute. repeat split; reflexivity. Qed.

(** A probe that finds no audio stream gives a silent encode. *)
Example silent_video_is_encoded_without_audio :
  let out := repair_codec Examples.silent_env Examples.hevc_info "downloads/clip.mkv"
               (Examples.world_with "downloads/clip.mkv" "hevc-bytes") in
  out.1 = Ret "downloads/clip.mp4"
  /\ map (fun r => arg_audio (run_args r)) (encoder_runs out.2) = [AudioNone]
  /\ fs out.2 !! "downloads/clip.mp4" = Some "h264-bytes"
  /\ fs out.2 !! "downloads/clip.mkv" = None.
Proof. vm_compute. repeat split; reflexivity. Qed.

(** ** The Instagram strategy *)

Lemma select_index_in_range requested_index count :
  (0 < count)%nat -> (select_index requested_index count < count)%nat.
Proof.
  intros Hc. unfold select_index. destruct requested_index as [i|]; [|done].
  destruct ((1 <=? i) && (i <=? Z.of_nat count)) eqn:Hr; [|done].
  apply andb_true_iff in Hr as [H1 H2]. apply Z.leb_le in H1, H2. lia.
Qed.

(** [_download_instagram_media] once the payload is fetched and has
    media with at least one node. *)
Lemma instagram_media_selects (E : Env) url w shortcode media_type requested_index
    payload media w1 :
  _extract_instagram_shortcode E url = Ret (Some shortcode, media_type, requested_index) ->
  _fetch_instagram_payload E shortcode media_type (add_invoked InstagramStrategy w)
    = (Ret payload, w1) ->
  payload_media payload = Some media ->
  (0 < length (media_nodes media))%nat ->
  exists node,
    media_nodes media !! select_index requested_index (length (media_nodes media))
      = Some node
    /\ _download_instagram_media E url w
       = download_node E shortcode media (length (media_nodes media))
           (select_index requested_index (length (media_nodes media))) node w1.
Proof.
  intros Hx Hf Hm Hn.
  destruct (lookup_lt_is_Some_2 (media_nodes media)
              (select_index requested_index (length (media_nodes media))))
    as [node Hnode]; [by apply select_index_in_range|].
  exists node. split; [done|].
  unfold _download_instagram_media. unfold bind at 1, enter at 1.
  unfold bind at 1, lift at 1. rewrite Hx.
  unfold bind at 1. rewrite Hf, Hm.
  rewrite bool_decide_eq_false_2.
  - by rewrite Hnode.
  - intros Hnil. rewrite Hnil in Hn. simpl in Hn. lia.
Qed.

(** What [download_node] does with the node it is given. *)
Lemma download_node_outcome (E : Env) sc media count index node w :
  download_node E sc media count index node w =
  match node_source node with
  | Raise e => (Raise e, w)
  | Ret None => (Raise (DownloadError "Postda rasm topilmadi."), w)
  | Ret (Some (media_url, kind)) =>
      match url_ext media_url (fallback_ext kind) with
      | Raise e => (Raise e, w)
      | Ret e =>
          let file := instagram_file_path sc index count e in
          match _download_file_from_url E media_url file (Some (INSTAGRAM_HEADERS E))
                  INSTAGRAM_REQUEST_TIMEOUT w with
          | (Raise err, w') => (Raise err, w')
          | (Ret _, w') =>
              (Ret {| file_path := file;
                      title := if PyStr.truthy (_extract_instagram_caption media)
                               then _extract_instagram_caption media
                               else "Instagram " ++ sc;
                      duration := match kind with
                                  | Video => duration_of node media
                                  | Photo => None
                                  end;
                      ext := e; media_type := kind |}, w')
          end
      end
  end.
Proof.
  unfold download_node, node_source.
  destruct (if is_video node then truthy_opt (video_url node) else None) as [vurl|].
  - unfold bind at 1, lift at 1. cbn [fallback_ext].
    destruct (url_ext vurl "mp4") as [e|err]; [|done].
    cbv zeta. unfold bind.
    by destruct (_download_file_from_url E vurl _ _ _ w) as [[[]|err] w'].
  - unfold bind at 1, lift at 1.
    destruct (image_url_of node) as [[iurl|]|err]; cbn [res_bind]; [|done|done].
    unfold bind at 1, lift at 1. cbn [fallback_ext].
    destruct (url_ext iurl "jpg") as [e|err]; [|done].
    cbv zeta. unfold bind.
    by destruct (_download_file_from_url E iurl _ _ _ w) as [[[]|err] w'].
Qed.

(** C3.  For a carousel with [count] items and a requested 1-based index
    [i]: when [1 <= i <= count] the node at position [i] (0-based
    [i - 1]) is selected; for every other [i] it is the first node; in
    both cases the selection itself succeeds, and the request goes on with
    the selected node.  The selected node is the one returned: when the
    transfer of the media of that node returns, the request returns a
    result for the file of that transfer, named after the position of the
    node; and every result the request returns is of this kind, its file
    holding the complete body served for the media of the selected node. *)
Theorem carousel_index_selection (E : Env) url w shortcode post_type (i : Z)
    payload media w1 :
  _extract_instagram_shortcode E url = Ret (Some shortcode, post_type, Some i) ->
  _fetch_instagram_payload E shortcode post_type (add_invoked InstagramStrategy w)
    = (Ret payload, w1) ->
  payload_media payload = Some media ->
  (0 < length (media_nodes media))%nat ->
  let nodes := media_nodes media in
  let count := length nodes in
  let index := if (1 <=? i) && (i <=? Z.of_nat count) then Z.to_nat (i - 1) else 0%nat in
  exists node,
    nodes !! index = Some node
    /\ _download_instagram_media E url w
       = download_node E shortcode media count index node w1
    /\ (forall media_url kind e w',
          node_source node = Ret (Some (media_url, kind)) ->
          url_ext media_url (fallback_ext kind) = Ret e ->
          _download_file_from_url E media_url (instagram_file_path shortcode index count e)
            (Some (INSTAGRAM_HEADERS E)) INSTAGRAM_REQUEST_TIMEOUT w1 = (Ret tt, w') ->
          exists r,
            _download_instagram_media E url w = (Ret r, w')
            /\ file_path r = instagram_file_path shortcode index count e
            /\ ext r = e /\ media_type r = kind)
    /\ (forall r w',
          _download_instagram_media E url w = (Ret r, w') ->
          exists media_url status_code chunks,
            node_source node = Ret (Some (media_url, media_type r))
            /\ url_ext media_url (fallback_ext (media_type r)) = Ret (ext r)
            /\ http_stream E media_url (INSTAGRAM_HEADERS E) INSTAGRAM_REQUEST_TIMEOUT
               = Streaming status_code chunks StreamEnd
            /\ file_path r = instagram_file_path shortcode index count (ext r)
            /\ fs w' !! file_path r = Some (body_of chunks)).
Proof.
  intros Hx Hf Hm Hn nodes count index.
  destruct (instagram_media_selects E url w shortcode post_type (Some i) payload media w1
              Hx Hf Hm Hn) as (node & Hnode & Hrun).
  exists node. split; [exact Hnode|]. split; [exact Hrun|].
  fold nodes count in Hrun. change (select_index (Some i) count) with index in Hrun.
  rewrite Hrun, download_node_outcome. split.
  - intros media_url kind e w' Hsrc Hext Hd.
    rewrite Hsrc, Hext. cbv zeta. rewrite Hd.
    eexists. split; [reflexivity|]. cbn [file_path ext media_type]. done.
  - intros r w'.
    destruct (node_source node) as [[[media_url kind]|]|err] eqn:Hsrc;
      [|discriminate|discriminate].
    destruct (url_ext media_url (fallback_ext kind)) as [e|err] eqn:Hext; [|discriminate].
    cbv zeta.
    destruct (_download_file_from_url E media_url _ _ _ w1) as [[[]|err] w2] eqn:Hd;
      [|discriminate].
    intros [= <- <-]. cbn [file_path ext media_type].
    apply download_file_complete in Hd as (st & chunks & Hs & ->).
    exists media_url, st, chunks.
    split; [reflexivity|]. split; [exact Hext|]. split; [exact Hs|].
    split; [reflexivity|]. cbn [fs set_fs]. apply lookup_insert_eq.
Qed.

(** Index 2 of a carousel of three: the second photo is the one fetched,
    and the one returned as [downloads/Cxyz_2.jpg]. *)
Lemma carousel_index_selection_witness :
  exists node,
    media_nodes Examples.carousel !! 1%nat = Some node
    /\ display_url node = Some "https://cdn.example/2.jpg"
    /\ _download_instagram_media Examples.carousel_env
         "https://www.instagram.com/p/Cxyz/?img_index=2" Examples.empty_world
       = download_node Examples.carousel_env "Cxyz" Examples.carousel 3 1 node
           (add_invoked InstagramStrategy Examples.empty_world)
    /\ exists r w',
         _download_instagram_media Examples.carousel_env
           "https://www.instagram.com/p/Cxyz/?img_index=2" Examples.empty_world
         = (Ret r, w')
         /\ file_path r = "downloads/Cxyz_2.jpg"
         /\ fs w' !! "downloads/Cxyz_2.jpg" = Some "https://cdn.example/2.jpg".
Proof.
  destruct (carousel_index_selection Examples.carousel_env
              "https://www.instagram.com/p/Cxyz/?img_index=2" Examples.empty_world
              "Cxyz" "p" 2 Examples.carousel_payload Examples.carousel
              (add_invoked InstagramStrategy Examples.empty_world))
    as (node & Hnode & Hrun & Hgood & _).
  - vm_compute. reflexivity.
  - vm_compute. reflexivity.
  - reflexivity.
  - vm_compute. lia.
  - exists node. split; [exact Hnode|].
    assert (node = Examples.photo_node "https://cdn.example/2.jpg") as ->.
    { vm_compute in Hnode. injection Hnode as <-. reflexivity. }
    split; [reflexivity|]. split; [exact Hrun|].
    destruct (Hgood "https://cdn.example/2.jpg" Photo "jpg"
                (set_fs (<["downloads/Cxyz_2.jpg" := "https://cdn.example/2.jpg"]>)
                   (add_invoked InstagramStrategy Examples.empty_world)))
      as (r & Hret & Hfile & _).
    + reflexivity.
    + vm_compute. reflexivity.
    + vm_compute. reflexivity.
    + exists r,
        (set_fs (<["downloads/Cxyz_2.jpg" := "https://cdn.example/2.jpg"]>)
           (add_invoked InstagramStrategy Examples.empty_world)).
      split; [exact Hret|]. split; [exact Hfile|].
      apply lookup_insert_eq.
Defined.

Example carousel_second_item :
  let out := _download_instagram_media Examples.carousel_env
               "https://www.instagram.com/p/Cxyz/?img_index=2" Examples.empty_world in
  (file_path <$> (match out.1 with Ret r => Some r | Raise _ => None end))
    = Some "downloads/Cxyz_2.jpg"
  /\ fs out.2 !! "downloads/Cxyz_2.jpg" = Some "https://cdn.example/2.jpg".
Proof. vm_compute. split; reflexivity. Qed.

Example carousel_index_zero_falls_back :
  let out := _download_instagram_media Examples.carousel_env
               "https://www.instagram.com/p/Cxyz/?img_index=0" Examples.empty_world in
  (file_path <$> (match out.1 with Ret r => Some r | Raise _ => None end))
    = Some "downloads/Cxyz_1.jpg"
  /\ fs out.2 !! "downloads/Cxyz_1.jpg" = Some "https://cdn.example/1.jpg".
Proof. vm_compute. split; reflexivity. Qed.

Example carousel_index_five_falls_back :
  let out := _download_instagram_media Examples.carousel_env
               "https://www.instagram.com/p/Cxyz/?img_index=5" Examples.empty_world in
  (file_path <$> (match out.1 with Ret r => Some r | Raise _ => None end))
    = Some "downloads/Cxyz_1.jpg"
  /\ fs out.2 !! "downloads/Cxyz_1.jpg" = Some "https://cdn.example/1.jpg".
Proof. vm_compute. split; reflexivity. Qed.

(** ** Classification and dispatch *)



(** [download_video] is [classify] followed by the strategy of the
    verdict. *)
Lemma download_video_dispatch (E : Env) url w :
  download_video E url w =
  match classify url with
  | Raise e => (Raise e, w)
  | Ret Instagram =>
      try_except (_download_instagram_media E url)
        (fun error =>
           match error with
           | DownloadError _ => Some (_download_with_ytdlp E url false)
           | _ => None
           end) w
  | Ret TikTok => _download_tiktok_media E url w
  | Ret _ => _download_with_ytdlp E url false w
  end.
Proof.
  unfold download_video, classify, bind, lift.
  destruct (_is_instagram_url url) as [[]|]; try done; simpl.
  destruct (_is_tiktok_url url) as [[]|]; try done; simpl.
  destruct (_is_snapchat_url url) as [[]|]; try done; simpl.
  destruct (_is_likee_url url) as [[]|]; try done; simpl.
  by destruct (_is_youtube_url url) as [[]|].
Qed.




(** Classification raises where [urlparse] does. *)
Lemma classify_raises_on_unbalanced_bracket :
  classify "http://[instagram.com/p/Cxyz/" = Raise (ValueError "Invalid IPv6 URL").
Proof. vm_compute. reflexivity. Qed.

(** It raises as well on a bracketed host that is not an IP literal. *)
Example classify_raises_on_bracketed_name :
  classify "http://[instagram.com]/p/Cxyz/"
  = Raise (ValueError "'instagram.com' does not appear to be an IPv4 or IPv6 address").
Proof. vm_compute. reflexivity. Qed.

(** The network location is more than the host: a domain in the user
    information decides the provider of a URL whose host is elsewhere. *)
Example classify_reads_user_information :
  classify "https://tiktok.com@example.org/x" = Ret TikTok
  /\ classify "https://example.org:80/x" = Ret Generic
  /\ classify "https://[::1]:80/instagram.com" = Ret Generic.
Proof. vm_compute. repeat split; reflexivity. Qed.

Example classify_examples :
  classify "https://www.instagram.com/reel/Cxyz/" = Ret Instagram
  /\ classify "https://vm.tiktok.com/ZSabc/" = Ret TikTok
  /\ classify "https://story.snapchat.com/s/abc" = Ret Snapchat
  /\ classify "https://l.likee.video/v/abc" = Ret Likee
  /\ classify "https://youtu.be/abc" = Ret YouTube
  /\ classify "https://example.org/watch?v=1" = Ret Generic.
Proof. vm_compute. repeat split; reflexivity. Qed.

(** ** Which strategies a request enters *)

Lemma keeps_ret {A} (a : A) : keeps_trace (ret a).
Proof. by intros w. Qed.

Lemma keeps_raise {A} e : keeps_trace (@raise A e).
Proof. by intros w. Qed.

Lemma keeps_lift {A} (r : Res A) : keeps_trace (lift r).
Proof. by intros w. Qed.

Lemma keeps_bind {A B} (c : M A) (k : A -> M B) :
  keeps_trace c -> (forall a, keeps_trace (k a)) -> keeps_trace (bind c k).
Proof.
  intros Hc Hk w. unfold bind. specialize (Hc w).
  destruct (c w) as [[a|e] w1]; simpl in *; [|done].
  by rewrite Hk.
Qed.

Lemma keeps_try_except {A} (body : M A) handler :
  keeps_trace body ->
  (forall e h, handler e = Some h -> keeps_trace h) ->
  keeps_trace (try_except body handler).
Proof.
  intros Hb Hh w. unfold try_except. specialize (Hb w).
  destruct (body w) as [[a|e] w1]; simpl in *; [done|].
  destruct (handler e) as [h|] eqn:He; [|done].
  by rewrite (Hh e h He).
Qed.

Lemma keeps_path_exists p : keeps_trace (path_exists p).
Proof. by intros w. Qed.

Lemma keeps_path_unlink E p : keeps_trace (path_unlink E p).
Proof.
  intros w. unfold path_unlink. destruct (fs w !! p); [|done].
  destruct (unlink_refused E p); [done|]. by destruct w.
Qed.

Lemma keeps_open_wb p : keeps_trace (open_wb p).
Proof. intros w. by destruct w. Qed.

Lemma keeps_file_write p c : keeps_trace (file_write p c).
Proof. intros w. by destruct w. Qed.

Lemma keeps_stat_size p : keeps_trace (stat_size p).
Proof. intros w. unfold stat_size. by destruct (fs w !! p). Qed.

Lemma keeps_sleep s : keeps_trace (sleep s).
Proof. intros w. by destruct w. Qed.

Lemma keeps_run_ffmpeg E path target args : keeps_trace (run_ffmpeg E path target args).
Proof.
  intros w. unfold run_ffmpeg. cbn [fs add_run].
  destruct (fs w !! path) as [input|]; [|by destruct w].
  destruct (ffmpeg_run E input args) as [encoded|[partial|]]; by destruct w.
Qed.

Lemma keeps_extract_info E opts url : keeps_trace (extract_info E opts url).
Proof. intros w. by destruct w. Qed.

Lemma keeps_probe E path : keeps_trace (probe E path).
Proof.
  intros w. unfold probe. destruct (fs w !! path) as [c|]; [|done].
  by destruct (ffmpeg_probe E c).
Qed.

Create HintDb keeps.
#[local] Hint Resolve keeps_path_exists keeps_path_unlink keeps_open_wb keeps_file_write
  keeps_stat_size keeps_sleep keeps_run_ffmpeg keeps_extract_info keeps_probe : keeps.

Ltac keeps_step :=
  match goal with
  | |- keeps_trace (ret _) => apply keeps_ret
  | |- keeps_trace (raise _) => apply keeps_raise
  | |- keeps_trace (lift _) => apply keeps_lift
  | |- keeps_trace (bind _ _) => apply keeps_bind; [|intros ?]
  | |- keeps_trace (try_except _ _) => apply keeps_try_except; [|intros ? ? ?]
  | H : match ?e with _ => _ end = Some _ |- _ =>
      destruct e; try discriminate H; injection H as <-
  | H : Some _ = Some _ |- _ => injection H as <-
  | |- keeps_trace (match ?x with _ => _ end) => destruct x
  | |- _ => solve [eauto with keeps]
  end.

Ltac keeps := repeat keeps_step.

Lemma keeps_write_chunks destination chunks : keeps_trace (write_chunks destination chunks).
Proof. induction chunks as [|c cs IH]; simpl; keeps. Qed.
#[local] Hint Resolve keeps_write_chunks : keeps.

Lemma keeps_stream_to_file E u d h t : keeps_trace (stream_to_file E u d h t).
Proof. unfold stream_to_file. keeps. Qed.
#[local] Hint Resolve keeps_stream_to_file : keeps.

Lemma keeps_download_file E u d h t : keeps_trace (_download_file_from_url E u d h t).
Proof. unfold _download_file_from_url. keeps. Qed.
#[local] Hint Resolve keeps_download_file : keeps.

Lemma keeps_transcode E path a : keeps_trace (_transcode_to_mp4 E path a).
Proof. unfold _transcode_to_mp4. keeps. Qed.
#[local] Hint Resolve keeps_transcode : keeps.

Lemma keeps_ensure_playable E path : keeps_trace (_ensure_playable_mp4 E path).
Proof. intros w. rewrite ensure_playable_spec. apply keeps_transcode. Qed.
#[local] Hint Resolve keeps_ensure_playable : keeps.

Lemma keeps_extract_attempts E opts url retries remaining :
  forall attempt, keeps_trace (extract_attempts E opts url retries attempt remaining).
Proof. induction remaining as [|n IH]; intros attempt; simpl; keeps. Qed.
#[local] Hint Resolve keeps_extract_attempts : keeps.

Lemma keeps_first_existing output exts : keeps_trace (first_existing output exts).
Proof. induction exts as [|e es IH]; simpl; keeps. Qed.
#[local] Hint Resolve keeps_first_existing : keeps.

Lemma keeps_worker E url : keeps_trace (_worker E url).
Proof.
  unfold _worker, extract_with_retries, select_info, resolve_output, repair_codec. keeps.
Qed.

Lemma keeps_tiktok E url : keeps_trace (_download_tiktok_via_ssstik E url).
Proof. unfold _download_tiktok_via_ssstik, checked, check_tiktok_size. keeps. Qed.

Lemma keeps_fetch_html E page_url : keeps_trace (_fetch_instagram_payload_from_html E page_url).
Proof. unfold _fetch_instagram_payload_from_html. keeps. Qed.
#[local] Hint Resolve keeps_fetch_html : keeps.

Lemma keeps_fetch_payload E sc mt : keeps_trace (_fetch_instagram_payload E sc mt).
Proof. unfold _fetch_instagram_payload. keeps. Qed.
#[local] Hint Resolve keeps_fetch_payload : keeps.

Lemma keeps_download_node E sc media count index node :
  keeps_trace (download_node E sc media count index node).
Proof. unfold download_node. keeps. Qed.

Lemma generic_trace (E : Env) url ensure_playable w :
  invoked (_download_with_ytdlp E url ensure_playable w).2
  = (invoked w ++ [GenericStrategy])%list.
Proof.
  unfold _download_with_ytdlp.
  assert (forall c : M DownloadResult, keeps_trace c ->
            invoked (bind (enter GenericStrategy) (fun _ => c) w).2
            = (invoked w ++ [GenericStrategy])%list) as H.
  { intros c Hc. unfold bind, enter. rewrite Hc. by destruct w. }
  apply H. pose proof (keeps_worker E url). keeps.
Qed.

Lemma tiktok_trace (E : Env) url w :
  invoked (_download_tiktok_media E url w).2 = (invoked w ++ [TikTokStrategy])%list.
Proof.
  rewrite tiktok_media_spec, keeps_tiktok. by destruct w.
Qed.

Lemma instagram_trace (E : Env) url w :
  invoked (_download_instagram_media E url w).2
  = (invoked w ++ [InstagramStrategy])%list.
Proof.
  unfold _download_instagram_media.
  assert (forall c : M DownloadResult, keeps_trace c ->
            invoked (bind (enter InstagramStrategy) (fun _ => c) w).2
            = (invoked w ++ [InstagramStrategy])%list) as H.
  { intros c Hc. unfold bind, enter. rewrite Hc. by destruct w. }
  apply H. pose proof (keeps_download_node E). keeps.
Qed.

(** Whatever goes wrong inside the generic strategy leaves it as a
    [DownloadError]. *)
Lemma generic_raises_download_error (E : Env) url ensure_playable w e w' :
  _download_with_ytdlp E url ensure_playable w = (Raise e, w') ->
  is_DownloadError e = true.
Proof.
  unfold _download_with_ytdlp. unfold bind at 1, enter at 1.
  unfold try_except.
  match goal with |- context [match ?c ?w0 with _ => _ end] => destruct (c w0) as [[r|e0] w1] end.
  - discriminate.
  - destruct e0; unfold raise; intros [= <- <-]; done.
Qed.

(** ** Fallback *)

(** The fallback policy of [download_video].  A URL classified as
    Instagram enters the Instagram strategy; when that strategy raises
    [DownloadError], and only then, the generic strategy is entered next,
    and its outcome is the outcome of the request.  A URL classified as
    TikTok enters the TikTok strategy alone; every other URL enters the
    generic strategy alone.  No request enters more than two strategies. *)
Theorem fallback_policy (E : Env) url w :
  let out := download_video E url w in
  match classify url with
  | Raise e => out = (Raise e, w)
  | Ret Instagram =>
      match _download_instagram_media E url w with
      | (Raise (DownloadError _), w1) =>
          out = _download_with_ytdlp E url false w1
          /\ invoked out.2 = (invoked w ++ [InstagramStrategy; GenericStrategy])%list
      | first =>
          out = first
          /\ invoked out.2 = (invoked w ++ [InstagramStrategy])%list
      end
  | Ret TikTok =>
      out = _download_tiktok_media E url w
      /\ invoked out.2 = (invoked w ++ [TikTokStrategy])%list
  | Ret _ =>
      out = _download_with_ytdlp E url false w
      /\ invoked out.2 = (invoked w ++ [GenericStrategy])%list
  end
  /\ (length (invoked out.2) <= length (invoked w) + 2)%nat.
Proof.
  intros out. subst out. rewrite download_video_dispatch.
  destruct (classify url) as [[| | | | |]|e].
  - unfold try_except.
    pose proof (instagram_trace E url w) as Ht.
    destruct (_download_instagram_media E url w) as [[r|e] w1]; simpl in Ht.
    + cbn [snd]. rewrite Ht, length_app. simpl. split; [done|lia].
    + destruct e; try (cbn [snd]; rewrite Ht, length_app; simpl; split; [done|lia]).
      rewrite generic_trace, Ht, <- app_assoc, length_app. simpl. split; [done|lia].
  - rewrite tiktok_trace, length_app. simpl. split; [done|lia].
  - rewrite generic_trace, length_app. simpl. split; [done|lia].
  - rewrite generic_trace, length_app. simpl. split; [done|lia].
  - rewrite generic_trace, length_app. simpl. split; [done|lia].
  - rewrite generic_trace, length_app. simpl. split; [done|lia].
  - simpl. split; [done|lia].
Qed.

(** C5 fails on the code.  The fallback is taken under
    [except DownloadError] only, and the Instagram strategy does not wrap
    its own failures: on a post whose node has no [display_url] and an
    empty [display_resources] list it fails with [IndexError], the request
    fails with that [IndexError], and the generic strategy is never
    entered, although it would have delivered the video. *)
Lemma instagram_failure_without_fallback :
  classify "https://www.instagram.com/p/Cxyz/" = Ret Instagram
  /\ (_download_instagram_media Examples.bare_env
        "https://www.instagram.com/p/Cxyz/" Examples.empty_world).1 = Raise IndexError
  /\ (download_video Examples.bare_env
        "https://www.instagram.com/p/Cxyz/" Examples.empty_world).1 = Raise IndexError
  /\ invoked (download_video Examples.bare_env
                "https://www.instagram.com/p/Cxyz/" Examples.empty_world).2
     = [InstagramStrategy]
  /\ is_Ret (_download_with_ytdlp Examples.bare_env
               "https://www.instagram.com/p/Cxyz/" false Examples.empty_world).1 = true.
Proof. vm_compute. repeat split; reflexivity. Qed.

(** The fallback at work: Instagram unreachable, yt-dlp delivers. *)
Example instagram_falls_back_to_generic :
  let out := download_video Examples.instagram_down_env
               "https://www.instagram.com/p/Cxyz/" Examples.empty_world in
  (file_path <$> (match out.1 with Ret r => Some r | Raise _ => None end))
    = Some "downloads/abc.mp4"
  /\ invoked out.2 = [InstagramStrategy; GenericStrategy].
Proof. vm_compute. split; reflexivity. Qed.

(** ** Errors at the boundary *)

(** C8 fails on the code.  [download_video] parses the URL before it
    enters any strategy and outside any [try]: on a URL with an unbalanced
    bracket in its host, the [ValueError] of [urlparse] reaches the caller
    as it is, in every environment. *)
Theorem value_error_crosses_boundary (E : Env) w :
  download_video E "http://[instagram.com/p/Cxyz/" w
  = (Raise (ValueError "Invalid IPv6 URL"), w)
  /\ is_DownloadError (ValueError "Invalid IPv6 URL") = false
  /\ is_supported_url "http://[instagram.com/p/Cxyz/" = true.
Proof.
  split; [|split; vm_compute; reflexivity].
  rewrite download_video_dispatch.
  assert (classify "http://[instagram.com/p/Cxyz/" = Raise (ValueError "Invalid IPv6 URL"))
    as -> by (vm_compute; reflexivity).
  reflexivity.
Qed.

(** The Instagram strategy lets an [IndexError] through as well. *)
Example index_error_crosses_boundary :
  (download_video Examples.bare_env "https://www.instagram.com/p/Cxyz/"
     Examples.empty_world).1 = Raise IndexError.
Proof. vm_compute. reflexivity. Qed.

(** So does the TikTok strategy, with the [TypeError] of [re.search] on
    an answer of the resolver whose [data] is not a string. *)
Example type_error_crosses_boundary :
  (download_video Examples.numeric_answer_env "https://vt.tiktok.com/ZSabc/"
     Examples.empty_world).1 = Raise TypeError.
Proof. vm_compute. reflexivity. Qed.

(** And the Instagram strategy again, with the [AttributeError] of
    [data.get] on a JSON answer that is not an object. *)
Example attribute_error_crosses_boundary :
  (download_video Examples.list_answer_env "https://www.instagram.com/p/Cxyz/"
     Examples.empty_world).1 = Raise AttributeError.
Proof. vm_compute. reflexivity. Qed.

(** ** The file of a result *)

Section Existence.
Variable E : Env.

Lemma path_exists_spec p w :
  path_exists p w = (Ret (bool_decide (is_Some (fs w !! p))), w).
Proof. reflexivity. Qed.

Lemma first_existing_spec output exts : forall w p w',
  first_existing output exts w = (Ret p, w') ->
  w' = w /\ (p = output \/ is_Some (fs w !! p)).
Proof.
  induction exts as [|e es IH]; intros w p w' H; simpl in H.
  - injection H as <- <-. auto.
  - unfold bind, lift in H.
    destruct (Pathlib.with_suffix e output) as [candidate|]; [|discriminate].
    rewrite path_exists_spec in H.
    destruct (bool_decide (is_Some (fs w !! candidate))) eqn:Hb.
    + injection H as <- <-. apply bool_decide_eq_true_1 in Hb. auto.
    + by apply IH.
Qed.

Lemma resolve_output_spec output w p w' :
  resolve_output output w = (Ret p, w') -> w' = w /\ is_Some (fs w !! p).
Proof.
  unfold resolve_output. intros H.
  apply bind_Ret_inv in H as (present & w1 & H1 & H).
  rewrite path_exists_spec in H1. injection H1 as <- <-.
  apply bind_Ret_inv in H as (out & w2 & H2 & H).
  assert (w2 = w) as ->.
  { destruct (bool_decide (is_Some (fs w !! output))).
    - by injection H2.
    - apply bind_Ret_inv in H2 as (candidate & w3 & H3 & H2).
      unfold lift in H3. injection H3 as _ <-.
      apply bind_Ret_inv in H2 as (pr & w4 & H4 & H2).
      rewrite path_exists_spec in H4. injection H4 as <- <-.
      destruct (bool_decide _); [by injection H2|].
      by apply first_existing_spec in H2 as [-> _]. }
  apply bind_Ret_inv in H as (pr & w5 & H5 & H).
  rewrite path_exists_spec in H5. injection H5 as <- <-.
  destruct (bool_decide (is_Some (fs w !! out))) eqn:Hb; [|discriminate].
  injection H as <- <-. split; [done|]. by apply bool_decide_eq_true_1 in Hb.
Qed.

Lemma transcode_target_exists path has_audio w target w' :
  _transcode_to_mp4 E path has_audio w = (Ret target, w') ->
  is_Some (fs w' !! target).
Proof.
  rewrite transcode_spec.
  destruct (transcode_target path) as [t|]; [|discriminate]. cbv zeta.
  destruct (fs w !! path) as [input|]; [|discriminate].
  destruct (ffmpeg_run E input _) as [encoded|[partial|]]; [|discriminate|discriminate].
  intros [= <- <-]. unfold drop_original.
  destruct (String.eqb path t) eqn:Heq.
  - destruct w; simpl. rewrite lookup_insert_eq. eauto.
  - apply String.eqb_neq in Heq.
    destruct (fs _ !! path); [|destruct w; simpl; rewrite lookup_insert_eq; eauto].
    destruct (unlink_refused E path).
    + destruct w; simpl. rewrite lookup_insert_eq. eauto.
    + destruct w; simpl. rewrite lookup_delete_ne by done.
      rewrite lookup_insert_eq. eauto.
Qed.

Lemma ensure_playable_exists path w target w' :
  _ensure_playable_mp4 E path w = (Ret target, w') -> is_Some (fs w' !! target).
Proof. rewrite ensure_playable_spec. apply transcode_target_exists. Qed.

Lemma repair_codec_exists info output w p w' :
  repair_codec E info output w = (Ret p, w') ->
  is_Some (fs w !! output) -> is_Some (fs w' !! p).
Proof.
  unfold repair_codec. intros H Hex.
  destruct (_detect_video_codec info) as [codec|]; [|by injection H as <- <-].
  destruct (negb (_is_telegram_friendly_codec codec)); [|by injection H as <- <-].
  by apply ensure_playable_exists in H.
Qed.

Lemma worker_result_exists url w r w' :
  _worker E url w = (Ret r, w') -> is_Some (fs w' !! file_path r).
Proof.
  unfold _worker. intros H.
  do 4 (apply bind_Ret_inv in H as (? & ? & _ & H)).
  apply bind_Ret_inv in H as (info & w1 & _ & H).
  destruct info as [extracted|]; [|discriminate].
  apply bind_Ret_inv in H as (info & w2 & _ & H).
  apply bind_Ret_inv in H as (output & w3 & Hres & H).
  apply resolve_output_spec in Hres as [-> Hex].
  apply bind_Ret_inv in H as (final & w4 & Hrep & H).
  injection H as <- <-. simpl.
  destruct (media_type_of output).
  - by apply repair_codec_exists in Hrep.
  - by injection Hrep as <- <-.
Qed.

Lemma generic_result_exists url ensure_playable w r w' :
  _download_with_ytdlp E url ensure_playable w = (Ret r, w') ->
  is_Some (fs w' !! file_path r).
Proof.
  unfold _download_with_ytdlp. intros H.
  apply bind_Ret_inv in H as ([] & w1 & _ & H).
  unfold try_except in H.
  match type of H with
  | (match ?c ?w0 with _ => _ end) = _ => destruct (c w0) as [[r0|e] w2] eqn:Hbody
  end.
  - injection H as <- <-.
    apply bind_Ret_inv in Hbody as (res & w3 & Hw & Hbody).
    apply worker_result_exists in Hw.
    destruct (ensure_playable && is_video_type (media_type res)).
    + apply bind_Ret_inv in Hbody as (final & w4 & Hf & Hbody).
      apply ensure_playable_exists in Hf.
      destruct (negb (String.eqb final (file_path res))) eqn:Hne.
      * by injection Hbody as <- <-.
      * injection Hbody as <- <-. apply negb_false_iff, String.eqb_eq in Hne.
        by rewrite <- Hne.
    + by injection Hbody as <- <-.
  - destruct e; discriminate.
Qed.

Lemma download_node_result sc media count index node w r w' :
  download_node E sc media count index node w = (Ret r, w') ->
  exists content, fs w' !! file_path r = Some content /\ streamed_in_full E content.
Proof.
  unfold download_node. intros H.
  destruct (if is_video node then truthy_opt (video_url node) else None) as [vurl|].
  - apply bind_Ret_inv in H as (ext & w1 & Hl & H). injection Hl as _ <-.
    apply bind_Ret_inv in H as ([] & w2 & Hd & H).
    apply download_file_complete in Hd as (st & chunks & Hs & ->).
    injection H as <- <-. simpl. exists (body_of chunks).
    split; [destruct w; simpl; apply lookup_insert_eq|].
    unfold streamed_in_full. eauto 10.
  - apply bind_Ret_inv in H as (img & w1 & Hl & H). injection Hl as _ <-.
    destruct img as [iurl|]; [|discriminate].
    apply bind_Ret_inv in H as (ext & w2 & Hl & H). injection Hl as _ <-.
    apply bind_Ret_inv in H as ([] & w3 & Hd & H).
    apply download_file_complete in Hd as (st & chunks & Hs & ->).
    injection H as <- <-. simpl. exists (body_of chunks).
    split; [destruct w; simpl; apply lookup_insert_eq|].
    unfold streamed_in_full. eauto 10.
Qed.

Lemma instagram_result url w r w' :
  _download_instagram_media E url w = (Ret r, w') ->
  exists content, fs w' !! file_path r = Some content /\ streamed_in_full E content.
Proof.
  unfold _download_instagram_media. intros H.
  apply bind_Ret_inv in H as ([] & w1 & _ & H).
  apply bind_Ret_inv in H as ([[sc mt] idx] & w2 & _ & H).
  destruct sc as [sc|]; [|discriminate].
  apply bind_Ret_inv in H as (payload & w3 & _ & H).
  destruct (payload_media payload) as [media|]; [|discriminate].
  destruct (bool_decide (media_nodes media = [])); [discriminate|].
  destruct (media_nodes media !! _) as [node|]; [|discriminate].
  by apply download_node_result in H.
Qed.

End Existence.

(** C2, as the code has it.  When [download_video] returns a result, the
    file of the result exists.  When the result comes from the TikTok
    strategy the file holds the complete body of a finished transfer and
    has at least 120 * 1024 bytes; when it comes from the Instagram
    strategy the file holds the complete body of a finished transfer, of
    whatever length; the generic strategy promises existence only. *)
Theorem result_file_exists (E : Env) url w r w' :
  download_video E url w = (Ret r, w') ->
  exists content,
    fs w' !! file_path r = Some content
    /\ match last (invoked w') with
       | Some TikTokStrategy =>
           120 * 1024 <= PyStr.len content /\ streamed_in_full E content
       | Some InstagramStrategy => streamed_in_full E content
       | _ => True
       end.
Proof.
  rewrite download_video_dispatch. intros H.
  assert (forall b w0, _download_with_ytdlp E url b w0 = (Ret r, w') ->
            exists content, fs w' !! file_path r = Some content
              /\ match last (invoked w') with
                 | Some TikTokStrategy =>
                     120 * 1024 <= PyStr.len content /\ streamed_in_full E content
                 | Some InstagramStrategy => streamed_in_full E content
                 | _ => True
                 end) as Hgeneric.
  { intros b w0 Hg. pose proof (generic_trace E url b w0) as Ht.
    rewrite Hg in Ht. simpl in Ht. rewrite Ht, last_snoc.
    apply generic_result_exists in Hg as [content Hc]. eauto. }
  destruct (classify url) as [[| | | | |]|e]; try discriminate;
    try (by apply (Hgeneric false w)).
  - unfold try_except in H.
    destruct (_download_instagram_media E url w) as [[r0|e] w1] eqn:Hi.
    + injection H as <- <-.
      pose proof (instagram_trace E url w) as Ht. rewrite Hi in Ht. simpl in Ht.
      rewrite Ht, last_snoc.
      by apply instagram_result in Hi.
    + destruct e; try discriminate. by apply (Hgeneric false w1).
  - pose proof (tiktok_trace E url w) as Ht. rewrite H in Ht. simpl in Ht.
    rewrite Ht, last_snoc.
    rewrite tiktok_media_spec in H.
    pose proof (tiktok_via_ssstik_outcome E url (add_invoked TikTokStrategy w)) as Ho.
    rewrite H in Ho. destruct Ho as (c & ? & ? & ? & _). eauto.
Qed.

(** The second photo of the carousel: the file exists and holds the body
    the CDN sent. *)
Lemma result_file_exists_witness :
  exists content,
    fs (download_video Examples.carousel_env
          "https://www.instagram.com/p/Cxyz/?img_index=2" Examples.empty_world).2
      !! "downloads/Cxyz_2.jpg" = Some content.
Proof.
  destruct (result_file_exists Examples.carousel_env
              "https://www.instagram.com/p/Cxyz/?img_index=2" Examples.empty_world
              {| file_path := "downloads/Cxyz_2.jpg"; title := "Three photos";
                 duration := None; ext := "jpg"; media_type := Photo |}
              (download_video Examples.carousel_env
                 "https://www.instagram.com/p/Cxyz/?img_index=2"
                 Examples.empty_world).2)
    as (content & Hc & _).
  - vm_compute. reflexivity.
  - exists content. exact Hc.
Defined.

(** C2 as stated fails on an empty response body: the Instagram strategy
    returns a result whose file exists and is empty. *)
Lemma empty_file_returned :
  let out := download_video Examples.empty_body_env
               "https://www.instagram.com/p/Cxyz/" Examples.empty_world in
  (file_path <$> (match out.1 with Ret r => Some r | Raise _ => None end))
    = Some "downloads/Cxyz.jpg"
  /\ fs out.2 !! "downloads/Cxyz.jpg" = Some "".
Proof. vm_compute. split; reflexivity. Qed.

(** [download_video] always calls the generic strategy with
    [ensure_playable=False]; the unconditional second pass through the
    transcoder is then skipped, and the codec gate of the worker is the
    only place where a download may be re-encoded. *)
Lemma generic_without_second_pass (E : Env) url w :
  _download_with_ytdlp E url false w
  = (enter GenericStrategy ;;;
     try_except (_worker E url)
       (fun error =>
          match error with
          | YtDlpDownloadError msg =>
              Some (raise (DownloadError
                (if PyStr.contains "handshake operation timed out" (PyStr.lower msg)
                 then "TikTok serveri juda sekin javob bermoqda. Birozdan so'ng qayta urinib ko'ring."
                 else "Video yuklab olib bo'lmadi. Havolani tekshiring.")))
          | _ => Some (raise (DownloadError "Kutilmagan xato yuz berdi. Keyinroq urinib ko'ring."))
          end)) w.
Proof.
  unfold _download_with_ytdlp, bind at 1 3, enter. cbn [andb].
  unfold try_except, bind, ret.
  by destruct (_worker E url _) as [[r|e] w1].
Qed.

(** ** The generic strategy, end to end *)

(** Two transient failures, success on the third attempt: the strategy
    returns the downloaded file after pauses of 2 and 4 seconds, without
    running the encoder on the H.264 download. *)
Example generic_succeeds_on_last_attempt :
  let out := _download_with_ytdlp (Examples.flaky_env 3 2) "https://example.org/v" false
               Examples.empty_world in
  out.1 = Ret {| file_path := "downloads/abc.mp4"; title := "A clip"; duration := None;
                 ext := "mp4"; media_type := Video |}
  /\ slept out.2 = [2; 4]
  /\ extract_calls out.2 = 3%nat
  /\ encoder_runs out.2 = []
  /\ fs out.2 !! "downloads/abc.mp4" = Some "video-bytes".
Proof. vm_compute. repeat split; reflexivity. Qed.

(** Every attempt fails: the error of the last attempt is re-raised at
    the boundary of the strategy as a [DownloadError]. *)
Example generic_gives_up_after_last_attempt :
  let out := _download_with_ytdlp (Examples.flaky_env 3 5) "https://example.org/v" false
               Examples.empty_world in
  out.1 = Raise (DownloadError "Video yuklab olib bo'lmadi. Havolani tekshiring.")
  /\ slept out.2 = [2; 4]
  /\ extract_calls out.2 = 3%nat.
Proof. vm_compute. repeat split; reflexivity. Qed.

(** A configured retry count of 0 still gives one attempt. *)
Example generic_minimum_one_attempt :
  let out := _download_with_ytdlp (Examples.flaky_env 0 5) "https://example.org/v" false
               Examples.empty_world in
  extract_calls out.2 = 1%nat /\ slept out.2 = [].
Proof. vm_compute. split; reflexivity. Qed.

(** * Further properties of the module *)

(** ** File retrieval *)

(** X1.  A transfer that runs to its end leaves exactly the body of the
    response at the destination, whatever was there before, and touches no
    other file. *)
Theorem completed_transfer_writes_body
    (E : Env) source_url destination headers timeout w status_code chunks :
  http_stream E source_url (effective_headers E headers) timeout
    = Streaming status_code chunks StreamEnd ->
  http_error_status status_code = false ->
  exists w',
    _download_file_from_url E source_url destination headers timeout w = (Ret tt, w')
    /\ fs w' !! destination = Some (body_of chunks)
    /\ forall p, p <> destination -> fs w' !! p = fs w !! p.
Proof.
  intros Hs Hok. rewrite download_file_spec, Hs, Hok. cbv zeta.
  eexists. split; [reflexivity|]. split.
  - destruct w; simpl. apply lookup_insert_eq.
  - intros p Hp. destruct w; simpl. by apply lookup_insert_ne.
Qed.

Lemma completed_transfer_writes_body_witness :
  exists w',
    _download_file_from_url Examples.carousel_env "https://cdn.example/1.jpg"
      "downloads/a.jpg" None 20 (Examples.world_with "downloads/a.jpg" "old")
    = (Ret tt, w')
    /\ fs w' !! "downloads/a.jpg" = Some "https://cdn.example/1.jpg".
Proof.
  destruct (completed_transfer_writes_body Examples.carousel_env
              "https://cdn.example/1.jpg" "downloads/a.jpg" None 20
              (Examples.world_with "downloads/a.jpg" "old") 200
              ["https://cdn.example/1.jpg"] eq_refl eq_refl) as (w' & H1 & H2 & _).
  exists w'. split; [exact H1|exact H2].
Defined.

(** X2.  When the request fails before a byte is written (no connection,
    or a 4xx/5xx status), [DownloadError] is raised, no file is created,
    and a file that was already at the destination is deleted (unless the
    operating system refuses). *)
Theorem refused_request_removes_existing_file
    (E : Env) source_url destination headers timeout w :
  match http_stream E source_url (effective_headers E headers) timeout with
  | ConnectFailed => True
  | Streaming status_code _ _ => http_error_status status_code = true
  end ->
  exists w',
    _download_file_from_url E source_url destination headers timeout w
      = (Raise (DownloadError "Mediat faylini yuklab olishda xato yuz berdi."), w')
    /\ fs w' !! destination
       = (if unlink_refused E destination then fs w !! destination else None)
    /\ forall p, p <> destination -> fs w' !! p = fs w !! p.
Proof.
  intros H. rewrite download_file_spec.
  assert (exists w', (@Raise unit transfer_error, after_discard E destination w)
                     = (Raise (DownloadError "Mediat faylini yuklab olishda xato yuz berdi."), w')
            /\ fs w' !! destination
               = (if unlink_refused E destination then fs w !! destination else None)
            /\ forall p, p <> destination -> fs w' !! p = fs w !! p) as Hgoal.
  { eexists. split; [reflexivity|]. split; [apply after_discard_self|].
    intros p Hp. by apply after_discard_other. }
  destruct (http_stream E _ _ _) as [|st chunks tail]; [exact Hgoal|].
  by rewrite H.
Qed.

Lemma refused_request_removes_existing_file_witness :
  exists w',
    _download_file_from_url (Examples.flaky_env 3 0) "https://cdn.example/1.jpg"
      "downloads/a.jpg" None 20 (Examples.world_with "downloads/a.jpg" "old")
    = (Raise (DownloadError "Mediat faylini yuklab olishda xato yuz berdi."), w')
    /\ fs w' !! "downloads/a.jpg" = None.
Proof.
  destruct (refused_request_removes_existing_file (Examples.flaky_env 3 0)
              "https://cdn.example/1.jpg" "downloads/a.jpg" None 20
              (Examples.world_with "downloads/a.jpg" "old") I) as (w' & H1 & H2 & _).
  exists w'. split; [exact H1|exact H2].
Defined.

(** ** Codec detection *)

Lemma real_codec_Some v codec :
  real_codec v = Some codec ->
  codec = PyStr.strip (default EmptyString v)
  /\ PyStr.truthy codec = true /\ PyStr.lower codec <> "none".
Proof.
  unfold real_codec.
  destruct (PyStr.truthy (PyStr.strip (default "" v))) eqn:Ht; [|discriminate].
  destruct (String.eqb (PyStr.lower (PyStr.strip (default "" v))) "none") eqn:Hn;
    [discriminate|].
  simpl. intros [= <-]. apply String.eqb_neq in Hn. auto.
Qed.

Lemma first_real_codec_Some collection codec :
  first_real_codec collection = Some codec ->
  exists entry, In (Some entry) collection /\ real_codec (fmt_vcodec entry) = Some codec.
Proof.
  induction collection as [|[entry|] rest IH]; simpl; [discriminate| |].
  - destruct (real_codec (fmt_vcodec entry)) as [c|] eqn:Hc.
    + intros [= <-]. eauto.
    + intros H. destruct (IH H) as (e & ? & ?). eauto.
  - intros H. destruct (IH H) as (e & ? & ?). eauto.
Qed.

Lemma first_real_codec_None collection :
  first_real_codec collection = None ->
  forall entry, In (Some entry) collection -> real_codec (fmt_vcodec entry) = None.
Proof.
  induction collection as [|[e|] rest IH]; simpl; intros H entry Hin; [done| |].
  - destruct (real_codec (fmt_vcodec e)) eqn:Hc; [discriminate|].
    destruct Hin as [[= <-]|Hin]; [done|]. by apply IH.
  - destruct Hin as [|Hin]; [discriminate|]. by apply IH.
Qed.

(** X3.  A codec reported by [_detect_video_codec] is never empty and
    never [none] in any letter case; it is the stripped [vcodec] of the
    info dictionary itself when that is a real codec, and otherwise the
    stripped [vcodec] of an entry of [requested_formats],
    [requested_downloads] or [formats]. *)
Theorem detected_codec_is_real info codec :
  _detect_video_codec info = Some codec ->
  PyStr.truthy codec = true
  /\ PyStr.lower codec <> "none"
  /\ (codec = PyStr.strip (default EmptyString (info_vcodec info))
      \/ (real_codec (info_vcodec info) = None
          /\ exists entry,
               In (Some entry)
                  (requested_formats info ++ requested_downloads info ++ formats info)%list
               /\ codec = PyStr.strip (default EmptyString (fmt_vcodec entry)))).
Proof.
  unfold _detect_video_codec.
  destruct (real_codec (info_vcodec info)) as [c|] eqn:H0.
  { intros [= <-]. apply real_codec_Some in H0 as (? & ? & ?). auto. }
  assert (forall coll, first_real_codec coll = Some codec ->
            (forall e, In (Some e) coll ->
               In (Some e) (requested_formats info ++ requested_downloads info
                            ++ formats info)%list) ->
            PyStr.truthy codec = true /\ PyStr.lower codec <> "none"
            /\ (codec = PyStr.strip (default EmptyString (info_vcodec info))
                \/ (None = (None : option string)
                    /\ exists entry,
                         In (Some entry)
                            (requested_formats info ++ requested_downloads info
                             ++ formats info)%list
                         /\ codec = PyStr.strip (default EmptyString (fmt_vcodec entry)))))
    as Hcoll.
  { intros coll Hc Hsub. apply first_real_codec_Some in Hc as (e & Hin & Hr).
    apply real_codec_Some in Hr as (? & ? & ?). repeat split; try done.
    right. split; [done|]. exists e. split; [by apply Hsub|done]. }
  destruct (first_real_codec (requested_formats info)) as [c|] eqn:H1.
  { intros [= <-]. apply (Hcoll _ H1). intros e He. apply in_or_app. auto. }
  destruct (first_real_codec (requested_downloads info)) as [c|] eqn:H2.
  { intros [= <-]. apply (Hcoll _ H2). intros e He.
    apply in_or_app. right. apply in_or_app. auto. }
  intros H3. apply (Hcoll _ H3). intros e He.
  apply in_or_app. right. apply in_or_app. auto.
Qed.

Lemma detected_codec_is_real_witness :
  PyStr.truthy "hev1.1.6.L93.B0" = true /\ PyStr.lower "hev1.1.6.L93.B0" <> "none".
Proof.
  destruct (detected_codec_is_real Examples.hevc_info "hev1.1.6.L93.B0" eq_refl)
    as (H1 & H2 & _).
  split; [exact H1|exact H2].
Defined.

(** X4.  [_detect_video_codec] reports nothing only when neither the info
    dictionary nor any entry of its three format lists carries a real
    codec (a non-blank [vcodec] other than [none]). *)
Theorem undetected_codec_means_none_anywhere info :
  _detect_video_codec info = None ->
  real_codec (info_vcodec info) = None
  /\ forall entry,
       In (Some entry)
          (requested_formats info ++ requested_downloads info ++ formats info)%list ->
       real_codec (fmt_vcodec entry) = None.
Proof.
  unfold _detect_video_codec.
  destruct (real_codec (info_vcodec info)); [discriminate|].
  destruct (first_real_codec (requested_formats info)) eqn:H1; [discriminate|].
  destruct (first_real_codec (requested_downloads info)) eqn:H2; [discriminate|].
  intros H3. split; [done|]. intros entry Hin.
  apply in_app_or in Hin as [Hin|Hin];
    [exact (first_real_codec_None _ H1 _ Hin)|].
  apply in_app_or in Hin as [Hin|Hin];
    [exact (first_real_codec_None _ H2 _ Hin)|exact (first_real_codec_None _ H3 _ Hin)].
Qed.

Lemma undetected_codec_means_none_anywhere_witness :
  real_codec (info_vcodec Examples.no_codec_info) = None.
Proof.
  exact (proj1 (undetected_codec_means_none_anywhere Examples.no_codec_info eq_refl)).
Defined.

(** ** Probed streams *)

(** X5.  [_find_stream] returns the first stream of the requested type:
    the stream it returns has that type and no stream before it has; it
    returns nothing only when no stream has the type. *)
Theorem find_stream_first_match streams stream_type :
  match _find_stream streams stream_type with
  | Some stream =>
      exists before after,
        streams = (before ++ stream :: after)%list
        /\ codec_type stream = Some stream_type
        /\ forall s, In s before -> codec_type s <> Some stream_type
  | None => forall s, In s streams -> codec_type s <> Some stream_type
  end.
Proof.
  induction streams as [|s rest IH]; simpl; [by intros ? []|].
  destruct (bool_decide (codec_type s = Some stream_type)) eqn:Hb.
  - apply bool_decide_eq_true_1 in Hb. exists [], rest. by repeat split.
  - apply bool_decide_eq_false_1 in Hb.
    destruct (_find_stream rest stream_type) as [found|].
    + destruct IH as (before & after & -> & Ht & Hbefore).
      exists (s :: before), after. repeat split; [done|].
      intros s' [<-|Hin]; [done|]. by apply Hbefore.
    + intros s' [<-|Hin]; [done|]. by apply IH.
Qed.

(** ** The transcoder *)

Lemma transcode_target_differs path target :
  transcode_target path = Ret target -> target <> path.
Proof.
  unfold transcode_target, Pathlib.with_suffix, Pathlib.with_name.
  destruct (PyStr.truthy (Pathlib.name path)); [|discriminate]. cbn [res_bind].
  destruct (String.eqb _ path) eqn:Heq.
  - apply String.eqb_eq in Heq. intros [= <-] Hbad.
    rewrite <- Heq in Hbad at 3.
    apply (inj (String.app _)) in Hbad. apply (inj (String.app _)) in Hbad.
    discriminate.
  - apply String.eqb_neq in Heq. by intros [= <-].
Qed.

(** X6.  [_transcode_to_mp4] never writes onto its input: the target is a
    different path.  When ffmpeg fails, [DownloadError] is raised, the
    original is still in place with its content, and no file other than the
    target is touched; the target holds what ffmpeg left there, if it left
    anything, and is otherwise as before.  When ffmpeg succeeds, the
    target holds the encoder's output, the original is deleted (it stays
    only if the operating system refuses the deletion), and no other file is
    touched. *)
Theorem transcode_outcome (E : Env) path has_audio w target input :
  transcode_target path = Ret target ->
  fs w !! path = Some input ->
  target <> path
  /\ match ffmpeg_run E input (output_args has_audio) with
     | EncoderFailed leftover =>
         exists w',
           _transcode_to_mp4 E path has_audio w
             = (Raise (DownloadError "Videoni telegram uchun tayyorlashda xato yuz berdi."), w')
           /\ fs w' !! path = Some input
           /\ fs w' !! target
              = match leftover with
                | Some partial => Some partial
                | None => fs w !! target
                end
           /\ forall p, p <> target -> fs w' !! p = fs w !! p
     | Encoded encoded =>
         exists w',
           _transcode_to_mp4 E path has_audio w = (Ret target, w')
           /\ fs w' !! target = Some encoded
           /\ fs w' !! path = (if unlink_refused E path then Some input else None)
           /\ forall p, p <> path -> p <> target -> fs w' !! p = fs w !! p
     end.
Proof.
  intros Ht Hin. pose proof (transcode_target_differs _ _ Ht) as Hne.
  split; [done|]. rewrite transcode_spec, Ht, Hin. cbv zeta.
  destruct (ffmpeg_run E input (output_args has_audio)) as [encoded|[partial|]].
  - eexists. split; [reflexivity|]. unfold drop_original.
    assert (String.eqb path target = false) as -> by (apply String.eqb_neq; congruence).
    cbn [fs set_fs add_run]. rewrite lookup_insert_ne by done. rewrite Hin.
    destruct (unlink_refused E path).
    + cbn [fs set_fs add_run]. rewrite lookup_insert_eq.
      rewrite lookup_insert_ne by done. repeat split; try done.
      intros p _ Hp. by rewrite lookup_insert_ne.
    + cbn [fs set_fs add_run]. rewrite lookup_delete_ne by congruence.
      rewrite lookup_insert_eq, lookup_delete_eq. repeat split.
      intros p Hp1 Hp2. rewrite lookup_delete_ne by congruence.
      by rewrite lookup_insert_ne.
  - eexists. split; [reflexivity|]. cbn [fs set_fs add_run].
    rewrite lookup_insert_ne by done. rewrite lookup_insert_eq.
    repeat split; try done. intros p Hp. by rewrite lookup_insert_ne.
  - eexists. split; [reflexivity|]. cbn [fs add_run]. done.
Qed.

Lemma transcode_outcome_witness :
  "downloads/clip.mp4" <> "downloads/clip.mkv"
  /\ exists w',
       _transcode_to_mp4 Examples.silent_env "downloads/clip.mkv" false
         (Examples.world_with "downloads/clip.mkv" "hevc-bytes")
       = (Ret "downloads/clip.mp4", w')
       /\ fs w' !! "downloads/clip.mp4" = Some "h264-bytes"
       /\ fs w' !! "downloads/clip.mkv" = None.
Proof.
  destruct (transcode_outcome Examples.silent_env "downloads/clip.mkv" false
              (Examples.world_with "downloads/clip.mkv" "hevc-bytes")
              "downloads/clip.mp4" "hevc-bytes" eq_refl eq_refl) as [Hne Hrun].
  split; [exact Hne|].
  destruct Hrun as (w' & H1 & H2 & H3 & _).
  exists w'. split; [exact H1|]. split; [exact H2|exact H3].
Defined.

(** An encoder that fails after it began to write: the error is raised,
    the original is in place, and the unfinished target is left behind. *)
Example failed_encoder_leaves_partial_target :
  let out := _transcode_to_mp4 Examples.crashing_encoder_env "downloads/clip.mkv" false
               (Examples.world_with "downloads/clip.mkv" "hevc-bytes") in
  out.1 = Raise (DownloadError "Videoni telegram uchun tayyorlashda xato yuz berdi.")
  /\ fs out.2 !! "downloads/clip.mkv" = Some "hevc-bytes"
  /\ fs out.2 !! "downloads/clip.mp4" = Some "ftyp".
Proof. vm_compute. repeat split; reflexivity. Qed.

(** A file that is an [.mp4] already is encoded to a sibling named
    [_h264.mp4]. *)
Example transcode_target_of_mp4 :
  transcode_target "downloads/abc.mp4" = Ret "downloads/abc_h264.mp4".
Proof. reflexivity. Qed.

(** ** The generic strategy: choosing the entry and the file *)

(** X7.  [select_info] changes nothing in the world.  Outside a playlist
    it is the info dictionary itself.  In a playlist it is one of the
    entries: one with a real video codec if any entry has one, otherwise
    one that is not a still image if any entry is not; an empty playlist
    raises [DownloadError]. *)
Theorem playlist_selection (x : Extracted) w :
  match select_info x w with
  | (Ret info, w') =>
      w' = w
      /\ if bool_decide (ex_type x = Some "playlist")
         then In info (ex_entries x)
              /\ (forall e, In e (ex_entries x) -> entry_has_video e = true ->
                    entry_has_video info = true)
              /\ (forall e, In e (ex_entries x) -> entry_not_still e = true ->
                    entry_has_video info = true \/ entry_not_still info = true)
         else info = ex_info x
  | (Raise e, w') =>
      w' = w /\ ex_type x = Some "playlist" /\ ex_entries x = []
      /\ e = DownloadError "Post tarkibidagi media topilmadi."
  end.
Proof.
  unfold select_info.
  destruct (bool_decide (ex_type x = Some "playlist")) eqn:Hp; [|done].
  apply bool_decide_eq_true_1 in Hp.
  destruct (ex_entries x) as [|first rest] eqn:He; [done|].
  destruct (find entry_has_video (first :: rest)) as [entry|] eqn:Hv.
  { apply find_some in Hv as [Hin Hhas]. unfold ret. repeat split; auto. }
  destruct (find entry_not_still (first :: rest)) as [entry|] eqn:Hs.
  { apply find_some in Hs as [Hin Hns]. unfold ret. repeat split; auto.
    intros e Hine Hhas. pose proof (find_none _ _ Hv e Hine). congruence. }
  unfold ret. repeat split; [by left| |].
  - intros e Hine Hhas. pose proof (find_none _ _ Hv e Hine). congruence.
  - intros e Hine Hns. pose proof (find_none _ _ Hs e Hine). congruence.
Qed.

Lemma first_existing_outcome output exts : forall w,
  match first_existing output exts w with
  | (Ret p, w') => w' = w /\ (p = output \/ is_Some (fs w !! p))
  | (Raise e, w') => w' = w /\ PyStr.truthy (Pathlib.name output) = false
  end.
Proof.
  induction exts as [|e es IH]; intros w; simpl.
  { unfold ret. auto. }
  unfold bind, lift, Pathlib.with_suffix.
  destruct (PyStr.truthy (Pathlib.name output)) eqn:Hn; [|done].
  rewrite path_exists_spec.
  destruct (bool_decide _) eqn:Hb; [|apply IH].
  apply bool_decide_eq_true_1 in Hb. unfold ret. auto.
Qed.

(** X8.  [resolve_output] only looks at the file system.  The path it
    returns exists; it is the expected path whenever that exists, and the
    [.mp4] sibling when the expected path is missing and that sibling
    exists.  It raises only when the expected path is missing:
    [DownloadError] when no candidate exists (or an error of [with_suffix]
    on a path without a name). *)
Theorem resolve_output_outcome output w :
  match resolve_output output w with
  | (Ret p, w') =>
      w' = w /\ is_Some (fs w !! p)
      /\ (is_Some (fs w !! output) -> p = output)
      /\ (forall candidate,
            fs w !! output = None ->
            Pathlib.with_suffix ".mp4" output = Ret candidate ->
            is_Some (fs w !! candidate) -> p = candidate)
  | (Raise e, w') =>
      w' = w /\ fs w !! output = None
      /\ (e = DownloadError "Yuklab olingan fayl topilmadi."
          \/ PyStr.truthy (Pathlib.name output) = false)
  end.
Proof.
  unfold resolve_output. unfold bind at 1. rewrite path_exists_spec.
  destruct (bool_decide (is_Some (fs w !! output))) eqn:Hb.
  - apply bool_decide_eq_true_1 in Hb.
    unfold bind at 1, ret at 1. unfold bind at 1. rewrite path_exists_spec.
    rewrite bool_decide_eq_true_2 by done. unfold ret.
    repeat split; try done. intros c Hnone. destruct Hb as [? Hb]. congruence.
  - apply bool_decide_eq_false_1 in Hb.
    assert (fs w !! output = None) as Hnone.
    { destruct (fs w !! output) eqn:Ho; [|done]. exfalso. apply Hb. eauto. }
    unfold bind at 1. unfold bind at 1, lift at 1.
    destruct (Pathlib.with_suffix ".mp4" output) as [candidate|e] eqn:Hc.
    2:{ unfold Pathlib.with_suffix in Hc.
        destruct (PyStr.truthy (Pathlib.name output)) eqn:Hn; [discriminate|].
        auto. }
    unfold bind at 1. rewrite path_exists_spec.
    destruct (bool_decide (is_Some (fs w !! candidate))) eqn:Hcb.
    + apply bool_decide_eq_true_1 in Hcb. unfold ret at 1.
      unfold bind at 1. rewrite path_exists_spec.
      rewrite bool_decide_eq_true_2 by done. unfold ret.
      repeat split; try done. intros c _ [= <-] _. done.
    + apply bool_decide_eq_false_1 in Hcb.
      pose proof (first_existing_outcome output
                    [".jpg"; ".jpeg"; ".png"; ".webp"; ".mkv"; ".webm"] w) as Hf.
      destruct (first_existing output _ w) as [[p|e] w1].
      * destruct Hf as [-> Hp]. unfold bind at 1. rewrite path_exists_spec.
        destruct (bool_decide (is_Some (fs w !! p))) eqn:Hpb.
        -- apply bool_decide_eq_true_1 in Hpb. unfold ret.
           repeat split; try done. intros c _ [= <-] Hex. done.
        -- unfold raise. auto.
      * destruct Hf as [-> Hn]. auto.
Qed.

(** ** The resolver's link *)

(** X9.  Against the base [https://ssstik.io], [_normalize_remote_url]
    returns the empty string for a blank link and otherwise a link that
    does not begin with [/]: a protocol-relative link gets [https:] in
    front, a path gets the base in front, anything else is returned
    stripped. *)
Theorem normalized_resolver_link_is_absolute raw_url :
  let normalized := _normalize_remote_url raw_url "https://ssstik.io" in
  (normalized = "" /\ PyStr.strip raw_url = "")
  \/ (PyStr.startswith "/" normalized = false
      /\ (PyStr.startswith "//" (PyStr.strip raw_url) = true ->
          normalized = "https:" ++ PyStr.strip raw_url)
      /\ (PyStr.startswith "//" (PyStr.strip raw_url) = false ->
          PyStr.startswith "/" (PyStr.strip raw_url) = true ->
          normalized = "https://ssstik.io" ++ PyStr.strip raw_url)
      /\ (PyStr.startswith "/" (PyStr.strip raw_url) = false ->
          normalized = PyStr.strip raw_url)).
Proof.
  intros normalized. subst normalized. unfold _normalize_remote_url.
  destruct (PyStr.strip raw_url) as [|c cleaned] eqn:Hs; [by left|].
  right. cbn [PyStr.truthy negb].
  destruct (PyStr.startswith "//" (String c cleaned)) eqn:H2.
  - split; [reflexivity|]. split; [done|]. split; [done|].
    intros H1. exfalso.
    change (PyStr.startswith "//" (String c cleaned))
      with (if ascii_dec "/" c then PyStr.startswith "/" cleaned else false) in H2.
    change (PyStr.startswith "/" (String c cleaned))
      with (if ascii_dec "/" c then true else false) in H1.
    destruct (ascii_dec "/" c); [discriminate H1|discriminate H2].
  - destruct (PyStr.startswith "/" (String c cleaned)) eqn:H1.
    + split; [reflexivity|]. split; [done|]. split; [|done].
      intros _ _. reflexivity.
    + split; [done|]. split; [done|]. split; done.
Qed.

(** ** Shortcodes *)

Lemma forallb_rev_app (f : ascii -> bool) s : forall acc,
  PyStr.forallb f (String.rev_app s acc) = PyStr.forallb f s && PyStr.forallb f acc.
Proof.
  induction s as [|c s IH]; intros acc; simpl; [done|].
  rewrite IH. simpl. destruct (f c), (PyStr.forallb f s); done.
Qed.

Lemma forallb_rev (f : ascii -> bool) s :
  PyStr.forallb f (String.rev s) = PyStr.forallb f s.
Proof. unfold String.rev. rewrite forallb_rev_app. simpl. by rewrite andb_true_r. Qed.

Lemma split_go_no_separator c : forall s cur segment,
  PyStr.forallb (fun x => negb (Url.is_char c x)) cur = true ->
  In segment (PyStr.split_go c cur s) ->
  PyStr.forallb (fun x => negb (Url.is_char c x)) segment = true.
Proof.
  induction s as [|x s IH]; intros cur segment Hcur Hin; simpl in Hin.
  - destruct Hin as [<-|[]]. by rewrite forallb_rev.
  - destruct (ascii_dec x c) as [->|Hne].
    + destruct Hin as [<-|Hin]; [by rewrite forallb_rev|].
      by apply (IH EmptyString).
    + apply (IH (String x cur)); [|done]. simpl. rewrite Hcur.
      unfold Url.is_char. by destruct (ascii_dec x c).
Qed.

Lemma break_at_prefix_keeps (f g : ascii -> bool) s :
  PyStr.forallb g s = true -> PyStr.forallb g (PyStr.break_at f s).1 = true.
Proof.
  induction s as [|c s IH]; simpl; [done|].
  intros H. apply andb_true_iff in H as [Hc Hs].
  destruct (f c); [done|].
  destruct (PyStr.break_at f s) as [a b] eqn:Hb. simpl in *. by rewrite Hc, IH.
Qed.

Lemma break_at_prefix_avoids (f : ascii -> bool) s :
  PyStr.forallb (fun x => negb (f x)) (PyStr.break_at f s).1 = true.
Proof.
  induction s as [|c s IH]; simpl; [done|].
  destruct (f c) eqn:Hc; [done|].
  destruct (PyStr.break_at f s) as [a b] eqn:Hb. simpl in *. by rewrite Hc, IH.
Qed.

Lemma split1_fst c s : (PyStr.split1 c s).1 = (PyStr.break_at (Url.is_char c) s).1.
Proof.
  unfold PyStr.split1.
  change (fun x => if ascii_dec x c then true else false) with (Url.is_char c).
  destruct (PyStr.break_at (Url.is_char c) s) as [a [[|? b]|]]; done.
Qed.

(** X10.  [_extract_instagram_shortcode] raises exactly when [urlparse]
    does.  Otherwise the media type it returns is [p], [reel] or [tv], and
    a shortcode, when there is one, is not empty and contains neither [/]
    nor [?]. *)
Theorem instagram_shortcode_is_clean (E : Env) url :
  match _extract_instagram_shortcode E url with
  | Ret (shortcode, media_type, index) =>
      (media_type = "p" \/ media_type = "reel" \/ media_type = "tv")
      /\ match shortcode with
         | Some code =>
             code <> "" /\ no_char "/" code /\ no_char "?" code
         | None => True
         end
      /\ is_Ret (Url.urlparse url) = true
  | Raise e => Url.urlparse url = Raise e
  end.
Proof.
  unfold _extract_instagram_shortcode.
  destruct (Url.urlparse url) as [parsed|e]; [|done]. cbn [res_bind].
  destruct (filter _ (PyStr.split "/" (Url.path parsed))) eqn:Hparts.
  { repeat split; auto. }
  assert (forall seg, In seg (s :: l) -> no_char "/" seg) as Hclean.
  { intros seg Hin. rewrite <- Hparts in Hin.
    apply list_elem_of_In, list_elem_of_filter in Hin as [_ Hin].
    apply list_elem_of_In in Hin.
    by apply (split_go_no_separator "/" (Url.path parsed) EmptyString). }
  split.
  { destruct (bool_decide (PyStr.lower s ∈ ["p"; "reel"; "tv"])) eqn:Hb; [|auto].
    apply bool_decide_eq_true_1 in Hb.
    apply list_elem_of_In in Hb. simpl in Hb. intuition. }
  split; [|done].
  set (seg := match l with part1 :: _ => part1 | [] => s end).
  assert (no_char "/" seg) as Hseg.
  { apply Hclean. subst seg. destruct l; simpl; auto. }
  destruct (PyStr.truthy (PyStr.split1 "?" seg).1) eqn:Ht; [|done].
  split; [by destruct ((PyStr.split1 "?" seg).1)|].
  rewrite split1_fst. split.
  - by apply break_at_prefix_keeps.
  - apply break_at_prefix_avoids.
Qed.

(** ** Fetching the Instagram payload *)

Lemma first_usable_page_usable pages g :
  first_usable_page pages = Ret (Some g) -> is_Some (shortcode_media g).
Proof.
  induction pages as [|[page|] rest IH]; simpl; [done| |done].
  destruct (usable_legacy page) eqn:Hu; [|done].
  intros [= ->]. simpl in Hu. by apply bool_decide_eq_true_1 in Hu.
Qed.

Lemma legacy_graphql_usable (E : Env) scripts g :
  legacy_graphql E scripts = Ret (Some g) -> is_Some (shortcode_media g).
Proof.
  induction scripts as [|s rest IH]; simpl; [done|].
  destruct (legacy_json E s) as [| |[|pages]]; [done|done|done|].
  destruct (first_usable_page pages) as [[g0|]|] eqn:Hf; cbn [res_bind]; [|done|done].
  intros [= <-]. by apply first_usable_page_usable in Hf.
Qed.

Lemma fetch_html_outcome (E : Env) page_url w :
  match _fetch_instagram_payload_from_html E page_url w with
  | (Ret payload, w') =>
      w' = w /\ items payload = []
      /\ exists g, graphql payload = Some g
                   /\ (is_Some (shortcode_media g) \/ reel g = true)
  | (Raise e, w') => w' = w
  end.
Proof.
  unfold _fetch_instagram_payload_from_html.
  destruct (http_get E page_url _ _ _) as [response|]; [|done].
  destruct (resp_status response =? 404); [done|].
  destruct (negb (resp_ok response)); [done|].
  assert (match (from_legacy <- lift (legacy_graphql E (re_legacy_scripts E (resp_text response))) ;;
                 match from_legacy with
                 | Some graphql => ret {| graphql := Some graphql; items := [] |}
                 | None => raise instagram_html_error
                 end) w with
          | (Ret payload, w') =>
              w' = w /\ items payload = []
              /\ exists g, graphql payload = Some g
                           /\ (is_Some (shortcode_media g) \/ reel g = true)
          | (Raise e, w') => w' = w
          end) as Hlegacy.
  { unfold bind, lift.
    destruct (legacy_graphql E _) as [[g'|]|] eqn:Hl; [|done|done].
    unfold ret. repeat split. exists g'. split; [done|]. left.
    by apply legacy_graphql_usable in Hl. }
  unfold bind at 1, lift at 1.
  destruct (re_next_data E (resp_text response)) as [json_text|]; [|exact Hlegacy].
  destruct (next_data_json E json_text) as [| |[g|]]; [exact Hlegacy|done| |exact Hlegacy].
  destruct (bool_decide (is_Some (shortcode_media g)) || reel g) eqn:Hu; [|exact Hlegacy].
  unfold ret. repeat split. exists g. split; [done|].
  apply orb_true_iff in Hu as [Hu|Hu]; [left|by right].
  by apply bool_decide_eq_true_1 in Hu.
Qed.

(** X11.  [_fetch_instagram_payload] neither reads nor writes the
    download directory, whether it returns or raises.  A payload it
    returns has a [graphql] object or a non-empty [items] list.  It raises
    [DownloadError] when Instagram cannot be reached, and it lets the
    [AttributeError] of [data.get] through when the JSON answer is not an
    object. *)
Theorem fetched_payload_is_usable (E : Env) shortcode media_type w :
  let endpoint := "https://www.instagram.com/" ++ media_type ++ "/" ++ shortcode ++ "/" in
  let answer := http_get E endpoint [("__a", "1"); ("__d", "dis")]
                  (INSTAGRAM_HEADERS E) INSTAGRAM_REQUEST_TIMEOUT in
  match _fetch_instagram_payload E shortcode media_type w with
  | (Ret payload, w') =>
      w' = w /\ (is_Some (graphql payload) \/ items payload <> [])
  | (Raise e, w') => w' = w
  end
  /\ (answer = None ->
      _fetch_instagram_payload E shortcode media_type w
      = (Raise (DownloadError "Instagram bilan bog'lanib bo'lmadi."), w))
  /\ (forall response,
        answer = Some response -> resp_ok response = true ->
        instagram_json E (resp_text response) = NotObject ->
        _fetch_instagram_payload E shortcode media_type w = (Raise AttributeError, w)).
Proof.
  intros endpoint answer. subst answer.
  unfold _fetch_instagram_payload. fold endpoint.
  split; [|split].
  - assert (match _fetch_instagram_payload_from_html E endpoint w with
            | (Ret payload, w') =>
                w' = w /\ (is_Some (graphql payload) \/ items payload <> [])
            | (Raise e, w') => w' = w
            end) as Hhtml.
    { pose proof (fetch_html_outcome E endpoint w) as H.
      destruct (_fetch_instagram_payload_from_html E _ w) as [[p|e] w1]; [|done].
      destruct H as (-> & _ & g & Hg & _). split; [done|]. left. eauto. }
    destruct (http_get E _ _ _ _) as [response|]; [|done].
    destruct (if resp_ok response then instagram_json E (resp_text response) else NotJson)
      as [| |data]; [done|done|].
    destruct (bool_decide (is_Some (graphql data))
              || match items data with [] => false | _ => true end) eqn:Hu; [|done].
    unfold ret. split; [done|].
    apply orb_true_iff in Hu as [Hu|Hu].
    + left. by apply bool_decide_eq_true_1 in Hu.
    + right. by destruct (items data).
  - by intros ->.
  - intros response -> -> ->. done.
Qed.

(** Instagram answering with a JSON list: the [AttributeError] leaves
    the function. *)
Lemma fetched_payload_is_usable_witness :
  _fetch_instagram_payload Examples.list_answer_env "Cxyz" "p" Examples.empty_world
  = (Raise AttributeError, Examples.empty_world).
Proof.
  apply (proj2 (proj2 (fetched_payload_is_usable Examples.list_answer_env "Cxyz" "p"
                         Examples.empty_world))
           {| resp_status := 200; resp_text := "{...}" |});
    reflexivity.
Defined.

(** ** File names of the Instagram strategy *)

Lemma length_append (a b : string) :
  String.length (a ++ b) = (String.length a + String.length b)%nat.
Proof. induction a as [|c a IH]; [done|]. rewrite append_cons. simpl. by rewrite IH. Qed.

Lemma append_cancel_r (a b t : string) : a ++ t = b ++ t -> a = b.
Proof.
  intros H.
  assert (String.length a = String.length b) as Hlen.
  { apply (f_equal String.length) in H. rewrite !length_append in H. lia. }
  revert b H Hlen. induction a as [|c a IH]; intros [|d b] H Hlen; try done.
  rewrite !append_cons in H. injection H as -> H. f_equal. apply IH; [done|].
  simpl in Hlen. lia.
Qed.

(** X12.  In a post with more than one item, two items with the same
    extension are stored under the same path only if they are the same
    item. *)
Theorem carousel_items_have_distinct_files shortcode ext (count i j : nat) :
  (1 < count)%nat ->
  instagram_file_path shortcode i count ext = instagram_file_path shortcode j count ext ->
  i = j.
Proof.
  intros Hc. unfold instagram_file_path, Pathlib.joinpath, nat_to_string.
  assert ((1 <? count)%nat = true) as -> by (apply Nat.ltb_lt; lia).
  intros H.
  apply (inj (String.app _)) in H. apply (inj (String.app _)) in H.
  apply (inj (String.app _)) in H.
  rewrite !append_assoc in H.
  apply (inj (String.app _)) in H.
  apply append_cancel_r in H. apply (inj pretty) in H. lia.
Qed.

Lemma carousel_items_have_distinct_files_witness : 1%nat = 1%nat.
Proof.
  apply (carousel_items_have_distinct_files "Cxyz" "jpg" 3 1 1); [lia|reflexivity].
Defined.

(** ** Errors of the generic strategy *)

(** X13.  Whatever fails inside [_download_with_ytdlp], the caller sees
    a [DownloadError] with one of three fixed messages; the messages of
    the errors raised inside the worker do not get out. *)
Theorem generic_error_messages (E : Env) url ensure_playable w e w' :
  _download_with_ytdlp E url ensure_playable w = (Raise e, w') ->
  e = DownloadError "Video yuklab olib bo'lmadi. Havolani tekshiring."
  \/ e = DownloadError "TikTok serveri juda sekin javob bermoqda. Birozdan so'ng qayta urinib ko'ring."
  \/ e = DownloadError "Kutilmagan xato yuz berdi. Keyinroq urinib ko'ring.".
Proof.
  unfold _download_with_ytdlp. unfold bind at 1, enter at 1.
  unfold try_except.
  match goal with |- context [match ?c ?w0 with _ => _ end] => destruct (c w0) as [[r|e0] w1] end.
  - discriminate.
  - destruct e0; unfold raise; intros [= <- <-]; auto.
    destruct (PyStr.contains _ _); auto.
Qed.

Lemma generic_error_messages_witness :
  (_download_with_ytdlp (Examples.flaky_env 3 5) "https://example.org/v" false
     Examples.empty_world).1
  = Raise (DownloadError "Video yuklab olib bo'lmadi. Havolani tekshiring.")
  /\ (DownloadError "Video yuklab olib bo'lmadi. Havolani tekshiring."
        = DownloadError "Video yuklab olib bo'lmadi. Havolani tekshiring."
      \/ DownloadError "Video yuklab olib bo'lmadi. Havolani tekshiring."
           = DownloadError "TikTok serveri juda sekin javob bermoqda. Birozdan so'ng qayta urinib ko'ring."
      \/ DownloadError "Video yuklab olib bo'lmadi. Havolani tekshiring."
           = DownloadError "Kutilmagan xato yuz berdi. Keyinroq urinib ko'ring.").
Proof.
  assert ((_download_with_ytdlp (Examples.flaky_env 3 5) "https://example.org/v" false
             Examples.empty_world).1
          = Raise (DownloadError "Video yuklab olib bo'lmadi. Havolani tekshiring."))
    as H1 by (vm_compute; reflexivity).
  split; [exact H1|].
  apply (generic_error_messages (Examples.flaky_env 3 5) "https://example.org/v" false
           Examples.empty_world _
           (_download_with_ytdlp (Examples.flaky_env 3 5) "https://example.org/v" false
              Examples.empty_world).2).
  rewrite <- H1. apply surjective_pairing.
Defined.

(** ** Results and leftovers of the TikTok strategy *)

(** The shape of every TikTok run that reaches the transfer. *)
Lemma tiktok_via_ssstik_cases (E : Env) url w :
  let file := Pathlib.joinpath DOWNLOAD_DIR (uuid4_hex E ++ ".mp4") in
  match _download_tiktok_via_ssstik E url w with
  | (Ret r, w') =>
      file_path r = file /\ ext r = "mp4" /\ media_type r = Video /\ duration r = None
      /\ forall p, p <> file -> fs w' !! p = fs w !! p
  | (Raise e, w') =>
      (e = DownloadError "SSStik bo'sh video qaytardi."
       /\ exists content, fs w' !! file = Some content
                          /\ PyStr.len content < 120 * 1024)
      \/ (e <> DownloadError "SSStik bo'sh video qaytardi."
          /\ forall p, p <> file -> fs w' !! p = fs w !! p)
  end.
Proof.
  intros file. unfold _download_tiktok_via_ssstik.
  unfold bind at 1. unfold checked at 1.
  destruct (http_get E _ _ _ _) as [landing|]; [|by right].
  destruct (http_error_status (resp_status landing)); [by right|]. unfold ret at 1.
  unfold bind at 1. unfold checked at 1.
  destruct (http_post E _ _ _ _) as [response|]; [|by right].
  destruct (http_error_status (resp_status response)); [by right|]. unfold ret at 1.
  destruct (ssstik_decode E response) as [status html_block].
  match goal with |- context [if ?b then raise ssstik_error else _] => destruct b end;
    [by right|].
  destruct (negb (field_truthy html_block)); [by right|].
  destruct html_block as [html_block|truth]; [|by right].
  destruct (ssstik_video_url E html_block) as [video_url|]; [|by right].
  unfold bind at 1. fold file.
  rewrite download_file_spec.
  assert (forall w0 : World, (forall p, p <> file -> fs w0 !! p = fs w !! p) ->
            (@Raise DownloadResult transfer_error <> Raise (DownloadError "SSStik bo'sh video qaytardi.")
             /\ forall p, p <> file -> fs (after_discard E file w0) !! p = fs w !! p))
    as Hfail.
  { intros w0 Hw0. split; [discriminate|]. intros p Hp.
    rewrite after_discard_other by done. by apply Hw0. }
  destruct (http_stream E _ _ _) as [|st chunks tail].
  { right. destruct (Hfail w) as [_ H]; [done|]. split; [discriminate|done]. }
  destruct (http_error_status st).
  { right. destruct (Hfail w) as [_ H]; [done|]. split; [discriminate|done]. }
  cbv zeta. destruct tail.
  - unfold bind at 1.
    rewrite (check_tiktok_size_spec _ (body_of chunks)).
    2:{ destruct w; simpl. apply lookup_insert_eq. }
    destruct (PyStr.len (body_of chunks) <? 120 * 1024) eqn:Hlt.
    + left. split; [done|]. exists (body_of chunks).
      split; [destruct w; simpl; apply lookup_insert_eq|]. by apply Z.ltb_lt.
    + simpl. repeat split. intros p Hp. destruct w; simpl. by apply lookup_insert_ne.
  - right. split; [discriminate|]. intros p Hp.
    rewrite after_discard_other by done. destruct w; simpl. by apply lookup_insert_ne.
Qed.

(** X14.  When the size gate rejects a download, the rejected file is
    not removed: it is still in the download directory, under the name
    the strategy gave it, after the [DownloadError] is raised. *)
Theorem rejected_tiktok_file_stays (E : Env) url w w' :
  _download_tiktok_via_ssstik E url w
    = (Raise (DownloadError "SSStik bo'sh video qaytardi."), w') ->
  exists content,
    fs w' !! Pathlib.joinpath DOWNLOAD_DIR (uuid4_hex E ++ ".mp4") = Some content
    /\ PyStr.len content < 120 * 1024.
Proof.
  intros H. pose proof (tiktok_via_ssstik_cases E url w) as Hc.
  cbv zeta in Hc. rewrite H in Hc. destruct Hc as [[_ Hc]|[Hne _]]; [done|].
  by destruct Hne.
Qed.

Lemma rejected_tiktok_file_stays_witness :
  exists content,
    fs (_download_tiktok_via_ssstik (Examples.tiktok_env ["tiny"])
          "https://vt.tiktok.com/ZSabc/" Examples.empty_world).2
      !! Examples.tiktok_file = Some content
    /\ PyStr.len content < 120 * 1024.
Proof.
  apply (rejected_tiktok_file_stays (Examples.tiktok_env ["tiny"])
           "https://vt.tiktok.com/ZSabc/" Examples.empty_world).
  vm_compute. reflexivity.
Defined.

(** X15.  Every result of the TikTok strategy is an [mp4] video without
    duration, stored as [downloads/<uuid>.mp4]; the call writes no other
    file. *)
Theorem tiktok_result_shape (E : Env) url w r w' :
  _download_tiktok_media E url w = (Ret r, w') ->
  file_path r = "downloads/" ++ uuid4_hex E ++ ".mp4"
  /\ ext r = "mp4" /\ media_type r = Video /\ duration r = None
  /\ forall p, p <> file_path r -> fs w' !! p = fs w !! p.
Proof.
  rewrite tiktok_media_spec. intros H.
  pose proof (tiktok_via_ssstik_cases E url (add_invoked TikTokStrategy w)) as Hc.
  cbv zeta in Hc. rewrite H in Hc. destruct Hc as (Hf & ? & ? & ? & Hother).
  repeat split; try done. intros p Hp. rewrite Hother; [by destruct w|].
  by rewrite <- Hf.
Qed.

Lemma tiktok_result_shape_witness :
  fs (_download_tiktok_media (Examples.tiktok_env Examples.video_120k)
        "https://vt.tiktok.com/ZSabc/" Examples.empty_world).2
    !! "downloads/other.mp4" = None.
Proof.
  assert ((_download_tiktok_media (Examples.tiktok_env Examples.video_120k)
             "https://vt.tiktok.com/ZSabc/" Examples.empty_world).1
          = Ret {| file_path := Examples.tiktok_file; title := "TikTok video";
                   duration := None; ext := "mp4"; media_type := Video |})
    as Hr by (vm_compute; reflexivity).
  destruct (tiktok_result_shape (Examples.tiktok_env Examples.video_120k)
              "https://vt.tiktok.com/ZSabc/" Examples.empty_world
              {| file_path := Examples.tiktok_file; title := "TikTok video";
                 duration := None; ext := "mp4"; media_type := Video |}
              (_download_tiktok_media (Examples.tiktok_env Examples.video_120k)
                 "https://vt.tiktok.com/ZSabc/" Examples.empty_world).2)
    as (_ & _ & _ & _ & Hother).
  - rewrite <- Hr. apply surjective_pairing.
  - rewrite Hother; [reflexivity|]. vm_compute. discriminate.
Defined.

(** ** Pauses of the retry loop *)

Lemma backoff_bounds n : 1 <= n -> 2 <= backoff n <= 10.
Proof.
  intros Hn. unfold backoff.
  assert (2 <= 2 ^ n) by (change 2 with (2 ^ 1) at 1; apply Z.pow_le_mono_r; lia).
  lia.
Qed.

Lemma backoff_mono a b : 0 <= a <= b -> backoff a <= backoff b.
Proof.
  intros H. unfold backoff.
  assert (2 ^ a <= 2 ^ b) by (apply Z.pow_le_mono_r; lia). lia.
Qed.

Lemma backoffs_from_props k : forall attempt, 1 <= attempt ->
  Forall (fun s => 2 <= s <= 10) (backoffs_from attempt k)
  /\ Forall (fun s => backoff attempt <= s) (backoffs_from attempt k)
  /\ StronglySorted Z.le (backoffs_from attempt k)
  /\ foldr Z.add 0 (backoffs_from attempt k) <= 10 * Z.of_nat k
  /\ length (backoffs_from attempt k) = k.
Proof.
  induction k as [|k IH]; intros attempt Ha.
  - unfold backoffs_from. simpl. repeat split; try constructor; lia.
  - rewrite backoffs_from_S.
    destruct (IH (attempt + 1)) as (Hb & Hlow & Hs & Hsum & Hlen); [lia|].
    pose proof (backoff_bounds attempt Ha).
    assert (Forall (fun s => backoff attempt <= s) (backoffs_from (attempt + 1) k)) as Hlow'.
    { eapply Forall_impl; [exact Hlow|]. simpl. intros s Hs'.
      pose proof (backoff_mono attempt (attempt + 1)). lia. }
    repeat split.
    + constructor; [lia|done].
    + constructor; [lia|done].
    + constructor; [done|]. done.
    + simpl. lia.
    + simpl. by rewrite Hlen.
Qed.

(** X16.  The retry loop pauses fewer than [retries] times; every pause
    lasts between 2 and 10 seconds, no pause is shorter than the one
    before it, and the pauses add up to at most [10 * (retries - 1)]
    seconds. *)
Theorem retry_pauses_are_bounded (E : Env) opts url w :
  let retries := effective_retries E in
  let out := extract_with_retries E opts url retries w in
  exists pauses,
    slept out.2 = (slept w ++ pauses)%list
    /\ Z.of_nat (length pauses) <= retries - 1
    /\ Forall (fun s => 2 <= s <= 10) pauses
    /\ StronglySorted Z.le pauses
    /\ foldr Z.add 0 pauses <= 10 * (retries - 1).
Proof.
  intros retries out.
  assert (1 <= retries) as Hpos by (unfold retries, effective_retries; lia).
  destruct (extract_attempts_bound E opts url retries (Z.to_nat retries) 1 w)
    as (k & Hc & Hk & Hs & _); [lia|lia|].
  destruct (backoffs_from_props k 1) as (Hb & _ & Hsorted & Hsum & Hlen); [lia|].
  exists (backoffs_from 1 k). split; [exact Hs|].
  rewrite Hlen. repeat split; try done; lia.
Qed.

(** ** Photos and the encoder *)

Lemma select_info_world (x : Extracted) w info w' :
  select_info x w = (Ret info, w') -> w' = w.
Proof.
  unfold select_info.
  destruct (bool_decide _); [|by intros [= _ <-]].
  destruct (ex_entries x); [discriminate|].
  destruct (find entry_has_video _); [by intros [= _ <-]|].
  destruct (find entry_not_still _); by intros [= _ <-].
Qed.

(** X17.  A result of the generic strategy that is tagged as a photo has
    a still-image extension, the extension of its file, and was never
    given to the encoder, whatever [ensure_playable] says. *)
Theorem photo_results_skip_the_encoder (E : Env) url ensure_playable w r w' :
  _download_with_ytdlp E url ensure_playable w = (Ret r, w') ->
  media_type r = Photo ->
  encoder_runs w' = encoder_runs w
  /\ In (ext r) ["jpg"; "jpeg"; "png"; "webp"]
  /\ ext r = PyStr.lstrip "." (Pathlib.suffix (file_path r)).
Proof.
  unfold _download_with_ytdlp. intros H Hphoto.
  apply bind_Ret_inv in H as ([] & w1 & Hen & H).
  injection Hen as <-.
  unfold try_except in H.
  match type of H with
  | (match ?c ?w0 with _ => _ end) = _ => destruct (c w0) as [[r0|e] w2] eqn:Hbody
  end.
  2:{ destruct e; discriminate. }
  injection H as <- <-.
  apply bind_Ret_inv in Hbody as (res & w3 & Hw & Hbody).
  assert (r0 = res /\ w2 = w3) as [-> ->].
  { destruct (ensure_playable && is_video_type (media_type res)) eqn:Hc.
    - apply andb_true_iff in Hc as [_ Hv].
      apply bind_Ret_inv in Hbody as (final & w4 & _ & Hbody).
      destruct (negb _).
      + injection Hbody as <- <-. simpl in Hphoto.
        rewrite Hphoto in Hv. discriminate.
      + injection Hbody as <- <-. rewrite Hphoto in Hv. discriminate.
    - by injection Hbody as <- <-. }
  unfold _worker in Hw.
  apply bind_Ret_inv in Hw as (ig & ? & Hl & Hw); injection Hl as _ <-.
  apply bind_Ret_inv in Hw as (yt & ? & Hl & Hw); injection Hl as _ <-.
  apply bind_Ret_inv in Hw as (sn & ? & Hl & Hw); injection Hl as _ <-.
  apply bind_Ret_inv in Hw as (lk & ? & Hl & Hw); injection Hl as _ <-.
  apply bind_Ret_inv in Hw as (info & w5 & Hx & Hw).
  destruct info as [extracted|]; [|discriminate].
  apply bind_Ret_inv in Hw as (info & w6 & Hsel & Hw).
  apply select_info_world in Hsel as ->.
  apply bind_Ret_inv in Hw as (output & w7 & Hres & Hw).
  apply resolve_output_spec in Hres as [-> _].
  apply bind_Ret_inv in Hw as (final & w8 & Hrep & Hw).
  injection Hw as <- <-. simpl in Hphoto. rewrite Hphoto in Hrep.
  injection Hrep as <- <-. simpl.
  split.
  - unfold extract_with_retries in Hx.
    destruct (extract_attempts_bound E
                (ydl_opts E ig yt sn lk) url (effective_retries E)
                (Z.to_nat (effective_retries E)) 1 (add_invoked GenericStrategy w))
      as (k & _ & _ & _ & _ & Hr).
    + unfold effective_retries. lia.
    + unfold effective_retries. lia.
    + rewrite Hx in Hr. simpl in Hr. rewrite Hr. by destruct w.
  - split; [|done]. unfold media_type_of in Hphoto.
    destruct (bool_decide _) eqn:Hb; [|discriminate].
    apply bool_decide_eq_true_1 in Hb. by apply list_elem_of_In in Hb.
Qed.

Lemma photo_results_skip_the_encoder_witness :
  encoder_runs (_download_with_ytdlp Examples.photo_env "https://example.org/p" true
                  Examples.empty_world).2 = []
  /\ In "jpg" ["jpg"; "jpeg"; "png"; "webp"].
Proof.
  destruct (photo_results_skip_the_encoder Examples.photo_env "https://example.org/p" true
              Examples.empty_world
              {| file_path := "downloads/pic.jpg"; title := "A photo"; duration := None;
                 ext := "jpg"; media_type := Photo |}
              (_download_with_ytdlp Examples.photo_env "https://example.org/p" true
                 Examples.empty_world).2) as (H1 & H2 & _).
  - vm_compute. reflexivity.
  - reflexivity.
  - split; [exact H1|exact H2].
Defined.

(** ** Results of the Instagram strategy *)

Lemma url_ext_nonempty u fallback e :
  fallback <> "" -> url_ext u fallback = Ret e -> e <> "".
Proof.
  intros Hf. unfold url_ext.
  destruct (Url.urlparse u) as [parsed|]; [|discriminate]. cbn [res_bind].
  destruct (PyStr.truthy _) eqn:Ht; intros [= <-]; [|done].
  by destruct (PyStr.lstrip "." _).
Qed.

Lemma download_node_shape (E : Env) sc media count index node w r w' :
  download_node E sc media count index node w = (Ret r, w') ->
  title r <> "" /\ ext r <> ""
  /\ file_path r = instagram_file_path sc index count (ext r)
  /\ (media_type r = Photo -> duration r = None)
  /\ (media_type r = Video <-> is_video node = true /\ is_Some (truthy_opt (video_url node)))
  /\ forall p, p <> file_path r -> fs w' !! p = fs w !! p.
Proof.
  unfold download_node. intros H.
  assert ((if PyStr.truthy (_extract_instagram_caption media)
           then _extract_instagram_caption media else "Instagram " ++ sc) <> "") as Htitle.
  { destruct (PyStr.truthy _) eqn:Ht; [|done].
    by destruct (_extract_instagram_caption media). }
  destruct (if is_video node then truthy_opt (video_url node) else None) as [vurl|] eqn:Hv.
  - apply bind_Ret_inv in H as (e & w1 & Hl & H). injection Hl as Hl <-.
    apply url_ext_nonempty in Hl; [|done].
    apply bind_Ret_inv in H as ([] & w2 & Hd & H).
    apply download_file_complete in Hd as (st & chunks & Hs & ->).
    injection H as <- <-. simpl. repeat split; try done.
    + destruct (is_video node); [done|discriminate].
    + destruct (is_video node); [|discriminate]. rewrite Hv. eauto.
    + intros p Hp. destruct w; simpl. by apply lookup_insert_ne.
  - apply bind_Ret_inv in H as (img & w1 & Hl & H). injection Hl as _ <-.
    destruct img as [iurl|]; [|discriminate].
    apply bind_Ret_inv in H as (e & w2 & Hl & H). injection Hl as Hl <-.
    apply url_ext_nonempty in Hl; [|done].
    apply bind_Ret_inv in H as ([] & w3 & Hd & H).
    apply download_file_complete in Hd as (st & chunks & Hs & ->).
    injection H as <- <-. simpl. repeat split; try done.
    + intros [Hvid [u Hu]]. rewrite Hvid in Hv. congruence.
    + intros p Hp. destruct w; simpl. by apply lookup_insert_ne.
Qed.

Lemma fetch_payload_world (E : Env) sc mt w r w' :
  _fetch_instagram_payload E sc mt w = (r, w') -> w' = w.
Proof.
  assert (forall page, (_fetch_instagram_payload_from_html E page w).2 = w) as Hhtml.
  { intros page. pose proof (fetch_html_outcome E page w) as H.
    destruct (_fetch_instagram_payload_from_html E page w) as [[p|e] w1]; [|done].
    by destruct H. }
  unfold _fetch_instagram_payload.
  destruct (http_get E _ _ _ _) as [response|]; [|by intros [= _ <-]].
  destruct (if resp_ok response then _ else NotJson) as [| |data].
  - intros H. specialize (Hhtml ("https://www.instagram.com/" ++ mt ++ "/" ++ sc ++ "/")).
    rewrite H in Hhtml. done.
  - by intros [= _ <-].
  - destruct (_ || _); [by intros [= _ <-]|].
    intros H. specialize (Hhtml ("https://www.instagram.com/" ++ mt ++ "/" ++ sc ++ "/")).
    rewrite H in Hhtml. done.
Qed.

(** X18.  Every result of the Instagram strategy has a title and an
    extension that are not empty, is stored as
    [downloads/<shortcode>.<ext>] or [downloads/<shortcode>_<k>.<ext>]
    with a non-empty shortcode, has no duration when it is a photo, and
    the call writes no other file. *)
Theorem instagram_result_shape (E : Env) url w r w' :
  _download_instagram_media E url w = (Ret r, w') ->
  title r <> "" /\ ext r <> ""
  /\ (exists shortcode index count,
        shortcode <> ""
        /\ file_path r = instagram_file_path shortcode index count (ext r))
  /\ (media_type r = Photo -> duration r = None)
  /\ forall p, p <> file_path r -> fs w' !! p = fs w !! p.
Proof.
  unfold _download_instagram_media. intros H.
  apply bind_Ret_inv in H as ([] & w1 & Hen & H). injection Hen as <-.
  apply bind_Ret_inv in H as ([[sc mt] idx] & w2 & Hx & H). injection Hx as Hx <-.
  destruct sc as [sc|]; [|discriminate].
  apply bind_Ret_inv in H as (payload & w3 & Hf & H).
  apply fetch_payload_world in Hf as ->.
  destruct (payload_media payload) as [media|]; [|discriminate].
  destruct (bool_decide (media_nodes media = [])); [discriminate|].
  destruct (media_nodes media !! _) as [node|]; [|discriminate].
  apply download_node_shape in H as (? & ? & ? & ? & _ & Hother).
  split; [done|]. split; [done|]. split; [|split; [done|]].
  - exists sc, (select_index idx (length (media_nodes media))), (length (media_nodes media)).
    split; [|done].
    unfold _extract_instagram_shortcode in Hx.
    destruct (Url.urlparse url); [|discriminate]. cbn [res_bind] in Hx.
    destruct (filter _ _); [discriminate|].
    injection Hx as Hx _ _.
    destruct (PyStr.truthy _) eqn:Ht; [|discriminate].
    injection Hx as <-. by destruct ((PyStr.split1 "?" _).1).
  - intros p Hp. rewrite Hother by done. by destruct w.
Qed.

Lemma instagram_result_shape_witness :
  exists shortcode index count,
    shortcode <> ""
    /\ "downloads/Cxyz_2.jpg" = instagram_file_path shortcode index count "jpg".
Proof.
  destruct (instagram_result_shape Examples.carousel_env
              "https://www.instagram.com/p/Cxyz/?img_index=2" Examples.empty_world
              {| file_path := "downloads/Cxyz_2.jpg"; title := "Three photos";
                 duration := None; ext := "jpg"; media_type := Photo |}
              (_download_instagram_media Examples.carousel_env
                 "https://www.instagram.com/p/Cxyz/?img_index=2"
                 Examples.empty_world).2) as (_ & _ & H & _).
  - vm_compute. reflexivity.
  - exact H.
Defined.

(** ** The handler *)

Lemma lift_world {A} (r : Res A) w : (lift r w).2 = w.
Proof. done. Qed.

Lemma deliver_world (C : Chat) result w : (deliver C result w).2 = w.
Proof.
  unfold deliver, bind, lift, try_except, stat_size, ret.
  destruct (get_me C); [|done].
  destruct (fs w !! file_path result); [|done].
  destruct (MAX_SIZE_BYTES <? _).
  { by destruct (report_oversize C). }
  destruct (send_media C _ result) as [[]|e]; simpl.
  - destruct (build_share_keyboard C) as [[]|]; [| |done].
    + destruct (edit_reply_markup C) as [[]|e]; simpl.
      * by destruct (record_download C).
      * destruct (is_bad_request e); [|done]. by destruct (record_download C).
    + by destruct (record_download C).
  - destruct (is_entity_too_large e); [|done].
    by destruct (report_too_large C).
Qed.

Lemma except_clauses_world (C : Chat) e w : (except_clauses C e w).2 = w.
Proof. unfold except_clauses. destruct e; try done; by destruct (is_bad_request _). Qed.

Lemma else_clause_world (C : Chat) w : (else_clause C w).2 = w.
Proof.
  unfold else_clause, try_except, lift.
  destruct (status_delete C) as [[]|e]; [done|]. by destruct (is_bad_request e).
Qed.

(** X19.  The handler releases what it was given.  When
    [download_video] returned a result, then on every way out of the
    handler (sent, too large, any Telegram or database failure) the state
    of the files is the one [cleanup_file] leaves: the file of the result
    is gone unless the operating system refuses the deletion, and no other
    file is touched.  When [download_video] raised, the handler deletes
    nothing and only reports: the message of a [DownloadError], or a fixed
    text for any other exception. *)
Theorem handler_releases_result (C : Chat) (E : Env) url w :
  match download_video E url w with
  | (Ret result, w1) =>
      (handle_download C E url w).2 = (cleanup_file E (file_path result) w1).2
      /\ fs (handle_download C E url w).2 !! file_path result
         = (if unlink_refused E (file_path result)
            then fs w1 !! file_path result else None)
      /\ forall p, p <> file_path result ->
           fs (handle_download C E url w).2 !! p = fs w1 !! p
  | (Raise error, w1) =>
      handle_download C E url w = (edit_text C
         (match error with
          | DownloadError msg => msg
          | _ => if is_bad_request error
                 then "Media yuborishda xatolik yuz berdi. Keyinroq urinib ko'ring."
                 else "Kutilmagan xato yuz berdi. Keyinroq urinib ko'ring."
          end), w1)
  end.
Proof.
  unfold handle_download.
  destruct (download_video E url w) as [[result|error] w1].
  - assert (forall (o : Res unit) w2, w2 = w1 ->
              (match cleanup_file E (file_path result) w2 with
               | (Ret _, w3) => (o, w3)
               | (Raise error, w3) => (Raise error, w3)
               end).2 = (cleanup_file E (file_path result) w1).2) as Hfin.
    { intros o w2 ->. rewrite cleanup_file_spec. done. }
    assert ((let '(outcome, w2) :=
               match deliver C result w1 with
               | (Ret Completed, w2) => else_clause C w2
               | (Ret Returned, w2) => (Ret (), w2)
               | (Raise error, w2) => except_clauses C error w2
               end in
             match cleanup_file E (file_path result) w2 with
             | (Ret _, w3) => (outcome, w3)
             | (Raise error, w3) => (Raise error, w3)
             end).2 = (cleanup_file E (file_path result) w1).2) as Heq.
    { pose proof (deliver_world C result w1) as Hd.
      destruct (deliver C result w1) as [[[]|e] w2]; simpl in Hd; subst w2.
      - apply Hfin. done.
      - pose proof (else_clause_world C w1) as He.
        destruct (else_clause C w1) as [o w2]. simpl in He. by apply Hfin.
      - pose proof (except_clauses_world C e w1) as He.
        destruct (except_clauses C e w1) as [o w2]. simpl in He. by apply Hfin. }
    rewrite Heq. split; [done|].
    rewrite cleanup_file_spec. cbn [snd]. unfold path_unlink.
    destruct (fs w1 !! file_path result) eqn:Hp.
    + destruct (unlink_refused E (file_path result)); cbn [snd].
      * split; [done|]. done.
      * split; [destruct w1; simpl; apply lookup_delete_eq|].
        intros p Hne. destruct w1; simpl. by apply lookup_delete_ne.
    + cbn [snd]. rewrite Hp. split; [by destruct (unlink_refused E _)|done].
  - unfold except_clauses, lift. destruct error; try done.
    all: by destruct (is_bad_request _).
Qed.

Lemma find_first {A} (f : A -> bool) (l : list A) x :
  List.find f l = Some x ->
  exists before after,
    l = (before ++ x :: after)%list /\ f x = true
    /\ forall c, In c before -> f c = false.
Proof.
  induction l as [|a l IH]; simpl; [discriminate|].
  destruct (f a) eqn:Ha.
  - intros [= <-]. exists [], l. repeat split; [done|]. by intros c [].
  - intros H. destruct (IH H) as (before & after & -> & Hx & Hb).
    exists (a :: before), after. repeat split; [done|].
    intros c [<-|Hin]; [done|]. by apply Hb.
Qed.

Lemma find_at_first {A} (f : A -> bool) (before after : list A) x :
  (forall c, In c before -> f c = false) -> f x = true ->
  List.find f (before ++ x :: after)%list = Some x.
Proof.
  intros Hb Hx. induction before as [|a before IH]; simpl.
  - by rewrite Hx.
  - rewrite (Hb a) by (by left). apply IH. intros c Hin. apply Hb. by right.
Qed.

(** X20.  [_process_download] leaves the world alone unless the message
    has a sender who passes the subscription check and the text contains a
    candidate that [is_supported_url] accepts; only then is a download
    attempted, and it is for the first such candidate of the text.
    Conversely, for such a message, once the status line is sent, the
    handler is the download of exactly that candidate. *)
Theorem process_download_gate (C : Chat) (E : Env) text w :
  ((_process_download C E text w).2 = w
   \/ exists t url before after,
        text = Some t
        /\ url_candidates C t = (before ++ url :: after)%list
        /\ (forall c, In c before -> is_supported_url c = false)
        /\ is_supported_url url = true
        /\ from_user C = true /\ ensure_user_subscription C = Ret true
        /\ (_process_download C E text w).2 = (handle_download C E url w).2)
  /\ (forall t url before after,
        from_user C = true -> add_or_update_user C = Ret tt ->
        ensure_user_subscription C = Ret true ->
        text = Some t -> t <> "" ->
        url_candidates C t = (before ++ url :: after)%list ->
        (forall c, In c before -> is_supported_url c = false) ->
        is_supported_url url = true ->
        answer_status C = Ret tt ->
        _process_download C E text w = handle_download C E url w).
Proof.
  split.
  - unfold _process_download.
    destruct (from_user C); [|by left]. cbn [negb].
    unfold bind at 1, lift at 1.
    destruct (add_or_update_user C); [|by left].
    unfold bind at 1, lift at 1.
    destruct (ensure_user_subscription C) as [[]|]; [| |by left].
    2:{ left. done. }
    cbn [negb].
    destruct (_extract_supported_url C text) as [url|] eqn:Hu; [|by left].
    unfold _extract_supported_url in Hu.
    destruct text as [t|]; [|discriminate].
    destruct (PyStr.truthy t); [|discriminate].
    apply find_first in Hu as (before & after & Hc & Hs & Hb).
    unfold bind, lift. destruct (answer_status C) as [[]|]; [|by left].
    right. exists t, url, before, after. done.
  - intros t url before after Hfrom Hadd Hsub -> Ht Hc Hb Hs Hans.
    unfold _process_download. rewrite Hfrom. cbn [negb].
    unfold bind at 1, lift at 1. rewrite Hadd.
    unfold bind at 1, lift at 1. rewrite Hsub. cbn [negb].
    unfold _extract_supported_url.
    assert (PyStr.truthy t = true) as -> by (by destruct t).
    rewrite Hc, (find_at_first _ _ _ _ Hb Hs).
    unfold bind, lift. by rewrite Hans.
Qed.

(** Of two supported links in one message the first is the one
    downloaded. *)
Lemma process_download_gate_witness :
  _process_download Examples.two_links_chat (Examples.flaky_env 3 0)
    (Some "https://inſtagram.com/p/x https://youtu.be/a https://youtu.be/b")
    Examples.empty_world
  = handle_download Examples.two_links_chat (Examples.flaky_env 3 0)
      "https://youtu.be/a" Examples.empty_world.
Proof.
  apply (proj2 (process_download_gate Examples.two_links_chat (Examples.flaky_env 3 0)
                  (Some "https://inſtagram.com/p/x https://youtu.be/a https://youtu.be/b")
                  Examples.empty_world)
           "https://inſtagram.com/p/x https://youtu.be/a https://youtu.be/b"
           "https://youtu.be/a"
           ["https://inſtagram.com/p/x"] ["https://youtu.be/b"]);
    try reflexivity.
  - discriminate.
  - intros c [<-|[]]. reflexivity.
Defined.

(** A download that Telegram refuses as too large is released all the
    same. *)
Example refused_upload_is_released :
  let out := _process_download Examples.refusing_chat (Examples.flaky_env 3 0)
               (Some "https://example.org/youtube.com/v") Examples.empty_world in
  out.1 = Ret tt /\ fs out.2 !! "downloads/abc.mp4" = None
  /\ extract_calls out.2 = 1%nat.
Proof. vm_compute. repeat split; reflexivity. Qed.

Example delivered_download_is_released :
  let out := _process_download Examples.smooth_chat (Examples.flaky_env 3 0)
               (Some "https://youtu.be/v") Examples.empty_world in
  out.1 = Ret tt /\ fs out.2 !! "downloads/abc.mp4" = None.
Proof. vm_compute. repeat split; reflexivity. Qed.
